(** * AI-Forge: the Swift API declaration extractor

    A shallow embedding of the declaration-extraction engine of
    [generate_api_optimized_dataset.py] (the same functions are duplicated
    verbatim in [generate_unified_dataset.py]):
    [version_to_tuple], [is_version_at_least], [parse_ios_availability],
    [clean_doc_lines], [normalize_line], [extract_api_elements] and
    [load_all_api_elements].

    Conventions of the embedding:
    - a Python [str] is a Rocq [string]; a character is a code point below
      256, so the character classes of Python ([str.strip], the regular
      expression classes [\s] and [\w]) are written out for that range;
    - a Python [int] is a [Z]; a tuple [(major, minor)] is a pair; the
      conversions between [int] and [str] raise [ValueError] beyond
      [Py.int_max_str_digits] digits, the default limit of the interpreter
      (4300), which the scripts never change;
    - [Optional[T]] is [option T];
    - an exception is the [Raise] branch of the [result] type, and a loop
      body that may raise is a step in that error monad;
    - the nesting stack [type_stack] is a list whose head is the top of the
      Python list (its last element, [type_stack[-1]]);
    - the [while] loops of [normalize_line] run on fuel, the length of the
      string they shorten; the loops are proved to stop before the fuel
      does. *)

From Stdlib Require Import ZArith Lia Bool Ascii String List.
From stdpp Require Import base list strings sorting.

Local Open Scope string_scope.
Local Open Scope list_scope.
Local Open Scope Z_scope.

(** ** Exceptions *)

Inductive exn : Type :=
  | OSError             (* the file cannot be opened or read *)
  | UnicodeDecodeError  (* the bytes are not UTF-8 *)
  | ValueError.         (* [int] on a string that is not a number, [int] and
                           [str] beyond the limit on the number of digits *)

Inductive result (A : Type) : Type :=
  | Ok (a : A)
  | Raise (e : exn).
Arguments Ok {A} a.
Arguments Raise {A} e.

Definition bind {A B : Type} (m : result A) (k : A -> result B) : result B :=
  match m with
  | Ok a => k a
  | Raise e => Raise e
  end.

Notation "'let*' x ':=' m 'in' k" := (bind m (fun x => k))
  (at level 10, x pattern, m at level 200, k at level 200).

(** ** Python string primitives *)

Module Py.

(** [str.isspace] on one character: the code points below 256 that
    [str.strip()] removes and that [\s] matches. *)
Definition isspace (c : ascii) : bool :=
  match c with
  | "009" | "010" | "011" | "012" | "013"
  | "028" | "029" | "030" | "031" | " "
  | "133" | "160" => true
  | _ => false
  end%char.

(** [[0-9]] *)
Definition isdigit (c : ascii) : bool :=
  match c with
  | "0" | "1" | "2" | "3" | "4" | "5" | "6" | "7" | "8" | "9" => true
  | _ => false
  end%char.

(** [\w] of a [str] pattern: [c.isalnum() or c == '_']. *)
Definition isword (c : ascii) : bool :=
  let n := N_of_ascii c in
  (isdigit c
   || ((65 <=? n) && (n <=? 90)) || ((97 <=? n) && (n <=? 122))
   || (n =? 95)
   || (n =? 170) || (n =? 178) || (n =? 179) || (n =? 181)
   || (n =? 185) || (n =? 186)
   || ((188 <=? n) && (n <=? 190))
   || ((192 <=? n) && (n <=? 214))
   || ((216 <=? n) && (n <=? 246))
   || ((248 <=? n) && (n <=? 255)))%N.

(** [bool(s)] *)
Definition truthy (s : string) : bool :=
  match s with
  | "" => false
  | String _ _ => true
  end.

(** [s.lstrip()] *)
Fixpoint lstrip (s : string) : string :=
  match s with
  | "" => ""
  | String c s' => if isspace c then lstrip s' else s
  end.

(** [s.rstrip()] *)
Fixpoint rstrip (s : string) : string :=
  match s with
  | "" => ""
  | String c s' =>
      match rstrip s' with
      | "" => if isspace c then "" else String c ""
      | r => String c r
      end
  end.

(** [s.strip()] *)
Definition strip (s : string) : string := rstrip (lstrip s).

(** [s.lstrip(c)] for a one-character argument *)
Fixpoint lstrip_char (c : ascii) (s : string) : string :=
  match s with
  | "" => ""
  | String d s' => if Ascii.eqb d c then lstrip_char c s' else s
  end.

(** [s.startswith(p)] *)
Fixpoint startswith (p s : string) : bool :=
  match p, s with
  | "", _ => true
  | String a p', String b s' => Ascii.eqb a b && startswith p' s'
  | String _ _, "" => false
  end.

(** The rest of [s] after the prefix [p], when [s.startswith(p)]. *)
Fixpoint strip_prefix (p s : string) : option string :=
  match p, s with
  | "", _ => Some s
  | String a p', String b s' =>
      if Ascii.eqb a b then strip_prefix p' s' else None
  | String _ _, "" => None
  end.

(** [sub in s] *)
Fixpoint contains (sub s : string) : bool :=
  startswith sub s
  || match s with
     | "" => false
     | String _ s' => contains sub s'
     end.

(** [s.count(c)] for a one-character argument *)
Fixpoint count (c : ascii) (s : string) : Z :=
  match s with
  | "" => 0
  | String d s' => (if Ascii.eqb d c then 1 else 0) + count c s'
  end.

(** [s.split(c, 1)]: a list of one or two strings. *)
Fixpoint split_once (c : ascii) (s : string) : list string :=
  match s with
  | "" => [""]
  | String d s' =>
      if Ascii.eqb d c then [""; s']
      else match split_once c s' with
           | [h] => [String d h]
           | h :: t => String d h :: t
           | [] => [String d ""]
           end
  end.

(** [s.split(c)]: never the empty list. *)
Fixpoint split (c : ascii) (s : string) : list string :=
  match s with
  | "" => [""]
  | String d s' =>
      if Ascii.eqb d c then "" :: split c s'
      else match split c s' with
           | h :: t => String d h :: t
           | [] => [String d ""]
           end
  end.

(** [sep.join(l)] *)
Fixpoint join (sep : string) (l : list string) : string :=
  match l with
  | [] => ""
  | [x] => x
  | x :: l' => x +:+ sep +:+ join sep l'
  end.

(** The longest prefix of characters satisfying [p], and the rest: what a
    greedy [p+] or [p*] consumes when no character that may follow it
    satisfies [p]. *)
Fixpoint span (p : ascii -> bool) (s : string) : string * string :=
  match s with
  | "" => ("", "")
  | String c s' =>
      if p c then let '(a, b) := span p s' in (String c a, b)
      else ("", s)
  end.

(** The value of a string of decimal digits, most significant first. *)
Definition digit_value (c : ascii) : Z := Z.of_N (N_of_ascii c) - 48.

Fixpoint digits_value (acc : Z) (s : string) : Z :=
  match s with
  | "" => acc
  | String c s' => digits_value (10 * acc + digit_value c) s'
  end.

(** The digits of a decimal literal: groups of digits separated by single
    underscores; [None] when the text is not of that form. [pending] says
    that a digit must come next (at the start and after an underscore). *)
Fixpoint literal_digits (pending : bool) (s : string) : option string :=
  match s with
  | "" => if pending then None else Some ""
  | String c s' =>
      if isdigit c then
        match literal_digits false s' with
        | Some ds => Some (String c ds)
        | None => None
        end
      else if Ascii.eqb c "_" then
        if pending then None else literal_digits true s'
      else None
  end.

(** The white space that [int] skips around a number, below code point
    256: that of [str.strip] without the separators 28 to 31, which [int]
    rejects ([int("\x1f3")] raises [ValueError]). *)
Definition isspace_int (c : ascii) : bool :=
  match c with
  | "009" | "010" | "011" | "012" | "013" | " " | "133" | "160" => true
  | _ => false
  end%char.

(** The text without its leading, and without its trailing, characters of
    a class. *)
Fixpoint lstrip_by (p : ascii -> bool) (s : string) : string :=
  match s with
  | "" => ""
  | String c s' => if p c then lstrip_by p s' else s
  end.

Fixpoint rstrip_by (p : ascii -> bool) (s : string) : string :=
  match s with
  | "" => ""
  | String c s' =>
      match rstrip_by p s' with
      | "" => if p c then "" else String c ""
      | r => String c r
      end
  end.

(** [sys.int_info.default_max_str_digits]: the largest number of digits
    that [int] reads from a [str] and that [str] writes for an [int]. The
    scripts leave the limit of the interpreter at this default. *)
Definition int_max_str_digits : Z := 4300.

(** [int(s)] in base 10: surrounding white space, an optional sign and a
    decimal literal of at most [int_max_str_digits] digits (leading zeros
    count, underscores do not); anything else raises [ValueError]. *)
Definition int (s : string) : result Z :=
  let t := rstrip_by isspace_int (lstrip_by isspace_int s) in
  let '(sign, body) :=
    match t with
    | String "-" b => (-1, b)
    | String "+" b => (1, b)
    | _ => (1, t)
    end in
  match literal_digits true body with
  | Some ds =>
      if Z.of_nat (String.length ds) <=? int_max_str_digits
      then Ok (sign * digits_value 0 ds)
      else Raise ValueError
  | None => Raise ValueError
  end.

(** [s.splitlines()]: the line boundaries below code point 256; [\r\n]
    is one boundary ([after_cr] remembers a pending [\r]); no empty line
    after a final boundary. [cur] is the current line, reversed. *)
Definition islinebreak (c : ascii) : bool :=
  match c with
  | "010" | "011" | "012" | "013" | "028" | "029" | "030" | "133" => true
  | _ => false
  end%char.

Fixpoint splitlines_go (after_cr : bool) (cur : string) (s : string)
  : list string :=
  match s with
  | "" => match cur with "" => [] | _ => [String.rev cur] end
  | String c s' =>
      if after_cr && Ascii.eqb c "010" then splitlines_go false "" s'
      else if islinebreak c then
        String.rev cur :: splitlines_go (Ascii.eqb c "013") "" s'
      else splitlines_go false (String c cur) s'
  end.

Definition splitlines (s : string) : list string :=
  splitlines_go false "" s.

(** [[a-z]] and [[A-Z]] *)
Definition islower (c : ascii) : bool :=
  let n := N_of_ascii c in ((97 <=? n) && (n <=? 122))%N.

Definition isupper (c : ascii) : bool :=
  let n := N_of_ascii c in ((65 <=? n) && (n <=? 90))%N.

(** The character of a decimal digit. *)
Definition digit_char (d : Z) : ascii := ascii_of_N (Z.to_N (48 + d)).

(** The decimal digits of a natural number, most significant first, in
    front of [acc]; one digit is written for each unit of fuel and one
    more. *)
Fixpoint nat_digits (fuel : nat) (n : Z) (acc : string) : string :=
  let acc' := String (digit_char (n mod 10)) acc in
  match fuel with
  | O => acc'
  | S fuel' => if n <? 10 then acc' else nat_digits fuel' (n / 10) acc'
  end.

(** [str(n)] for an [int], as an f-string formats it: the decimal digits,
    after a minus sign for a negative number; [ValueError] when there are
    more than [int_max_str_digits] digits. The fuel is the binary
    logarithm, which is at least the number of digits after the first. *)
Definition str_int (n : Z) : result string :=
  let m := Z.abs n in
  let ds := nat_digits (Z.to_nat (Z.log2 m)) m "" in
  if Z.of_nat (String.length ds) <=? int_max_str_digits
  then Ok (if n <? 0 then String "-" ds else ds)
  else Raise ValueError.

End Py.

(** ** Regular expressions

    Each pattern of the source is a matcher written with the combinators
    below, in continuation-passing style: a combinator consumes a prefix of
    the subject and hands the rest to its continuation, and an alternation
    falls back to its next branch when the continuation fails, as the
    backtracking engine of [re] does. *)

Module Re.

(** A literal. *)
Definition lit {A : Type} (p : string) (k : string -> option A)
  (s : string) : option A :=
  match Py.strip_prefix p s with
  | Some r => k r
  | None => None
  end.

(** [(a1|a2|...)]: the branches in order; the continuation receives the
    branch that matched. *)
Fixpoint alt {A : Type} (alts : list string)
  (k : string -> string -> option A) (s : string) : option A :=
  match alts with
  | [] => None
  | a :: alts' =>
      match lit a (k a) s with
      | Some x => Some x
      | None => alt alts' k s
      end
  end.

(** [(a1|a2|...)?]: greedy, the group is tried before its absence. *)
Definition opt_alt {A : Type} (alts : list string)
  (k : option string -> string -> option A) (s : string) : option A :=
  match alt alts (fun a => k (Some a)) s with
  | Some x => Some x
  | None => k None s
  end.

(** [\s*] before something that starts with no white space: the greedy
    match is the only one that can succeed. *)
Definition spaces0 {A : Type} (k : string -> option A) (s : string)
  : option A :=
  k (Py.lstrip s).

(** [\s+], likewise. *)
Definition spaces1 {A : Type} (k : string -> option A) (s : string)
  : option A :=
  match s with
  | String c s' => if Py.isspace c then k (Py.lstrip s') else None
  | "" => None
  end.

(** [(\w+)] closing a pattern: the group is the longest run. *)
Definition word1 (s : string) : option string :=
  let '(w, _) := Py.span Py.isword s in
  if Py.truthy w then Some w else None.

(** [\b] after a word character: the end, or a character outside [\w]. *)
Definition boundary (s : string) : bool :=
  match s with
  | "" => true
  | String c _ => negb (Py.isword c)
  end.

(** [([0-9]+(?:\.[0-9]+)?)] closing a pattern: the group. *)
Definition version_group (s : string) : option string :=
  let '(major, r) := Py.span Py.isdigit s in
  if Py.truthy major then
    match r with
    | String "." r' =>
        let '(minor, _) := Py.span Py.isdigit r' in
        if Py.truthy minor then Some (major +:+ "." +:+ minor)
        else Some major
    | _ => Some major
    end
  else None.

(** [re.search]: the leftmost position where the pattern matches. *)
Fixpoint search {A : Type} (m : string -> option A) (s : string)
  : option A :=
  match m s with
  | Some x => Some x
  | None =>
      match s with
      | "" => None
      | String _ s' => search m s'
      end
  end.

(** [re.sub] for a pattern that matches no empty text: [m s] gives the
    replacement and the rest of [s] after a match at the start of [s]; the
    scan goes on after the match, or after one character when there is
    none. The fuel is the length of the text. *)
Fixpoint sub (m : string -> option (string * string)) (fuel : nat)
  (s : string) : string :=
  match fuel with
  | O => s
  | S fuel' =>
      match s with
      | "" => ""
      | String c s' =>
          match m s with
          | Some (repl, rest) => repl +:+ sub m fuel' rest
          | None => String c (sub m fuel' s')
          end
      end
  end.

End Re.

(** ** Versions *)

Definition version : Type := Z * Z.

Definition MIN_IOS_VERSION : version := (17, 0).

(** [version_to_tuple] *)
Definition version_to_tuple (text : string) : result version :=
  let parts := Py.split "." (Py.strip text) in
  let* major := match parts with
                 | p0 :: _ => Py.int p0
                 | [] => Ok 0
                 end in
  let* minor := match parts with
                 | _ :: p1 :: _ => Py.int p1
                 | _ => Ok 0
                 end in
  Ok (major, minor).

(** Python's [>=] on pairs of integers. *)
Definition tuple_ge (v t : version) : bool :=
  (fst t <? fst v) || ((fst v =? fst t) && (snd t <=? snd v)).

(** [is_version_at_least] *)
Definition is_version_at_least (v : option version) (target : version)
  : bool :=
  match v with
  | None => false
  | Some v => tuple_ge v target
  end.

(** ** The availability interpreter *)

(** [iOS\s+([0-9]+(?:\.[0-9]+)?)], group 1 *)
Definition direct_re : string -> option string :=
  Re.lit "iOS" (Re.spaces1 Re.version_group).

(** [introduced:\s*([0-9]+(?:\.[0-9]+)?)], group 1 *)
Definition introduced_re : string -> option string :=
  Re.lit "introduced:" (Re.spaces0 Re.version_group).

Definition availability : Type := option version * bool * bool.

(** One iteration of the loop of [parse_ios_availability]. *)
Definition availability_step (acc : availability) (raw : string)
  : result availability :=
  let '(introduced, deprecated, unavailable) := acc in
  let line := Py.strip raw in
  if negb (Py.contains "iOS" line) then Ok acc
  else
    let unavailable :=
      if Py.contains "unavailable" line then true else unavailable in
    let deprecated :=
      if Py.contains "deprecated" line || Py.contains "obsoleted" line
      then true else deprecated in
    match Re.search direct_re line with
    | Some g =>
        let* v := version_to_tuple g in
        Ok (Some v, deprecated, unavailable)
    | None =>
        match Re.search introduced_re line with
        | Some g =>
            let* v := version_to_tuple g in
            Ok (Some v, deprecated, unavailable)
        | None => Ok (introduced, deprecated, unavailable)
        end
    end.

(** A [for] loop whose body may raise. *)
Fixpoint for_each {S X : Type} (body : S -> X -> result S) (xs : list X)
  (st : S) : result S :=
  match xs with
  | [] => Ok st
  | x :: xs' => let* st' := body st x in for_each body xs' st'
  end.

(** [parse_ios_availability] *)
Definition parse_ios_availability (avail_lines : list string)
  : result availability :=
  for_each availability_step avail_lines (None, false, false).

(** ** Documentation cleaning *)

Definition NL : string := String "010" "".

(** What [re.sub(r"\n{3,}", "\n\n", _)] leaves of a run of [n] newlines. *)
Definition newline_run (n : nat) : string :=
  match n with
  | O => ""
  | 1%nat => NL
  | _ => NL +:+ NL
  end.

(** [re.sub(r"\n{3,}", "\n\n", s)]; [n] newlines are pending. *)
Fixpoint collapse_newlines (n : nat) (s : string) : string :=
  match s with
  | "" => newline_run n
  | String c s' =>
      if Ascii.eqb c "010" then collapse_newlines (S n) s'
      else newline_run n +:+ String c (collapse_newlines 0 s')
  end.

(** [clean_doc_lines] *)
Definition clean_doc_lines (doc_lines : list string) : string :=
  let cleaned :=
    map (fun line => Py.strip (Py.lstrip_char "/" line)) doc_lines in
  let doc := Py.strip (Py.join NL cleaned) in
  collapse_newlines 0 doc.

(** ** Line normalisation *)

Definition leading_modifiers : list string :=
  ["nonisolated"; "inlinable"; "convenience"; "mutating";
   "consuming"; "borrowing"; "isolated"; "rethrows"].

Definition in_set (s : string) (l : list string) : bool :=
  existsb (String.eqb s) l.

(** The first loop of [normalize_line]:
    [while stripped.startswith("@") and " " in stripped]. *)
Fixpoint drop_attributes (fuel : nat) (stripped : string) : string :=
  match fuel with
  | O => stripped
  | S fuel' =>
      if Py.startswith "@" stripped && Py.contains " " stripped
      then drop_attributes fuel'
             (Py.strip (nth 1 (Py.split_once " " stripped) ""))
      else stripped
  end.

(** The second loop of [normalize_line]: [while True] with its [break]. *)
Fixpoint drop_modifiers (fuel : nat) (stripped : string) : string :=
  match fuel with
  | O => stripped
  | S fuel' =>
      match Py.split_once " " stripped with
      | p0 :: rest =>
          if in_set p0 leading_modifiers
          then drop_modifiers fuel'
                 (match rest with p1 :: _ => p1 | [] => "" end)
          else stripped
      | [] => stripped
      end
  end.

(** [normalize_line] *)
Definition normalize_line (line : string) : string :=
  let stripped := Py.strip line in
  let stripped := drop_attributes (String.length stripped) stripped in
  drop_modifiers (String.length stripped) stripped.

(** ** Declaration patterns *)

Definition visibility : list string :=
  ["public"; "open"; "internal"; "fileprivate"; "private"].

Definition type_keywords : list string :=
  ["actor"; "class"; "struct"; "enum"; "protocol"].

(** [(static\s+|class\s+)?] *)
Definition static_or_class {A : Type} (k : string -> option A)
  : string -> option A :=
  Re.opt_alt ["static"; "class"]
    (fun g => match g with
              | Some _ => Re.spaces1 k
              | None => k
              end).

(** [^(public|open|internal|fileprivate|private)?\s*
     (actor|class|struct|enum|protocol)\s+(\w+)], groups 2 and 3 *)
Definition type_decl_re : string -> option (string * string) :=
  Re.opt_alt visibility (fun _ =>
    Re.spaces0 (Re.alt type_keywords (fun kw =>
      Re.spaces1 (fun r =>
        match Re.word1 r with
        | Some name => Some (kw, name)
        | None => None
        end)))).

(** [^(public|open|internal|fileprivate|private)?\s*
     (static\s+|class\s+)?func\s+(\w+)], group 3 *)
Definition func_decl_re : string -> option string :=
  Re.opt_alt visibility (fun _ =>
    Re.spaces0 (static_or_class (Re.lit "func" (Re.spaces1 Re.word1)))).

(** [^(public|open|internal|fileprivate|private)?\s*
     (static\s+|class\s+)?init\b] *)
Definition init_decl_re : string -> option unit :=
  Re.opt_alt visibility (fun _ =>
    Re.spaces0 (static_or_class (Re.lit "init" (fun r =>
      if Re.boundary r then Some tt else None)))).

(** [^(public|open|internal|fileprivate|private)?\s*
     (static\s+|class\s+)?(var|let)\s+(\w+)], group 4 *)
Definition prop_decl_re : string -> option string :=
  Re.opt_alt visibility (fun _ =>
    Re.spaces0 (static_or_class (Re.alt ["var"; "let"] (fun _ =>
      Re.spaces1 Re.word1)))).

(** ** The declaration extractor *)

(** [ApiElement] *)
Record ApiElement : Type := mkApiElement {
  name : string;
  kind : string;  (* class | struct | enum | actor | protocol | func | property *)
  signature : string;
  doc : string;
  ios_introduced : option version;
  deprecated : bool;
  unavailable : bool;
  source_file : string;
  parent_type : option string
}.

(** [ApiElement.full_name] *)
Definition full_name (e : ApiElement) : string :=
  match parent_type e with
  | Some p =>
      if Py.truthy p && in_set (kind e) ["func"; "property"]
      then p +:+ "." +:+ name e
      else name e
  | None => name e
  end.

(** The local variables of [extract_api_elements] that live across
    iterations of its loop. *)
Record scan : Type := mkScan {
  elements : list ApiElement;
  doc_lines : list string;
  avail_lines : list string;
  type_stack : list (string * Z);  (* (type_name, depth), top first *)
  brace_depth : Z
}.

Definition scan_init : scan := mkScan [] [] [] [] 0.

(** [bool(x)] for an optional string. *)
Definition truthy_opt (x : option string) : bool :=
  match x with
  | Some s => Py.truthy s
  | None => false
  end.

(** [while type_stack and brace_depth < type_stack[-1][1]: type_stack.pop()] *)
Fixpoint pop_exited (depth : Z) (stack : list (string * Z))
  : list (string * Z) :=
  match stack with
  | (n, d) :: stack' =>
      if depth <? d then pop_exited depth stack' else stack
  | [] => []
  end.

(** The [if]/[elif] chain that names the declaration on a line:
    [(type_match, element_kind, element_name)]. *)
Definition classify (normalized : string)
  : option (string * string) * option string * option string :=
  let type_match := type_decl_re normalized in
  let func_match := func_decl_re normalized in
  let prop_match := prop_decl_re normalized in
  match type_match with
  | Some (kw, nm) => (type_match, Some kw, Some nm)
  | None =>
      match func_match with
      | Some nm => (type_match, Some "func", Some nm)
      | None =>
          match init_decl_re normalized with
          | Some _ => (type_match, Some "func", Some "init")
          | None =>
              match prop_match with
              | Some nm => (type_match, Some "property", Some nm)
              | None => (type_match, None, None)
              end
          end
      end
  end.

(** The [if element_kind and element_name:] block: the element is appended
    when it is eligible, and both buffers are reset. *)
Definition emit (swift_file : string) (st : scan) (stripped : string)
  (element_kind element_name : string) : result scan :=
  let parent_type :=
    match type_stack st with
    | (n, _) :: _ => Some n
    | [] => None
    end in
  let* (introduced, deprecated, unavailable) :=
    parse_ios_availability (avail_lines st) in
  let elements :=
    if is_version_at_least introduced MIN_IOS_VERSION
       && negb deprecated && negb unavailable
    then
      let doc := clean_doc_lines (doc_lines st) in
      let signature_lines := map Py.strip (avail_lines st) ++ [stripped] in
      let signature := Py.join NL signature_lines in
      elements st ++
        [mkApiElement element_name element_kind signature doc introduced
           deprecated unavailable swift_file parent_type]
    else elements st in
  Ok (mkScan elements [] [] (type_stack st) (brace_depth st)).

(** The brace and nesting update of one line. *)
Definition track_braces (st : scan) (line : string)
  (type_match : option (string * string)) : scan :=
  let open_braces := Py.count "{" line in
  let close_braces := Py.count "}" line in
  let brace_depth := brace_depth st + (open_braces - close_braces) in
  let type_stack :=
    match type_match with
    | Some (_, element_name) =>
        if 0 <? open_braces
        then (element_name, brace_depth) :: type_stack st
        else type_stack st
    | None => type_stack st
    end in
  let type_stack := pop_exited brace_depth type_stack in
  mkScan (elements st) (doc_lines st) (avail_lines st) type_stack brace_depth.

(** The body of the loop [for line in lines] of [extract_api_elements]. *)
Definition scan_line (swift_file : string) (st : scan) (line : string)
  : result scan :=
  let stripped := Py.strip line in
  if Py.startswith "///" stripped then
    Ok (mkScan (elements st) (doc_lines st ++ [stripped]) (avail_lines st)
          (type_stack st) (brace_depth st))
  else if Py.startswith "@available" stripped then
    Ok (mkScan (elements st) (doc_lines st) (avail_lines st ++ [stripped])
          (type_stack st) (brace_depth st))
  else
    let normalized := normalize_line stripped in
    let '(type_match, element_kind, element_name) := classify normalized in
    let* st :=
      match element_kind, element_name with
      | Some k, Some n =>
          if Py.truthy k && Py.truthy n then emit swift_file st stripped k n
          else Ok st
      | _, _ => Ok st
      end in
    let st := track_braces st line type_match in
    if Py.startswith "@" stripped && negb (truthy_opt element_kind) then
      Ok st
    else if negb (truthy_opt element_kind) && Py.truthy stripped
            && negb (Py.startswith "//" stripped) then
      Ok (mkScan (elements st) [] [] (type_stack st) (brace_depth st))
    else Ok st.

(** The loop of [extract_api_elements] over the lines of one file. *)
Definition scan_lines (swift_file : string) (lines : list string)
  (st : scan) : result scan :=
  for_each (scan_line swift_file) lines st.

(** [extract_api_elements] once the text of the file is read. *)
Definition extract_lines (swift_file : string) (lines : list string)
  : result (list ApiElement) :=
  let* st := scan_lines swift_file lines scan_init in
  Ok (elements st).

(** ** Files *)

(** The directory [api_dir] as the extractor sees it: the names that
    [api_dir.glob("*.swift")] yields, in the order the file system lists
    them, and what [read_text(encoding="utf-8")] returns for a name. *)
Record directory : Type := mkDirectory {
  glob_swift : list string;
  read_text : string -> result string
}.

(** [extract_api_elements] *)
Definition extract_api_elements (dir : directory) (swift_file : string)
  : result (list ApiElement) :=
  let* text := read_text dir swift_file in
  let lines := Py.splitlines text in
  extract_lines swift_file lines.

(** [sorted] on the paths of one directory: by name, code point by code
    point. *)
Definition sorted (l : list string) : list string :=
  merge_sort String.le l.

(** The body of the loop of [load_all_api_elements]. *)
Definition load_file (dir : directory) (elements : list ApiElement)
  (swift_file : string) : result (list ApiElement) :=
  let* file_elements := extract_api_elements dir swift_file in
  Ok (elements ++ file_elements).

(** [load_all_api_elements] *)
Definition load_all_api_elements (dir : directory)
  : result (list ApiElement) :=
  for_each (load_file dir) (sorted (glob_swift dir)) [].

(** ** Presentation *)

(** [format_availability]; the f-string formats [major], then [minor]. *)
Definition format_availability (element : ApiElement) : result string :=
  match ios_introduced element with
  | None => Ok "iOS 17+"
  | Some (major, minor) =>
      let* a := Py.str_int major in
      let* b := Py.str_int minor in
      Ok ("iOS " +:+ a +:+ "." +:+ b +:+ "+")
  end.

(** [build_output_text] ([build_api_output] in the unified script); the
    source file is its name in the directory. *)
Definition build_output_text (element : ApiElement) : result string :=
  let parts := [] in
  let parts :=
    if Py.truthy (doc element) then parts ++ [doc element; ""] else parts in
  let parts :=
    parts ++ ["Declaration:"; "```swift"; Py.strip (signature element);
              "```"; ""] in
  let* avail := format_availability element in
  let parts := parts ++ ["Availability: " +:+ avail] in
  let parts :=
    match parent_type element with
    | Some p => if Py.truthy p then parts ++ ["Member of: " +:+ p] else parts
    | None => parts
    end in
  let parts := parts ++ ["Source: " +:+ source_file element] in
  Ok (Py.strip (Py.join NL parts)).

(** A row of the dataset: [{"instruction": _, "input": _, "output": _}]. *)
Record row : Type := mkRow {
  instruction : string;
  input : string;
  output : string
}.

(** [build_instruction_examples] ([build_api_examples] in the unified
    script) *)
Definition build_instruction_examples (element : ApiElement)
  : result (list row) :=
  let* output := build_output_text element in
  let base := full_name element in
  let* avail := format_availability element in
  let templates :=
    if in_set (kind element) ["class"; "struct"; "enum"; "actor"; "protocol"]
    then
      ["Explain the " +:+ kind element +:+ " " +:+ base +:+ " for "
         +:+ avail +:+ ".";
       "Show the Swift declaration and summary for " +:+ base +:+ " on "
         +:+ avail +:+ "."]
    else if String.eqb (kind element) "func" then
      ["How do I use " +:+ base +:+ "() on " +:+ avail +:+ "?";
       "Describe the purpose of " +:+ base
         +:+ " and show its declaration for " +:+ avail +:+ "."]
    else
      ["What does " +:+ base +:+ " provide on " +:+ avail +:+ "?";
       "Document the property " +:+ base +:+ " for " +:+ avail +:+ "."] in
  Ok (map (fun template => mkRow template "" output) templates).

(** The loop of [main] that expands the elements into the dataset:
    [dataset.extend(build_instruction_examples(element))]. *)
Definition build_dataset (elements : list ApiElement) : result (list row) :=
  for_each
    (fun dataset element =>
       let* rows := build_instruction_examples element in
       Ok (dataset ++ rows))
    elements [].

(** ** Names of the code examples *)

(** [([a-z])([A-Z])] replaced by [\1 \2] *)
Definition lower_upper (s : string) : option (string * string) :=
  match s with
  | String a (String b rest) =>
      if Py.islower a && Py.isupper b
      then Some (String a (String " " (String b "")), rest)
      else None
  | _ => None
  end.

(** [([A-Z]+)([A-Z][a-z])]: the groups and the rest. The greedy [+] takes
    one more letter when the pattern can still be completed after it, and
    hands over to the second group otherwise. *)
Fixpoint uppers_then_word (s : string) : option (string * string * string) :=
  match s with
  | String a s' =>
      if Py.isupper a then
        match uppers_then_word s' with
        | Some (g1, g2, rest) => Some (String a g1, g2, rest)
        | None =>
            match s' with
            | String b (String c rest) =>
                if Py.isupper b && Py.islower c
                then Some (String a "", String b (String c ""), rest)
                else None
            | _ => None
            end
        end
      else None
  | "" => None
  end.

(** [([A-Z]+)([A-Z][a-z])] replaced by [\1 \2] *)
Definition acronym_word (s : string) : option (string * string) :=
  match uppers_then_word s with
  | Some (g1, g2, rest) => Some (g1 +:+ " " +:+ g2, rest)
  | None => None
  end.

(** [SwiftCodeExampleParser._to_readable] *)
Definition to_readable (text : string) : string :=
  let result := Re.sub lower_upper (String.length text) text in
  Re.sub acronym_word (String.length result) result.

(** [SwiftCodeExampleParser._parse_file_name] *)
Definition parse_file_name (file_name : string) : string * string :=
  let parts := Py.split_once "_" file_name in
  let topic := nth 0 parts "" in
  let subtopic :=
    match parts with
    | _ :: p1 :: _ => p1
    | _ => "Introduction"
    end in
  (to_readable topic, to_readable subtopic).

(** * Vocabulary of the statements *)

(** Every character of the string satisfies [p]. *)
Fixpoint all_chars (p : ascii -> bool) (s : string) : bool :=
  match s with
  | "" => true
  | String c s' => p c && all_chars p s'
  end.

(** A non-empty string of decimal digits. *)
Definition is_number (s : string) : bool :=
  Py.truthy s && all_chars Py.isdigit s.

(** A text of at most [Py.int_max_str_digits] characters: every number
    written in it is within the limit of [int]. *)
Definition short (s : string) : bool :=
  Z.of_nat (String.length s) <=? Py.int_max_str_digits.

(** The number written with [n] nines, the largest of [n] digits. *)
Fixpoint nines (n : nat) : string :=
  match n with
  | O => ""
  | S n' => String "9" (nines n')
  end.

(** A natural number that [str] can write: at most
    [Py.int_max_str_digits] digits. *)
Definition bounded (n : Z) : Prop :=
  0 <= n < 10 ^ Py.int_max_str_digits.

(** The group of a version pattern is a number or two numbers around a
    dot. *)
Definition version_text (g : string) : Prop :=
  (is_number g = true)
  \/ (exists a b, is_number a = true /\ is_number b = true
                  /\ g = a +:+ "." +:+ b).

(** The kinds that [classify] gives to a type declaration. *)
Definition is_type_kind (k : string) : bool := in_set k type_keywords.

(** The element that [emit] builds. *)
Definition element_of (swift_file : string) (st : scan) (stripped k n : string)
  (a : availability) : ApiElement :=
  let '(introduced, deprecated, unavailable) := a in
  mkApiElement n k
    (Py.join NL (map Py.strip (avail_lines st) ++ [stripped]))
    (clean_doc_lines (doc_lines st))
    introduced deprecated unavailable swift_file
    (match type_stack st with
     | (p, _) :: _ => Some p
     | [] => None
     end).

(** The eligibility test of [emit]. *)
Definition eligible (a : availability) : bool :=
  let '(introduced, deprecated, unavailable) := a in
  is_version_at_least introduced MIN_IOS_VERSION
  && negb deprecated && negb unavailable.

(** A line that is neither documentation nor availability. *)
Definition candidate (line : string) : Prop :=
  Py.startswith "///" (Py.strip line) = false
  /\ Py.startswith "@available" (Py.strip line) = false.

(** An availability line that makes the next declaration eligible. *)
Definition AT17 : string := "@available(iOS 17.0, *)".

(** The depth recorded at the top of the stack is at most the counter. *)
Definition stack_bounded (st : scan) : Prop :=
  match type_stack st with
  | (_, d) :: _ => d <= brace_depth st
  | [] => True
  end.

(** [type_stack[-1][0] if type_stack else None] *)
Definition top_name (stack : list (string * Z)) : option string :=
  match stack with
  | (n, _) :: _ => Some n
  | [] => None
  end.

(** A directory of two files, the first of which is not UTF-8. *)
Definition undecodable_first : directory :=
  mkDirectory ["b.swift"; "a.swift"]
    (fun f =>
       if String.eqb f "a.swift" then Raise UnicodeDecodeError
       else Ok ("@available(iOS 17.0, *)" +:+ NL +:+ "public struct Foo {}")).

(** The elements of one file, none when it cannot be read. *)
Definition file_elements (dir : directory) (swift_file : string)
  : list ApiElement :=
  match extract_api_elements dir swift_file with
  | Ok es => es
  | Raise _ => []
  end.

(** Two files, listed in two orders. *)
Definition two_files (f : string) : result string :=
  if String.eqb f "A.swift"
  then Ok ("@available(iOS 17.0, *)" +:+ NL +:+ "public struct A {}")
  else Ok ("@available(iOS 18.0, *)" +:+ NL +:+ "public func b()").

Definition listed_ba : directory := mkDirectory ["b.swift"; "A.swift"] two_files.
Definition listed_ab : directory := mkDirectory ["A.swift"; "b.swift"] two_files.

(** An availability line. *)
Definition is_avail (line : string) : Prop :=
  Py.startswith "@available" (Py.strip line) = true.

(** A documentation or availability line: it only feeds a buffer. *)
Definition is_context (line : string) : bool :=
  Py.startswith "///" (Py.strip line)
  || Py.startswith "@available" (Py.strip line).

(** The match of the type pattern on a line. *)
Definition type_match_of (line : string) : option (string * string) :=
  fst (fst (classify (normalize_line (Py.strip line)))).

(** The nesting state [(type_stack, brace_depth)] after a line. *)
Definition nest_line (n : list (string * Z) * Z) (line : string)
  : list (string * Z) * Z :=
  if is_context line then n
  else
    let st := track_braces (mkScan [] [] [] (fst n) (snd n)) line
                (type_match_of line) in
    (type_stack st, brace_depth st).

(** The line names the platform. *)
Definition mentions_ios (line : string) : bool :=
  Py.contains "iOS" (Py.strip line).

(** A line that cannot set [introduced]: it does not name the platform, or
    neither pattern is found on it. *)
Definition silent (line : string) : Prop :=
  mentions_ios line = false
  \/ (Re.search direct_re (Py.strip line) = None
      /\ Re.search introduced_re (Py.strip line) = None).

(** The line names the platform and sets a flag. *)
Definition marks_unavailable (line : string) : bool :=
  mentions_ios line && Py.contains "unavailable" (Py.strip line).

Definition marks_deprecated (line : string) : bool :=
  mentions_ios line
  && (Py.contains "deprecated" (Py.strip line)
      || Py.contains "obsoleted" (Py.strip line)).

(** The first word of a text: [s.split(" ", 1)[0]]. *)
Definition first_word (s : string) : string :=
  nth 0 (Py.split_once " " s) "".

(** A word without white space that does not start an attribute, and an
    attribute token. *)
Definition is_plain_word (s : string) : bool :=
  Py.truthy s && negb (Py.startswith "@" s)
  && all_chars (fun c => negb (Py.isspace c)) s.

Definition is_attribute (s : string) : bool :=
  Py.startswith "@" s && all_chars (fun c => negb (Py.isspace c)) s.

(** The text [normalize_line] works on. *)
Definition trimmed (r : string) : Prop :=
  Py.strip r = r /\ Py.truthy r = true.

(** The seven kinds of an element. *)
Definition element_kinds : list string :=
  ["class"; "struct"; "enum"; "actor"; "protocol"; "func"; "property"].

(** An availability-buffer entry taken from the lines of the input. *)
Definition from_input (lines : list string) (a : string) : Prop :=
  exists l, In l lines /\ is_avail l /\ a = Py.strip l.

(** What every element of a scan of [lines] satisfies: it passed the
    eligibility test with a version of natural numbers that [str] can
    write, and its name, kind and signature come from one declaration line
    of the input and from availability lines of the input. *)
Definition emitted_from (swift_file : string) (lines : list string)
  (e : ApiElement) : Prop :=
  source_file e = swift_file
  /\ (exists major minor,
        ios_introduced e = Some (major, minor)
        /\ tuple_ge (major, minor) MIN_IOS_VERSION = true
        /\ bounded major /\ bounded minor)
  /\ deprecated e = false /\ unavailable e = false
  /\ Py.truthy (name e) = true
  /\ In (kind e) element_kinds
  /\ (exists line tm avail,
        In line lines /\ candidate line
        /\ classify (normalize_line (Py.strip line))
           = (tm, Some (kind e), Some (name e))
        /\ Forall (from_input lines) avail
        /\ signature e = Py.join NL (avail ++ [Py.strip line])).

(** A documentation line. *)
Definition is_doc (line : string) : bool :=
  Py.startswith "///" (Py.strip line).

(** The availability lines among documentation and availability lines. *)
Definition is_avail_line (line : string) : bool :=
  negb (is_doc line) && Py.startswith "@available" (Py.strip line).

(** The text without its spaces. *)
Fixpoint unspace (s : string) : string :=
  match s with
  | "" => ""
  | String c s' =>
      if Ascii.eqb c " " then unspace s' else String c (unspace s')
  end.

(** Three newlines in a row. *)
Definition NL3 : string := NL +:+ NL +:+ NL.

(** A version is made of natural numbers that [str] can write. *)
Definition natural_version (i : option version) : Prop :=
  match i with
  | Some (major, minor) => bounded major /\ bounded minor
  | None => True
  end.

(** The version of an element can be written. *)
Definition printable (e : ApiElement) : Prop :=
  natural_version (ios_introduced e).

(** The invariant of the scan of [lines]: the elements so far and the
    availability buffer come from the input. *)
Definition scan_invariant (swift_file : string) (lines : list string)
  (st : scan) : Prop :=
  Forall (emitted_from swift_file lines) (elements st)
  /\ Forall (from_input lines) (avail_lines st).

(** The text of a file whose lines each end with a newline. *)
Fixpoint terminated (lines : list string) : string :=
  match lines with
  | [] => ""
  | l :: lines' => l +:+ NL +:+ terminated lines'
  end.

(** The braces opened less the braces closed on the lines that are
    neither documentation nor availability lines. *)
Fixpoint net_braces (lines : list string) : Z :=
  match lines with
  | [] => 0
  | l :: lines' =>
      (if is_context l then 0 else Py.count "{" l - Py.count "}" l)
      + net_braces lines'
  end.

(** * Properties *)

Arguments Py.startswith : simpl never.
Arguments Py.contains : simpl never.
Arguments Py.strip : simpl never.
Arguments Py.join : simpl never.
Arguments Py.count : simpl never.
Arguments normalize_line : simpl never.
Arguments classify : simpl never.
Arguments clean_doc_lines : simpl never.
Arguments parse_ios_availability : simpl never.
Arguments in_set : simpl never.

(** ** The string primitives on examples *)

Example split_once_1 : Py.split_once " " "mutating func f()" = ["mutating"; "func f()"].
Proof. reflexivity. Qed.
Example split_once_2 : Py.split_once " " "func" = ["func"].
Proof. reflexivity. Qed.
Example split_dot : Py.split "." "17.0" = ["17"; "0"].
Proof. reflexivity. Qed.
Example strip_1 : Py.strip "  a b  " = "a b".
Proof. reflexivity. Qed.
Example int_1 : Py.int " 1_7 " = Ok 17.
Proof. reflexivity. Qed.
Example int_2 : Py.int "1__7" = Raise ValueError.
Proof. reflexivity. Qed.
Example int_3 : Py.int "" = Raise ValueError.
Proof. reflexivity. Qed.
Example int_4 : Py.int (String "160" "3") = Ok 3.
Proof. reflexivity. Qed.
Example int_5 : Py.int (String "031" "3") = Raise ValueError.
Proof. reflexivity. Qed.
Example int_6 : Py.int "+ 3" = Raise ValueError.
Proof. reflexivity. Qed.
Example int_limit :
  Py.int (nines 4300) = Ok (10 ^ 4300 - 1)
  /\ Py.int (nines 4301) = Raise ValueError
  /\ Py.int (String "0" (nines 4300)) = Raise ValueError.
Proof. vm_compute. repeat split. Qed.
Example str_int_1 : Py.str_int 17 = Ok "17".
Proof. reflexivity. Qed.
Example str_int_2 : Py.str_int 0 = Ok "0".
Proof. reflexivity. Qed.
Example str_int_3 : Py.str_int (-240) = Ok "-240".
Proof. reflexivity. Qed.
Example splitlines_1 :
  Py.splitlines (String "a" (String "013" (String "010" (String "010" "b"))))
  = ["a"; ""; "b"].
Proof. reflexivity. Qed.

(** ** The error monad and the loops *)

Lemma bind_ok {A B : Type} (m : result A) (k : A -> result B) (b : B) :
  bind m k = Ok b -> exists a, m = Ok a /\ k a = Ok b.
Proof. destruct m as [a|e]; simpl; [eauto | discriminate]. Qed.

Lemma for_each_app {S X : Type} (body : S -> X -> result S)
  (xs ys : list X) (st : S) :
  for_each body (xs ++ ys) st
  = bind (for_each body xs st) (for_each body ys).
Proof.
  revert st. induction xs as [|x xs IH]; intros st; simpl; [reflexivity|].
  destruct (body st x) as [st'|e]; simpl; [apply IH | reflexivity].
Qed.

Lemma for_each_total {S X : Type} (body : S -> X -> result S)
  (xs : list X) :
  (forall st x, In x xs -> exists st', body st x = Ok st') ->
  forall st, exists st', for_each body xs st = Ok st'.
Proof.
  induction xs as [|x xs IH]; intros Hbody st; simpl; [eauto|].
  destruct (Hbody st x (or_introl eq_refl)) as [st' ->]. simpl.
  apply IH. intros st0 y Hy. apply Hbody. now right.
Qed.

(** A loop that raises does so in its body, on one of the items. *)
Lemma for_each_raises {S X : Type} (body : S -> X -> result S)
  (xs : list X) :
  forall st e,
    for_each body xs st = Raise e ->
    exists st0 x, In x xs /\ body st0 x = Raise e.
Proof.
  induction xs as [|x xs IH]; intros st e; simpl; [discriminate|].
  destruct (body st x) as [st'|e'] eqn:Hb; simpl.
  - intros (st0 & y & Hy & H)%IH. exists st0, y. split; [now right | exact H].
  - intros [= <-]. exists st, x. split; [now left | exact Hb].
Qed.

(** A loop whose body returns under an invariant that it keeps returns,
    and the invariant holds at the end. *)
Lemma for_each_progress {S X : Type} (body : S -> X -> result S)
  (P : S -> Prop) (xs : list X) :
  (forall st x, In x xs -> P st -> exists st', body st x = Ok st' /\ P st') ->
  forall st, P st -> exists st', for_each body xs st = Ok st' /\ P st'.
Proof.
  induction xs as [|x xs IH]; intros Hbody st HP; simpl; [eauto|].
  destruct (Hbody st x (or_introl eq_refl) HP) as (st1 & -> & HP1). simpl.
  apply IH; [|exact HP1]. intros st0 y Hy. apply Hbody. now right.
Qed.

Lemma for_each_invariant {S X : Type} (body : S -> X -> result S)
  (P : S -> Prop) :
  (forall st x st', P st -> body st x = Ok st' -> P st') ->
  forall xs st st', P st -> for_each body xs st = Ok st' -> P st'.
Proof.
  intros Hbody xs. induction xs as [|x xs IH]; intros st st' HP; simpl.
  - intros [= <-]. exact HP.
  - intros H. apply bind_ok in H as (st1 & H1 & H2). eauto.
Qed.

(** ** Strings of digits *)

Lemma string_app_nil_l (s : string) : "" +:+ s = s.
Proof. reflexivity. Qed.

Lemma string_app_cons (c : ascii) (a b : string) :
  String c a +:+ b = String c (a +:+ b).
Proof. reflexivity. Qed.

Ltac unfold_app := rewrite ?string_app_cons, ?string_app_nil_l.

Lemma string_app_nil_r (s : string) : s +:+ "" = s.
Proof.
  induction s as [|c s IH]; unfold_app; [reflexivity | now rewrite IH].
Qed.

Lemma string_app_assoc (a b c : string) : (a +:+ b) +:+ c = a +:+ (b +:+ c).
Proof.
  induction a as [|x a IH]; unfold_app; [reflexivity | now rewrite IH].
Qed.

Lemma span_all (p : ascii -> bool) (s a b : string) :
  Py.span p s = (a, b) -> all_chars p a = true /\ s = a +:+ b.
Proof.
  revert a b. induction s as [|c s IH]; intros a b; simpl.
  - intros [= <- <-]. auto.
  - destruct (p c) eqn:Hc.
    + destruct (Py.span p s) as [a' b'] eqn:Hs. intros [= <- <-].
      destruct (IH a' b' eq_refl) as [Ha ->]. simpl. rewrite Hc, Ha. auto.
    + intros [= <- <-]. auto.
Qed.

Lemma isdigit_not_space (c : ascii) :
  Py.isdigit c = true -> Py.isspace c = false.
Proof.
  destruct c as [[] [] [] [] [] [] [] []]; simpl; congruence.
Qed.

Lemma isdigit_not_dot (c : ascii) :
  Py.isdigit c = true -> Ascii.eqb c "." = false.
Proof.
  destruct c as [[] [] [] [] [] [] [] []]; simpl; congruence.
Qed.

Lemma isdigit_not_sign (c : ascii) :
  Py.isdigit c = true -> c <> "-"%char /\ c <> "+"%char.
Proof.
  destruct c as [[] [] [] [] [] [] [] []]; simpl; intros H; split; congruence.
Qed.

(** A string free of white space at both ends is its own [strip]. *)
Lemma rstrip_no_space (s : string) :
  all_chars (fun c => negb (Py.isspace c)) s = true -> Py.rstrip s = s.
Proof.
  induction s as [|c s IH]; simpl; [reflexivity|].
  intros [Hc Hs]%andb_prop. rewrite (IH Hs).
  destruct s; [|reflexivity].
  apply negb_true_iff in Hc. now rewrite Hc.
Qed.

Lemma strip_no_space (s : string) :
  all_chars (fun c => negb (Py.isspace c)) s = true -> Py.strip s = s.
Proof.
  intros H. unfold Py.strip.
  assert (Py.lstrip s = s) as ->.
  { destruct s as [|c s]; simpl in *; [reflexivity|].
    apply andb_prop in H as [Hc _]. apply negb_true_iff in Hc.
    now rewrite Hc. }
  now apply rstrip_no_space.
Qed.

Lemma all_chars_impl (p q : ascii -> bool) (s : string) :
  (forall c, p c = true -> q c = true) ->
  all_chars p s = true -> all_chars q s = true.
Proof.
  intros Hpq. induction s as [|c s IH]; simpl; [auto|].
  intros [Hc Hs]%andb_prop. rewrite (Hpq _ Hc), (IH Hs). reflexivity.
Qed.

Lemma all_chars_app (p : ascii -> bool) (a b : string) :
  all_chars p (a +:+ b) = all_chars p a && all_chars p b.
Proof.
  induction a as [|c a IH]; unfold_app; simpl; [reflexivity|].
  now rewrite IH, andb_assoc.
Qed.

Lemma digits_no_space (s : string) :
  all_chars Py.isdigit s = true ->
  all_chars (fun c => negb (Py.isspace c)) s = true.
Proof.
  apply all_chars_impl. intros c Hc.
  now rewrite (isdigit_not_space c Hc).
Qed.

Lemma literal_digits_number (s : string) :
  all_chars Py.isdigit s = true ->
  Py.literal_digits false s = Some s.
Proof.
  induction s as [|c s IH]; simpl; [reflexivity|].
  intros [Hc Hs]%andb_prop. now rewrite Hc, (IH Hs).
Qed.

Lemma isdigit_not_space_int (c : ascii) :
  Py.isdigit c = true -> Py.isspace_int c = false.
Proof.
  destruct c as [[] [] [] [] [] [] [] []]; simpl; congruence.
Qed.

Lemma lstrip_by_none (p : ascii -> bool) (s : string) :
  all_chars (fun c => negb (p c)) s = true -> Py.lstrip_by p s = s.
Proof.
  destruct s as [|c s]; simpl; [reflexivity|].
  intros [Hc _]%andb_prop. apply negb_true_iff in Hc. now rewrite Hc.
Qed.

Lemma rstrip_by_none (p : ascii -> bool) (s : string) :
  all_chars (fun c => negb (p c)) s = true -> Py.rstrip_by p s = s.
Proof.
  induction s as [|c s IH]; simpl; [reflexivity|].
  intros [Hc Hs]%andb_prop. rewrite (IH Hs).
  destruct s; [|reflexivity].
  apply negb_true_iff in Hc. now rewrite Hc.
Qed.

Lemma digits_no_space_int (s : string) :
  all_chars Py.isdigit s = true ->
  all_chars (fun c => negb (Py.isspace_int c)) s = true.
Proof.
  apply all_chars_impl. intros c Hc.
  now rewrite (isdigit_not_space_int c Hc).
Qed.

(** [int] on a string of digits is its decimal value when the string is
    within the limit, and raises beyond it. *)
Lemma int_number (s : string) :
  is_number s = true ->
  Py.int s = if short s then Ok (Py.digits_value 0 s) else Raise ValueError.
Proof.
  unfold is_number. intros [Hne Hd]%andb_prop.
  unfold Py.int.
  rewrite (lstrip_by_none _ s (digits_no_space_int s Hd)).
  rewrite (rstrip_by_none _ s (digits_no_space_int s Hd)).
  destruct s as [|c s]; [discriminate|].
  pose proof Hd as Hd'. simpl in Hd. apply andb_prop in Hd as [Hc Hs].
  destruct (isdigit_not_sign c Hc) as [Hm Hp].
  assert (Py.literal_digits true (String c s) = Some (String c s)) as Hl.
  { simpl. now rewrite Hc, (literal_digits_number s Hs). }
  assert (match String c s with
          | String "-" b => (-1, b)
          | String "+" b => (1, b)
          | _ => (1, String c s)
          end = (1, String c s)) as ->.
  { destruct c as [[] [] [] [] [] [] [] []]; try reflexivity; congruence. }
  rewrite Hl. unfold short.
  destruct (Z.of_nat (String.length (String c s)) <=? Py.int_max_str_digits);
    [f_equal; lia | reflexivity].
Qed.

Lemma split_no_sep (c : ascii) (s : string) :
  all_chars (fun d => negb (Ascii.eqb d c)) s = true -> Py.split c s = [s].
Proof.
  induction s as [|d s IH]; simpl; [reflexivity|].
  intros [Hd Hs]%andb_prop. apply negb_true_iff in Hd.
  now rewrite Hd, (IH Hs).
Qed.

Lemma split_app_sep (c : ascii) (a b : string) :
  all_chars (fun d => negb (Ascii.eqb d c)) a = true ->
  Py.split c (a +:+ String c b) = a :: Py.split c b.
Proof.
  induction a as [|d a IH]; unfold_app; simpl.
  - now rewrite Ascii.eqb_refl.
  - intros [Hd Ha]%andb_prop. apply negb_true_iff in Hd.
    now rewrite Hd, (IH Ha).
Qed.

Lemma digits_no_dot (s : string) :
  all_chars Py.isdigit s = true ->
  all_chars (fun d => negb (Ascii.eqb d ".")) s = true.
Proof.
  apply all_chars_impl. intros c Hc. now rewrite (isdigit_not_dot c Hc).
Qed.

(** [version_to_tuple] on ["<major>"] and on ["<major>.<minor>"]. *)
Lemma version_to_tuple_major (a : string) :
  is_number a = true ->
  version_to_tuple a
  = if short a then Ok (Py.digits_value 0 a, 0) else Raise ValueError.
Proof.
  intros Ha. pose proof Ha as [_ Hd]%andb_prop.
  unfold version_to_tuple.
  rewrite (strip_no_space a (digits_no_space a Hd)).
  rewrite (split_no_sep "." a (digits_no_dot a Hd)).
  rewrite (int_number a Ha). now destruct (short a).
Qed.

Lemma version_to_tuple_major_minor (a b : string) :
  is_number a = true -> is_number b = true ->
  version_to_tuple (a +:+ "." +:+ b)
  = if short a && short b
    then Ok (Py.digits_value 0 a, Py.digits_value 0 b)
    else Raise ValueError.
Proof.
  intros Ha Hb.
  pose proof Ha as [_ Hda]%andb_prop. pose proof Hb as [_ Hdb]%andb_prop.
  unfold version_to_tuple.
  rewrite strip_no_space.
  - change (a +:+ "." +:+ b) with (a +:+ String "." b).
    rewrite (split_app_sep "." a b (digits_no_dot a Hda)).
    rewrite (split_no_sep "." b (digits_no_dot b Hdb)).
    rewrite (int_number a Ha), (int_number b Hb).
    now destruct (short a), (short b).
  - rewrite !all_chars_app, (digits_no_space a Hda).
    now rewrite (digits_no_space b Hdb).
Qed.

Lemma version_group_text (s g : string) :
  Re.version_group s = Some g -> version_text g.
Proof.
  unfold Re.version_group.
  destruct (Py.span Py.isdigit s) as [major r] eqn:Hspan.
  apply span_all in Hspan as [Hmaj _].
  destruct (Py.truthy major) eqn:Hne; [|discriminate].
  assert (is_number major = true) as Hnum.
  { unfold is_number. now rewrite Hne, Hmaj. }
  destruct r as [|c r']; [intros [= <-]; now left|].
  destruct (Ascii.eqb c ".") eqn:Hc.
  - apply Ascii.eqb_eq in Hc as ->.
    destruct (Py.span Py.isdigit r') as [minor r''] eqn:Hspan'.
    apply span_all in Hspan' as [Hmin _].
    destruct (Py.truthy minor) eqn:Hne'; intros [= <-]; [|now left].
    right. exists major, minor. unfold is_number.
    now rewrite Hne', Hmin.
  - assert (match String c r' with
            | String "." r'0 =>
                let '(minor, _) := Py.span Py.isdigit r'0 in
                if Py.truthy minor then Some (major +:+ "." +:+ minor)
                else Some major
            | _ => Some major
            end = Some major) as ->.
    { destruct c as [[] [] [] [] [] [] [] []]; try reflexivity;
        discriminate. }
    intros [= <-]. now left.
Qed.

Lemma string_length_app (a b : string) :
  String.length (a +:+ b) = (String.length a + String.length b)%nat.
Proof.
  induction a as [|c a IH]; unfold_app; simpl; [reflexivity | now rewrite IH].
Qed.

Lemma lstrip_length (s : string) :
  (String.length (Py.lstrip s) <= String.length s)%nat.
Proof.
  induction s as [|c s IH]; simpl; [lia|].
  destruct (Py.isspace c); simpl; lia.
Qed.

Lemma rstrip_length (s : string) :
  (String.length (Py.rstrip s) <= String.length s)%nat.
Proof.
  induction s as [|c s IH]; simpl; [lia|].
  destruct (Py.rstrip s) as [|d r]; simpl in *; [|lia].
  destruct (Py.isspace c); simpl; lia.
Qed.

Lemma strip_length (s : string) :
  (String.length (Py.strip s) <= String.length s)%nat.
Proof.
  unfold Py.strip. pose proof (rstrip_length (Py.lstrip s)).
  pose proof (lstrip_length s). lia.
Qed.

(** A part of a short text is short. *)
Lemma short_app_l (a b : string) : short (a +:+ b) = true -> short a = true.
Proof.
  unfold short. rewrite string_length_app. intros H%Z.leb_le.
  apply Z.leb_le. lia.
Qed.

Lemma short_app_r (a b : string) : short (a +:+ b) = true -> short b = true.
Proof.
  unfold short. rewrite string_length_app. intros H%Z.leb_le.
  apply Z.leb_le. lia.
Qed.

Lemma short_strip (s : string) : short s = true -> short (Py.strip s) = true.
Proof.
  unfold short. intros H%Z.leb_le. pose proof (strip_length s).
  apply Z.leb_le. lia.
Qed.

(** A version text is read when it is short; when it is not read,
    [ValueError] is raised. *)
Lemma version_text_ok (g : string) :
  version_text g -> short g = true -> exists v, version_to_tuple g = Ok v.
Proof.
  intros [H | (a & b & Ha & Hb & ->)] Hs.
  - rewrite (version_to_tuple_major g H), Hs. eauto.
  - rewrite (version_to_tuple_major_minor a b Ha Hb).
    rewrite (short_app_l _ _ Hs).
    apply short_app_r in Hs. apply short_app_r in Hs. rewrite Hs. eauto.
Qed.

Lemma version_text_outcome (g : string) :
  version_text g ->
  (exists v, version_to_tuple g = Ok v)
  \/ version_to_tuple g = Raise ValueError.
Proof.
  intros [H | (a & b & Ha & Hb & ->)].
  - rewrite (version_to_tuple_major g H). destruct (short g); eauto.
  - rewrite (version_to_tuple_major_minor a b Ha Hb).
    destruct (short a && short b); eauto.
Qed.

Lemma search_some {A : Type} (m : string -> option A) (s : string) (x : A) :
  Re.search m s = Some x -> exists s', m s' = Some x.
Proof.
  induction s as [|c s IH]; simpl.
  - destruct (m "") eqn:H; [intros [= <-]; eauto | discriminate].
  - destruct (m (String c s)) eqn:H; [intros [= <-]; eauto | exact IH].
Qed.

Lemma lit_some {A : Type} (p : string) (k : string -> option A)
  (s : string) (x : A) :
  Re.lit p k s = Some x -> exists r, k r = Some x.
Proof. unfold Re.lit. destruct (Py.strip_prefix p s); [eauto | discriminate]. Qed.

Lemma spaces0_some {A : Type} (k : string -> option A) (s : string) (x : A) :
  Re.spaces0 k s = Some x -> exists r, k r = Some x.
Proof. unfold Re.spaces0. eauto. Qed.

Lemma spaces1_some {A : Type} (k : string -> option A) (s : string) (x : A) :
  Re.spaces1 k s = Some x -> exists r, k r = Some x.
Proof.
  unfold Re.spaces1. destruct s as [|c s]; [discriminate|].
  destruct (Py.isspace c); [eauto | discriminate].
Qed.

Lemma direct_re_text (s g : string) :
  Re.search direct_re s = Some g -> version_text g.
Proof.
  intros (s' & H)%search_some. unfold direct_re in H.
  apply lit_some in H as (r & H). apply spaces1_some in H as (r' & H).
  eapply version_group_text, H.
Qed.

Lemma introduced_re_text (s g : string) :
  Re.search introduced_re s = Some g -> version_text g.
Proof.
  intros (s' & H)%search_some. unfold introduced_re in H.
  apply lit_some in H as (r & H). apply spaces0_some in H as (r' & H).
  eapply version_group_text, H.
Qed.

(** What the patterns match: the platform keyword, white space and a
    version; the key, optional white space and a version. *)
Lemma strip_prefix_app (p s r : string) :
  Py.strip_prefix p s = Some r -> s = p +:+ r.
Proof.
  revert s. induction p as [|a p IH]; intros s; simpl.
  - now intros [= <-].
  - destruct s as [|b s]; [discriminate|].
    destruct (Ascii.eqb a b) eqn:E; [|discriminate].
    apply Ascii.eqb_eq in E as <-. intros H%IH. now rewrite H.
Qed.

Lemma lstrip_app (s : string) :
  exists ws, all_chars Py.isspace ws = true /\ s = ws +:+ Py.lstrip s.
Proof.
  induction s as [|c s (ws & Hws & IH)]; [exists ""; auto|].
  simpl. destruct (Py.isspace c) eqn:Hc.
  - exists (String c ws). simpl. rewrite Hc, Hws. unfold_app.
    now rewrite <- IH.
  - exists "". auto.
Qed.

Lemma version_group_app (s g : string) :
  Re.version_group s = Some g -> exists rest, s = g +:+ rest.
Proof.
  unfold Re.version_group.
  destruct (Py.span Py.isdigit s) as [major r] eqn:Hspan.
  apply span_all in Hspan as [_ ->].
  destruct (Py.truthy major); [|discriminate].
  destruct r as [|c r']; [intros [= <-]; eauto|].
  destruct (Ascii.eqb c ".") eqn:Hc.
  - apply Ascii.eqb_eq in Hc as ->.
    destruct (Py.span Py.isdigit r') as [minor r''] eqn:Hspan'.
    apply span_all in Hspan' as [_ ->].
    destruct (Py.truthy minor); intros [= <-]; [|eauto].
    exists r''. now rewrite !string_app_assoc.
  - assert (match String c r' with
            | String "." r'0 =>
                let '(minor, _) := Py.span Py.isdigit r'0 in
                if Py.truthy minor then Some (major +:+ "." +:+ minor)
                else Some major
            | _ => Some major
            end = Some major) as ->.
    { destruct c as [[] [] [] [] [] [] [] []]; try reflexivity;
        discriminate. }
    intros [= <-]. eauto.
Qed.

Lemma direct_re_shape (s g : string) :
  direct_re s = Some g ->
  exists ws rest,
    s = "iOS" +:+ ws +:+ g +:+ rest
    /\ Py.truthy ws = true /\ all_chars Py.isspace ws = true
    /\ version_text g.
Proof.
  unfold direct_re, Re.lit, Re.spaces1.
  destruct (Py.strip_prefix "iOS" s) as [r|] eqn:Hp; [|discriminate].
  apply strip_prefix_app in Hp as ->.
  destruct r as [|c r]; [discriminate|].
  destruct (Py.isspace c) eqn:Hc; [|discriminate].
  intros Hg. destruct (lstrip_app r) as (ws & Hws & Hr).
  destruct (version_group_app _ _ Hg) as [rest Hrest].
  exists (String c ws), rest. split; [|split; [reflexivity|split]].
  - unfold_app. now rewrite <- Hrest, <- Hr.
  - simpl. now rewrite Hc, Hws.
  - eapply version_group_text, Hg.
Qed.

Lemma introduced_re_shape (s g : string) :
  introduced_re s = Some g ->
  exists ws rest,
    s = "introduced:" +:+ ws +:+ g +:+ rest
    /\ all_chars Py.isspace ws = true
    /\ version_text g.
Proof.
  unfold introduced_re, Re.lit, Re.spaces0.
  destruct (Py.strip_prefix "introduced:" s) as [r|] eqn:Hp; [|discriminate].
  apply strip_prefix_app in Hp as ->.
  intros Hg. destruct (lstrip_app r) as (ws & Hws & Hr).
  destruct (version_group_app _ _ Hg) as [rest Hrest].
  exists ws, rest. split; [|split; [exact Hws|]].
  - now rewrite <- Hrest, <- Hr.
  - eapply version_group_text, Hg.
Qed.

Lemma search_suffix {A : Type} (m : string -> option A) (s : string) (x : A) :
  Re.search m s = Some x -> exists before at_, s = before +:+ at_ /\ m at_ = Some x.
Proof.
  induction s as [|c s IH]; simpl.
  - destruct (m "") eqn:H; [intros [= <-]; exists "", ""; auto | discriminate].
  - destruct (m (String c s)) eqn:H.
    + intros [= <-]. exists "", (String c s). auto.
    + intros (before & at_ & -> & Hm)%IH.
      exists (String c before), at_. auto.
Qed.

(** The version found on a short line is short. *)
Lemma direct_re_short (s g : string) :
  Re.search direct_re s = Some g -> short s = true -> short g = true.
Proof.
  intros (before & at_ & -> & H)%search_suffix Hs.
  apply direct_re_shape in H as (ws & rest & -> & _).
  do 3 apply short_app_r in Hs. now apply short_app_l in Hs.
Qed.

Lemma introduced_re_short (s g : string) :
  Re.search introduced_re s = Some g -> short s = true -> short g = true.
Proof.
  intros (before & at_ & -> & H)%search_suffix Hs.
  apply introduced_re_shape in H as (ws & rest & -> & _).
  do 3 apply short_app_r in Hs. now apply short_app_l in Hs.
Qed.

(** One line of [parse_ios_availability] raises nothing but [ValueError],
    and nothing at all when the line is short: [int] only sees digits. *)
Lemma availability_step_outcome (acc : availability) (raw : string) :
  (exists acc', availability_step acc raw = Ok acc')
  \/ availability_step acc raw = Raise ValueError.
Proof.
  destruct acc as [[i d] u]. unfold availability_step.
  destruct (negb (Py.contains "iOS" (Py.strip raw))); [eauto|].
  destruct (Re.search direct_re (Py.strip raw)) as [g|] eqn:Hd.
  - destruct (version_text_outcome g (direct_re_text _ _ Hd)) as [[v ->] | ->];
      simpl; eauto.
  - destruct (Re.search introduced_re (Py.strip raw)) as [g|] eqn:Hi; [|eauto].
    destruct (version_text_outcome g (introduced_re_text _ _ Hi))
      as [[v ->] | ->]; simpl; eauto.
Qed.

Lemma availability_step_total (acc : availability) (raw : string) :
  short raw = true -> exists acc', availability_step acc raw = Ok acc'.
Proof.
  intros Hs%short_strip.
  destruct acc as [[i d] u]. unfold availability_step.
  destruct (negb (Py.contains "iOS" (Py.strip raw))); [eauto|].
  destruct (Re.search direct_re (Py.strip raw)) as [g|] eqn:Hd.
  - destruct (version_text_ok g (direct_re_text _ _ Hd)
                (direct_re_short _ _ Hd Hs)) as [v ->].
    simpl. eauto.
  - destruct (Re.search introduced_re (Py.strip raw)) as [g|] eqn:Hi.
    + destruct (version_text_ok g (introduced_re_text _ _ Hi)
                  (introduced_re_short _ _ Hi Hs)) as [v ->].
      simpl. eauto.
    + eauto.
Qed.

Lemma availability_step_raises (acc : availability) (raw : string)
  (e : exn) :
  availability_step acc raw = Raise e -> e = ValueError /\ short raw = false.
Proof.
  intros H. split.
  - destruct (availability_step_outcome acc raw) as [[acc' H'] | H'];
      congruence.
  - destruct (short raw) eqn:Hs; [|reflexivity].
    destruct (availability_step_total acc raw Hs) as [acc' H']. congruence.
Qed.

Lemma parse_ios_availability_total (avail_lines : list string) :
  Forall (fun l => short l = true) avail_lines ->
  exists r, parse_ios_availability avail_lines = Ok r.
Proof.
  intros H. apply for_each_total. intros st x Hx.
  apply availability_step_total.
  now apply (proj1 (List.Forall_forall _ _) H).
Qed.

Lemma parse_ios_availability_raises (avail_lines : list string) (e : exn) :
  parse_ios_availability avail_lines = Raise e ->
  e = ValueError /\ exists l, In l avail_lines /\ short l = false.
Proof.
  intros (st0 & l & Hl & H)%for_each_raises.
  apply availability_step_raises in H as [-> Hs]. eauto.
Qed.

(** ** What the declaration patterns capture *)

Lemma alt_some {A : Type} (alts : list string)
  (k : string -> string -> option A) (s : string) (x : A) :
  Re.alt alts k s = Some x -> exists a r, In a alts /\ k a r = Some x.
Proof.
  induction alts as [|a alts IH]; simpl; [discriminate|].
  destruct (Re.lit a (k a) s) eqn:H.
  - intros [= <-]. apply lit_some in H as (r & H). eauto.
  - intros (a' & r & Hin & Hk)%IH. eauto.
Qed.

Lemma opt_alt_some {A : Type} (alts : list string)
  (k : option string -> string -> option A) (s : string) (x : A) :
  Re.opt_alt alts k s = Some x -> exists g r, k g r = Some x.
Proof.
  unfold Re.opt_alt.
  destruct (Re.alt alts (fun a => k (Some a)) s) as [y|] eqn:H.
  - intros [= <-]. apply alt_some in H as (a & r & _ & H). eauto.
  - eauto.
Qed.

Lemma static_or_class_some {A : Type} (k : string -> option A)
  (s : string) (x : A) :
  static_or_class k s = Some x -> exists r, k r = Some x.
Proof.
  intros ([g|] & r & H)%opt_alt_some; [|eauto].
  now apply spaces1_some in H.
Qed.

Lemma word1_truthy (s w : string) :
  Re.word1 s = Some w -> Py.truthy w = true.
Proof.
  unfold Re.word1. destruct (Py.span Py.isword s) as [a b].
  destruct (Py.truthy a) eqn:H; [now intros [= <-] | discriminate].
Qed.

Lemma type_decl_re_some (s kw nm : string) :
  type_decl_re s = Some (kw, nm) ->
  In kw type_keywords /\ Py.truthy nm = true.
Proof.
  intros (g & r & H)%opt_alt_some.
  apply spaces0_some in H as (r1 & H).
  apply alt_some in H as (a & r2 & Hin & H).
  apply spaces1_some in H as (r3 & H).
  destruct (Re.word1 r3) as [w|] eqn:Hw; [|discriminate].
  injection H as <- <-. split; [exact Hin | eapply word1_truthy, Hw].
Qed.

Lemma func_decl_re_some (s nm : string) :
  func_decl_re s = Some nm -> Py.truthy nm = true.
Proof.
  intros (g & r & H)%opt_alt_some.
  apply spaces0_some in H as (r1 & H).
  apply static_or_class_some in H as (r2 & H).
  apply lit_some in H as (r3 & H).
  apply spaces1_some in H as (r4 & H).
  eapply word1_truthy, H.
Qed.

Lemma prop_decl_re_some (s nm : string) :
  prop_decl_re s = Some nm -> Py.truthy nm = true.
Proof.
  intros (g & r & H)%opt_alt_some.
  apply spaces0_some in H as (r1 & H).
  apply static_or_class_some in H as (r2 & H).
  apply alt_some in H as (a & r3 & _ & H).
  apply spaces1_some in H as (r4 & H).
  eapply word1_truthy, H.
Qed.

Lemma type_keyword_truthy (kw : string) :
  In kw type_keywords -> Py.truthy kw = true.
Proof.
  unfold type_keywords. simpl.
  intros [<-|[<-|[<-|[<-|[<-|[]]]]]]; reflexivity.
Qed.

Lemma in_set_In (s : string) (l : list string) :
  in_set s l = true <-> In s l.
Proof.
  unfold in_set. rewrite existsb_exists. split.
  - intros (x & Hin & ->%String.eqb_eq). exact Hin.
  - intros Hin. exists s. now rewrite String.eqb_refl.
Qed.

(** [classify] names a declaration by a kind and a name that are both
    non-empty, names none otherwise, and matches the type pattern exactly
    for the type kinds. *)
Lemma classify_cases (normalized : string) :
  (exists kw nm, classify normalized = (Some (kw, nm), Some kw, Some nm)
                 /\ is_type_kind kw = true /\ Py.truthy kw = true
                 /\ Py.truthy nm = true)
  \/ (exists k nm, classify normalized = (None, Some k, Some nm)
                   /\ In k ["func"; "property"] /\ Py.truthy nm = true)
  \/ classify normalized = (None, None, None).
Proof.
  unfold classify.
  destruct (type_decl_re normalized) as [[kw nm]|] eqn:Ht.
  { left. apply type_decl_re_some in Ht as [Hin Hnm].
    exists kw, nm. repeat split; auto.
    - now apply in_set_In.
    - now apply type_keyword_truthy. }
  right.
  destruct (func_decl_re normalized) as [nm|] eqn:Hf.
  { left. exists "func", nm. repeat split; [simpl; auto|].
    eapply func_decl_re_some, Hf. }
  destruct (init_decl_re normalized) as [[]|].
  { left. exists "func", "init". repeat split; simpl; auto. }
  destruct (prop_decl_re normalized) as [nm|] eqn:Hp.
  { left. exists "property", nm. repeat split; [simpl; auto|].
    eapply prop_decl_re_some, Hp. }
  now right.
Qed.

Lemma classify_truthy (normalized : string)
  (tm : option (string * string)) (k n : string) :
  classify normalized = (tm, Some k, Some n) ->
  Py.truthy k = true /\ Py.truthy n = true.
Proof.
  destruct (classify_cases normalized)
    as [(kw & nm & -> & _ & Hk & Hn)
       |[(k' & nm & -> & Hin & Hn) | ->]]; intros [= <- <- <-]; auto.
  split; [|exact Hn].
  simpl in Hin. destruct Hin as [<-|[<-|[]]]; reflexivity.
Qed.

(** ** One line of the scan *)

Lemma emit_spec (swift_file : string) (st : scan) (stripped k n : string) :
  emit swift_file st stripped k n
  = bind (parse_ios_availability (avail_lines st))
      (fun a =>
         Ok (mkScan
               (if eligible a
                then elements st ++ [element_of swift_file st stripped k n a]
                else elements st)
               [] [] (type_stack st) (brace_depth st))).
Proof.
  unfold emit.
  destruct (parse_ios_availability (avail_lines st)) as [[[i d] u]|e];
    reflexivity.
Qed.

(** A line matched as a declaration parses the availability buffer: it
    raises what the parse raises, and otherwise emits or not, empties the
    buffers and updates the nesting state. *)
Lemma scan_line_matched (swift_file : string) (st : scan) (line : string)
  (tm : option (string * string)) (k n : string) :
  candidate line ->
  classify (normalize_line (Py.strip line)) = (tm, Some k, Some n) ->
  scan_line swift_file st line
  = bind (parse_ios_availability (avail_lines st))
      (fun a =>
         Ok (track_braces
               (mkScan
                  (if eligible a
                   then elements st
                        ++ [element_of swift_file st (Py.strip line) k n a]
                   else elements st)
                  [] [] (type_stack st) (brace_depth st))
               line tm)).
Proof.
  intros [Hdoc Hav] Hc.
  destruct (classify_truthy _ _ _ _ Hc) as [Hk Hn].
  unfold scan_line. rewrite Hdoc, Hav, Hc, Hk, Hn. simpl.
  rewrite emit_spec.
  destruct (parse_ios_availability (avail_lines st)) as [a|e]; simpl;
    [|reflexivity].
  rewrite Hk. simpl. rewrite andb_false_r. reflexivity.
Qed.

Lemma scan_line_matched_ok (swift_file : string) (st : scan) (line : string)
  (tm : option (string * string)) (k n : string) (a : availability) :
  candidate line ->
  classify (normalize_line (Py.strip line)) = (tm, Some k, Some n) ->
  parse_ios_availability (avail_lines st) = Ok a ->
  scan_line swift_file st line
  = Ok (track_braces
          (mkScan
             (if eligible a
              then elements st
                   ++ [element_of swift_file st (Py.strip line) k n a]
              else elements st)
             [] [] (type_stack st) (brace_depth st))
          line tm).
Proof.
  intros Hcand Hc Hp.
  rewrite (scan_line_matched swift_file st line tm k n Hcand Hc), Hp.
  reflexivity.
Qed.

Lemma scan_line_matched_inv (swift_file : string) (st : scan) (line : string)
  (tm : option (string * string)) (k n : string) (st' : scan) :
  candidate line ->
  classify (normalize_line (Py.strip line)) = (tm, Some k, Some n) ->
  scan_line swift_file st line = Ok st' ->
  exists a,
    parse_ios_availability (avail_lines st) = Ok a
    /\ st' = track_braces
               (mkScan
                  (if eligible a
                   then elements st
                        ++ [element_of swift_file st (Py.strip line) k n a]
                   else elements st)
                  [] [] (type_stack st) (brace_depth st))
               line tm.
Proof.
  intros Hcand Hc.
  rewrite (scan_line_matched swift_file st line tm k n Hcand Hc).
  destruct (parse_ios_availability (avail_lines st)) as [a|e]; simpl;
    [|discriminate].
  intros [= <-]. eauto.
Qed.

Lemma scan_line_unmatched (swift_file : string) (st : scan) (line : string)
  (tm : option (string * string)) :
  candidate line ->
  classify (normalize_line (Py.strip line)) = (tm, None, None) ->
  scan_line swift_file st line
  = Ok (let st1 := track_braces st line tm in
        if Py.startswith "@" (Py.strip line) then st1
        else if Py.truthy (Py.strip line)
                && negb (Py.startswith "//" (Py.strip line))
        then mkScan (elements st1) [] [] (type_stack st1) (brace_depth st1)
        else st1).
Proof.
  intros [Hdoc Hav] Hc.
  unfold scan_line. rewrite Hdoc, Hav, Hc. simpl.
  destruct (Py.startswith "@" (Py.strip line)); simpl; [reflexivity|].
  destruct (Py.truthy (Py.strip line)
            && negb (Py.startswith "//" (Py.strip line))); reflexivity.
Qed.

(** A line raises only what the parse of the availability buffer raises,
    and returns when the parse does. *)
Lemma scan_line_raises (swift_file : string) (st : scan) (line : string)
  (e : exn) :
  scan_line swift_file st line = Raise e ->
  parse_ios_availability (avail_lines st) = Raise e.
Proof.
  destruct (Py.startswith "///" (Py.strip line)) eqn:Hdoc.
  { unfold scan_line. rewrite Hdoc. discriminate. }
  destruct (Py.startswith "@available" (Py.strip line)) eqn:Hav.
  { unfold scan_line. rewrite Hdoc, Hav. discriminate. }
  assert (candidate line) as Hcand by (split; assumption).
  assert (forall tm k n,
            classify (normalize_line (Py.strip line)) = (tm, Some k, Some n) ->
            scan_line swift_file st line = Raise e ->
            parse_ios_availability (avail_lines st) = Raise e) as Hmatched.
  { intros tm k n Hc.
    rewrite (scan_line_matched swift_file st line _ _ _ Hcand Hc).
    destruct (parse_ios_availability (avail_lines st)); simpl;
      [discriminate | now intros [= ->]]. }
  destruct (classify_cases (normalize_line (Py.strip line)))
    as [(kw & nm & Hc & _)|[(k & nm & Hc & _) | Hc]]; eauto.
  rewrite (scan_line_unmatched swift_file st line _ Hcand Hc). discriminate.
Qed.

Lemma scan_line_total (swift_file : string) (st : scan) (line : string) :
  Forall (fun l => short l = true) (avail_lines st) ->
  exists st', scan_line swift_file st line = Ok st'.
Proof.
  intros Hs. destruct (scan_line swift_file st line) as [st'|e] eqn:H; [eauto|].
  apply scan_line_raises in H.
  destruct (parse_ios_availability_total _ Hs) as [r Hr]. congruence.
Qed.

(** The availability buffer holds trimmed lines of the input, so it stays
    short along the short lines. *)
Lemma scan_line_short (swift_file : string) (st : scan) (line : string)
  (st' : scan) :
  short line = true ->
  Forall (fun l => short l = true) (avail_lines st) ->
  scan_line swift_file st line = Ok st' ->
  Forall (fun l => short l = true) (avail_lines st').
Proof.
  intros Hl Hs.
  destruct (Py.startswith "///" (Py.strip line)) eqn:Hdoc.
  { unfold scan_line. rewrite Hdoc. now intros [= <-]. }
  destruct (Py.startswith "@available" (Py.strip line)) eqn:Hav.
  { unfold scan_line. rewrite Hdoc, Hav. intros [= <-].
    cbn [avail_lines]. apply Forall_app. split; [exact Hs|].
    constructor; [now apply short_strip | constructor]. }
  assert (candidate line) as Hcand by (split; assumption).
  assert (forall tm k n,
            classify (normalize_line (Py.strip line)) = (tm, Some k, Some n) ->
            scan_line swift_file st line = Ok st' ->
            Forall (fun l => short l = true) (avail_lines st')) as Hmatched.
  { intros tm k n Hc H.
    apply (scan_line_matched_inv swift_file st line _ _ _ st' Hcand Hc) in H
      as (a & _ & ->).
    constructor. }
  destruct (classify_cases (normalize_line (Py.strip line)))
    as [(kw & nm & Hc & _)|[(k & nm & Hc & _) | Hc]]; eauto.
  rewrite (scan_line_unmatched swift_file st line _ Hcand Hc).
  cbv zeta. intros [= <-].
  destruct (Py.startswith "@" (Py.strip line)); [exact Hs|].
  destruct (Py.truthy (Py.strip line)
            && negb (Py.startswith "//" (Py.strip line)));
    [constructor | exact Hs].
Qed.

(** The scan of short lines never raises. *)
Lemma scan_lines_total (swift_file : string) (lines : list string)
  (st : scan) :
  Forall (fun l => short l = true) lines ->
  Forall (fun l => short l = true) (avail_lines st) ->
  exists st', scan_lines swift_file lines st = Ok st'.
Proof.
  intros Hl Hs.
  destruct (for_each_progress (scan_line swift_file)
              (fun s => Forall (fun l => short l = true) (avail_lines s))
              lines) with (st := st) as (st' & H & _); [|exact Hs|eauto].
  intros st0 x Hx H0.
  destruct (scan_line_total swift_file st0 x H0) as [st1 H1].
  exists st1. split; [exact H1|].
  apply (scan_line_short swift_file st0 x st1); auto.
  now apply (proj1 (List.Forall_forall _ _) Hl).
Qed.

Lemma extract_lines_total (swift_file : string) (lines : list string) :
  Forall (fun l => short l = true) lines ->
  exists es, extract_lines swift_file lines = Ok es.
Proof.
  intros Hl. unfold extract_lines.
  destruct (scan_lines_total swift_file lines scan_init Hl) as [st ->];
    [constructor|].
  simpl. eauto.
Qed.



(** ** Eligibility *)

Lemma tuple_ge_lex (a b c d : Z) :
  tuple_ge (a, b) (c, d) = true <-> c < a \/ (a = c /\ d <= b).
Proof. unfold tuple_ge. simpl. lia. Qed.

Lemma eligible_iff (i : option version) (d u : bool) :
  eligible (i, d, u) = true
  <-> (exists v, i = Some v /\ tuple_ge v MIN_IOS_VERSION = true)
      /\ d = false /\ u = false.
Proof.
  unfold eligible, is_version_at_least.
  rewrite !andb_true_iff, !negb_true_iff. split.
  - intros [[Hv ->] ->]. destruct i as [v|]; [|discriminate]. eauto.
  - intros [(v & -> & Hv) [-> ->]]. auto.
Qed.

Lemma app_singleton_neq {A : Type} (l : list A) (x : A) : l ++ [x] <> l.
Proof.
  intros H. apply (f_equal (@length A)) in H.
  rewrite length_app in H. simpl in H. lia.
Qed.

(** C1. On a line matched as a declaration the availability buffer of
    the scan is parsed. When the parse gives [(i, d, u)], the line returns
    and one element is appended exactly when [i] is present, is at least
    (17, 0) in the lexicographic order on (major, minor), and neither [d]
    nor [u] is set; otherwise the elements are unchanged. The line returns
    only in that way: it raises exactly what the parse raises, and the
    parse returns when no buffered line is longer than the limit of [int].
    The order is the expected one at (17,0), (16,9) and (18,0), and an
    absent version is below every threshold. *)
Theorem eligibility_filter (swift_file : string) (st : scan) (line : string)
  (tm : option (string * string)) (k n : string)
  (Hcand : candidate line)
  (Hmatch : classify (normalize_line (Py.strip line)) = (tm, Some k, Some n)) :
  (forall i d u,
     parse_ios_availability (avail_lines st) = Ok (i, d, u) ->
     exists st',
       scan_line swift_file st line = Ok st'
       /\ ((exists e, elements st' = elements st ++ [e])
           <-> ((exists v, i = Some v /\ tuple_ge v MIN_IOS_VERSION = true)
                /\ d = false /\ u = false))
       /\ ((exists e, elements st' = elements st ++ [e]
                      /\ name e = n /\ kind e = k /\ ios_introduced e = i
                      /\ deprecated e = false /\ unavailable e = false)
           \/ elements st' = elements st))
  /\ (forall st',
        scan_line swift_file st line = Ok st' ->
        exists i d u, parse_ios_availability (avail_lines st) = Ok (i, d, u))
  /\ (forall e,
        scan_line swift_file st line = Raise e
        <-> parse_ios_availability (avail_lines st) = Raise e)
  /\ (Forall (fun l => short l = true) (avail_lines st) ->
      exists i d u, parse_ios_availability (avail_lines st) = Ok (i, d, u))
  /\ MIN_IOS_VERSION = (17, 0)
  /\ (forall a b c d : Z,
        is_version_at_least (Some (a, b)) (c, d) = true
        <-> c < a \/ (a = c /\ d <= b))
  /\ is_version_at_least (Some (17, 0)) (17, 0) = true
  /\ is_version_at_least (Some (16, 9)) (17, 0) = false
  /\ is_version_at_least (Some (18, 0)) (17, 0) = true
  /\ (forall t, is_version_at_least None t = false).
Proof.
  split; [|split; [|split; [|split]]];
    [| | | |repeat split; try reflexivity; apply tuple_ge_lex].
  - intros i d u Hp.
    rewrite (scan_line_matched_ok swift_file st line tm k n _ Hcand Hmatch Hp).
    eexists. split; [reflexivity|].
    rewrite <- eligible_iff.
    destruct (eligible (i, d, u)) eqn:He; unfold track_braces; cbn [elements].
    + split; [split; eauto|].
      left. eexists. split; [reflexivity|]. simpl.
      apply eligible_iff in He as (_ & -> & ->). auto.
    + split; [|now right].
      split; [|discriminate].
      intros [e He']. symmetry in He'. now apply app_singleton_neq in He'.
  - intros st' Hs.
    destruct (scan_line_matched_inv swift_file st line tm k n st' Hcand Hmatch
                Hs) as ([[i d] u] & Hp & _).
    eauto.
  - intros e. split; [apply scan_line_raises|].
    intros Hp.
    rewrite (scan_line_matched swift_file st line tm k n Hcand Hmatch), Hp.
    reflexivity.
  - intros Hs.
    destruct (parse_ios_availability_total _ Hs) as [[[i d] u] Hp]. eauto.
Qed.

Lemma eligibility_filter_witness :
  exists st',
    scan_line "View.swift" (mkScan [] [] [AT17] [] 0) "public struct Foo {"
    = Ok st'
    /\ exists e, elements st' = [e] /\ name e = "Foo".
Proof.
  destruct (eligibility_filter "View.swift" (mkScan [] [] [AT17] [] 0)
              "public struct Foo {" (Some ("struct", "Foo")) "struct" "Foo")
    as [H _].
  - split; reflexivity.
  - reflexivity.
  - destruct (H (Some (17, 0)) false false eq_refl)
      as (st' & Hs & _ & [(e & He & Hn & _)|He]).
    + exists st'. split; [exact Hs|]. exists e. split; assumption.
    + exfalso. vm_compute in Hs. injection Hs as <-. discriminate He.
Defined.

(** ** The nesting stack *)

Lemma pop_exited_bounded (depth : Z) (stack : list (string * Z)) :
  match pop_exited depth stack with
  | (_, d) :: _ => d <= depth
  | [] => True
  end.
Proof.
  induction stack as [|[n d] stack IH]; simpl; [exact I|].
  destruct (depth <? d) eqn:H; [exact IH|].
  simpl. lia.
Qed.

Lemma track_braces_bounded (st : scan) (line : string)
  (tm : option (string * string)) :
  stack_bounded (track_braces st line tm).
Proof. unfold stack_bounded, track_braces. simpl. apply pop_exited_bounded. Qed.

(** What a line leaves of the nesting state does not depend on the buffers
    or on the elements: the line is skipped, or [track_braces] runs. *)
Lemma scan_line_nesting (swift_file : string) (st : scan) (line : string)
  (st' : scan) :
  scan_line swift_file st line = Ok st' ->
  (type_stack st' = type_stack st /\ brace_depth st' = brace_depth st)
  \/ (exists tm ek en,
        candidate line
        /\ classify (normalize_line (Py.strip line)) = (tm, ek, en)
        /\ type_stack st' = type_stack (track_braces st line tm)
        /\ brace_depth st' = brace_depth (track_braces st line tm)).
Proof.
  destruct (Py.startswith "///" (Py.strip line)) eqn:Hdoc.
  { unfold scan_line. rewrite Hdoc. intros [= <-]. now left. }
  destruct (Py.startswith "@available" (Py.strip line)) eqn:Hav.
  { unfold scan_line. rewrite Hdoc, Hav. intros [= <-]. now left. }
  assert (candidate line) as Hcand by (split; assumption).
  assert (forall tm k n,
            classify (normalize_line (Py.strip line)) = (tm, Some k, Some n) ->
            scan_line swift_file st line = Ok st' ->
            exists tm ek en,
              candidate line
              /\ classify (normalize_line (Py.strip line)) = (tm, ek, en)
              /\ type_stack st' = type_stack (track_braces st line tm)
              /\ brace_depth st' = brace_depth (track_braces st line tm))
    as Hmatched.
  { intros tm k n Hc Hs.
    apply (scan_line_matched_inv swift_file st line _ _ _ st' Hcand Hc) in Hs
      as (a & _ & ->).
    do 3 eexists.
    split; [exact Hcand|]. split; [exact Hc|]. split; reflexivity. }
  destruct (classify_cases (normalize_line (Py.strip line)))
    as [(kw & nm & Hc & _)|[(k & nm & Hc & _) | Hc]]; eauto.
  rewrite (scan_line_unmatched swift_file st line _ Hcand Hc).
  intros [= <-]. right. do 3 eexists.
  split; [exact Hcand|]. split; [exact Hc|].
  cbv zeta.
  destruct (Py.startswith "@" (Py.strip line)); [split; reflexivity|].
  destruct (Py.truthy (Py.strip line)
            && negb (Py.startswith "//" (Py.strip line)));
    split; reflexivity.
Qed.

Lemma scan_line_bounded (swift_file : string) (st : scan) (line : string)
  (st' : scan) :
  stack_bounded st -> scan_line swift_file st line = Ok st' ->
  stack_bounded st'.
Proof.
  intros Hb Hs.
  destruct (scan_line_nesting swift_file st line st' Hs)
    as [[Ht Hd] | (tm & ek & en & _ & _ & Ht & Hd)];
    unfold stack_bounded; rewrite Ht, Hd.
  - exact Hb.
  - apply track_braces_bounded.
Qed.

Lemma scan_lines_bounded (swift_file : string) (lines : list string)
  (st st' : scan) :
  stack_bounded st -> scan_lines swift_file lines st = Ok st' ->
  stack_bounded st'.
Proof.
  apply (for_each_invariant (scan_line swift_file) stack_bounded).
  intros st0 x st1. apply scan_line_bounded.
Qed.

(** C10. The brace and stack update of a line leaves the depth recorded at
    the top of the stack at most the brace counter, from any state (also
    one where the counter is negative), and so does every scan that
    returns, as the scan of lines within the limit of [int] does: the
    lookup of [parent_type] on the next line reads no entry recorded deeper
    than the current depth. On one closing brace too many the counter is -1
    and the stack is empty. *)
Theorem stack_top_within_depth :
  (forall st line tm, stack_bounded (track_braces st line tm))
  /\ (forall swift_file lines st,
        scan_lines swift_file lines scan_init = Ok st -> stack_bounded st)
  /\ (forall swift_file lines,
        Forall (fun l => short l = true) lines ->
        exists st, scan_lines swift_file lines scan_init = Ok st
                   /\ stack_bounded st)
  /\ (exists st,
        scan_lines "S.swift" ["struct S {"; "}"; "}"] scan_init = Ok st
        /\ brace_depth st = -1 /\ type_stack st = []).
Proof.
  split; [apply track_braces_bounded|].
  split; [|split;
           [|eexists; split; [vm_compute; reflexivity | split; reflexivity]]].
  - intros swift_file lines st. now apply scan_lines_bounded.
  - intros swift_file lines Hl.
    destruct (scan_lines_total swift_file lines scan_init Hl) as [st Hs];
      [constructor|].
    exists st. split; [exact Hs|].
    now apply (scan_lines_bounded swift_file lines scan_init st).
Qed.

(** ** The parent of an element *)


(** A line leaves the elements unchanged or appends one element, built
    from the state before the line. *)
Lemma scan_line_appends (swift_file : string) (st : scan) (line : string)
  (st' : scan) :
  scan_line swift_file st line = Ok st' ->
  elements st' = elements st
  \/ exists e, elements st' = elements st ++ [e]
               /\ parent_type e = top_name (type_stack st).
Proof.
  destruct (Py.startswith "///" (Py.strip line)) eqn:Hdoc.
  { unfold scan_line. rewrite Hdoc. intros [= <-]. now left. }
  destruct (Py.startswith "@available" (Py.strip line)) eqn:Hav.
  { unfold scan_line. rewrite Hdoc, Hav. intros [= <-]. now left. }
  assert (candidate line) as Hcand by (split; assumption).
  assert (forall tm k n,
            classify (normalize_line (Py.strip line)) = (tm, Some k, Some n) ->
            scan_line swift_file st line = Ok st' ->
            elements st' = elements st
            \/ exists e, elements st' = elements st ++ [e]
                         /\ parent_type e = top_name (type_stack st))
    as Hmatched.
  { intros tm k n Hc Hs.
    apply (scan_line_matched_inv swift_file st line _ _ _ st' Hcand Hc) in Hs
      as ([[i d] u] & _ & ->).
    unfold track_braces. cbn [elements].
    destruct (eligible (i, d, u)); [right | now left].
    eexists. split; reflexivity. }
  destruct (classify_cases (normalize_line (Py.strip line)))
    as [(kw & nm & Hc & _)|[(k & nm & Hc & _) | Hc]]; eauto.
  rewrite (scan_line_unmatched swift_file st line _ Hcand Hc).
  intros [= <-]. left. cbv zeta.
  destruct (Py.startswith "@" (Py.strip line)); [reflexivity|].
  destruct (Py.truthy (Py.strip line)
            && negb (Py.startswith "//" (Py.strip line))); reflexivity.
Qed.



(** ** The scenario of the specification *)

(** C8. The four lines of the scenario give one element: the struct [Foo]
    with its documentation, version (17, 0), no parent, and the
    availability line and the declaration line as its signature. *)
Theorem scenario_struct_foo (swift_file : string) :
  extract_lines swift_file
    ["/// Does X."; "@available(iOS 17.0, *)"; "public struct Foo {"; "}"]
  = Ok [mkApiElement "Foo" "struct"
          ("@available(iOS 17.0, *)" +:+ NL +:+ "public struct Foo {")
          "Does X." (Some (17, 0)) false false swift_file None].
Proof. reflexivity. Qed.

(** ** The batch *)



Lemma load_all_api_elements_unfold (dir : directory) :
  load_all_api_elements dir
  = for_each (load_file dir) (sorted (glob_swift dir)) [].
Proof. reflexivity. Qed.



(** C3 does not hold of the code: neither [extract_api_elements] nor
    [load_all_api_elements] catches the failure of [read_text]. With one
    undecodable file in the directory the exception leaves both, and the
    readable file, which alone gives one element, contributes nothing. *)
Theorem read_failure_aborts_batch :
  extract_api_elements undecodable_first "a.swift" = Raise UnicodeDecodeError
  /\ (exists e, extract_api_elements undecodable_first "b.swift" = Ok [e])
  /\ load_all_api_elements undecodable_first = Raise UnicodeDecodeError.
Proof.
  split; [reflexivity|]. split; [eexists; vm_compute; reflexivity|].
  vm_compute. reflexivity.
Qed.

(** [sorted] does not depend on the order in which the names are listed. *)
Lemma sorted_permutation (l1 l2 : list string) :
  Permutation l1 l2 -> sorted l1 = sorted l2.
Proof.
  intros H. unfold sorted.
  apply (Sorted_unique String.le).
  - apply Sorted_merge_sort; apply _.
  - apply Sorted_merge_sort; apply _.
  - now rewrite !merge_sort_Permutation.
Qed.

Lemma for_each_ext {S X : Type} (f g : S -> X -> result S) :
  (forall st x, f st x = g st x) ->
  forall xs st, for_each f xs st = for_each g xs st.
Proof.
  intros H xs. induction xs as [|x xs IH]; intros st; simpl; [reflexivity|].
  rewrite H. destruct (g st x); simpl; [apply IH | reflexivity].
Qed.

Lemma for_each_load_concat (dir : directory) (files : list string)
  (acc es : list ApiElement) :
  for_each (load_file dir) files acc = Ok es ->
  es = acc ++ concat (map (file_elements dir) files).
Proof.
  revert acc. induction files as [|f files IH]; intros acc; simpl.
  - intros [= <-]. now rewrite app_nil_r.
  - unfold load_file at 1, file_elements at 1.
    destruct (extract_api_elements dir f) as [fe|e]; simpl; [|discriminate].
    intros H%IH. now rewrite H, app_assoc.
Qed.

(** The elements of a prefix of the lines are a prefix of the elements. *)
Lemma scan_line_extends (swift_file : string) (st : scan) (line : string)
  (st' : scan) :
  scan_line swift_file st line = Ok st' ->
  exists new, elements st' = elements st ++ new.
Proof.
  intros Hs.
  destruct (scan_line_appends swift_file st line st' Hs)
    as [-> | (e & -> & _)]; [exists []; now rewrite app_nil_r|].
  eauto.
Qed.

Lemma scan_lines_extends (swift_file : string) (lines : list string) :
  forall st st',
    scan_lines swift_file lines st = Ok st' ->
    exists new, elements st' = elements st ++ new.
Proof.
  unfold scan_lines.
  induction lines as [|l lines IH]; intros st st'; simpl.
  - intros [= <-]. exists []. now rewrite app_nil_r.
  - intros (st1 & H1 & H2)%bind_ok.
    apply scan_line_extends in H1 as [new1 E1].
    apply IH in H2 as [new2 E2].
    exists (new1 ++ new2). now rewrite E2, E1, app_assoc.
Qed.

Lemma extract_lines_prefix (swift_file : string) (l1 l2 : list string)
  (es : list ApiElement) :
  extract_lines swift_file (l1 ++ l2) = Ok es ->
  exists es1 es2,
    extract_lines swift_file l1 = Ok es1 /\ es = es1 ++ es2.
Proof.
  unfold extract_lines, scan_lines. rewrite for_each_app.
  intros (st & H & [= <-])%bind_ok.
  apply bind_ok in H as (st1 & H1 & H2).
  destruct (scan_lines_extends swift_file l2 st1 st H2) as [new E].
  rewrite H1. simpl. exists (elements st1), new.
  split; [reflexivity | exact E].
Qed.

Lemma load_file_ext (dir1 dir2 : directory) :
  (forall f, read_text dir1 f = read_text dir2 f) ->
  forall acc f, load_file dir1 acc f = load_file dir2 acc f.
Proof.
  intros H acc f. unfold load_file, extract_api_elements. now rewrite H.
Qed.

(** C9. The result of [load_all_api_elements] is a function of the set of
    files and of their contents: two listings of the same names in any
    order, read alike, give the same result. The files are processed in
    sorted order of their names, the elements of a file follow those of the
    files before it, and within a file the elements of the first lines are
    a prefix of the elements of all lines. *)
Theorem load_all_deterministic (dir1 dir2 : directory)
  (Hglob : Permutation (glob_swift dir1) (glob_swift dir2))
  (Hread : forall f, read_text dir1 f = read_text dir2 f) :
  load_all_api_elements dir1 = load_all_api_elements dir2
  /\ Sorted String.le (sorted (glob_swift dir1))
  /\ Permutation (sorted (glob_swift dir1)) (glob_swift dir1)
  /\ (forall es,
        load_all_api_elements dir1 = Ok es ->
        es = concat (map (file_elements dir1) (sorted (glob_swift dir1))))
  /\ (forall swift_file l1 l2 es,
        extract_lines swift_file (l1 ++ l2) = Ok es ->
        exists es1 es2,
          extract_lines swift_file l1 = Ok es1 /\ es = es1 ++ es2).
Proof.
  split; [|split; [|split; [|split]]].
  - rewrite !load_all_api_elements_unfold.
    rewrite (sorted_permutation _ _ Hglob).
    apply for_each_ext, load_file_ext, Hread.
  - apply Sorted_merge_sort; apply _.
  - apply merge_sort_Permutation.
  - intros es H. rewrite load_all_api_elements_unfold in H.
    now apply for_each_load_concat in H.
  - apply extract_lines_prefix.
Qed.

Lemma load_all_deterministic_witness :
  load_all_api_elements listed_ba = load_all_api_elements listed_ab.
Proof.
  apply (load_all_deterministic listed_ba listed_ab).
  - apply perm_swap.
  - reflexivity.
Defined.

(** ** Nesting attribution *)

Lemma startswith_cons (c : ascii) (p : string) (d : ascii) (s : string) :
  Py.startswith (String c p) (String d s)
  = Ascii.eqb c d && Py.startswith p s.
Proof. reflexivity. Qed.

Lemma avail_not_doc (s : string) :
  Py.startswith "@available" s = true -> Py.startswith "///" s = false.
Proof.
  destruct s as [|c s]; [discriminate|].
  rewrite !startswith_cons. intros [Hc _]%andb_prop.
  apply Ascii.eqb_eq in Hc as <-. reflexivity.
Qed.

Lemma scan_line_avail (swift_file : string) (st : scan) (line : string) :
  is_avail line ->
  scan_line swift_file st line
  = Ok (mkScan (elements st) (doc_lines st)
          (avail_lines st ++ [Py.strip line])
          (type_stack st) (brace_depth st)).
Proof.
  intros H. unfold scan_line. now rewrite (avail_not_doc _ H), H.
Qed.

Lemma scan_lines_avail (swift_file : string) (a : list string) :
  Forall is_avail a ->
  forall st,
    scan_lines swift_file a st
    = Ok (mkScan (elements st) (doc_lines st)
            (avail_lines st ++ map Py.strip a)
            (type_stack st) (brace_depth st)).
Proof.
  unfold scan_lines.
  induction 1 as [|l a Hl Ha IH]; intros st; simpl.
  - rewrite app_nil_r. now destruct st.
  - rewrite (scan_line_avail swift_file st l Hl). simpl.
    rewrite IH. simpl. now rewrite <- app_assoc.
Qed.

Lemma scan_lines_app (swift_file : string) (l1 l2 : list string)
  (st : scan) :
  scan_lines swift_file (l1 ++ l2) st
  = bind (scan_lines swift_file l1 st) (scan_lines swift_file l2).
Proof. apply for_each_app. Qed.

Lemma scan_lines_nil (swift_file : string) (st : scan) :
  scan_lines swift_file [] st = Ok st.
Proof. reflexivity. Qed.

Lemma scan_lines_cons (swift_file : string) (l : string)
  (ls : list string) (st : scan) :
  scan_lines swift_file (l :: ls) st
  = bind (scan_line swift_file st l) (scan_lines swift_file ls).
Proof. reflexivity. Qed.

(** A declaration line that follows its availability lines [a], scanned
    from a state with empty buffers. *)
Lemma scan_lines_declaration (swift_file : string) (a : list string)
  (line : string) (tm : option (string * string)) (k n : string)
  (v : availability) (es : list ApiElement) (stack : list (string * Z))
  (depth : Z) :
  Forall is_avail a ->
  candidate line ->
  classify (normalize_line (Py.strip line)) = (tm, Some k, Some n) ->
  parse_ios_availability (map Py.strip a) = Ok v ->
  eligible v = true ->
  scan_lines swift_file (a ++ [line]) (mkScan es [] [] stack depth)
  = Ok (track_braces
          (mkScan
             (es ++ [element_of swift_file
                       (mkScan es [] (map Py.strip a) stack depth)
                       (Py.strip line) k n v])
             [] [] stack depth)
          line tm).
Proof.
  intros Ha Hcand Hc Hp He.
  rewrite scan_lines_app, (scan_lines_avail swift_file a Ha). simpl.
  rewrite scan_lines_cons.
  rewrite (scan_line_matched_ok swift_file
             (mkScan es [] (map Py.strip a) stack depth) line tm k n v
             Hcand Hc Hp).
  rewrite He. reflexivity.
Qed.

Lemma pop_exited_keep (n : string) (d depth : Z)
  (stack : list (string * Z)) :
  d <= depth -> pop_exited depth ((n, d) :: stack) = (n, d) :: stack.
Proof. intros H. simpl. destruct (depth <? d) eqn:E; [lia | reflexivity]. Qed.

Lemma pop_exited_drop (n : string) (d depth : Z)
  (stack : list (string * Z)) :
  depth < d -> pop_exited depth ((n, d) :: stack) = pop_exited depth stack.
Proof. intros H. simpl. destruct (depth <? d) eqn:E; [reflexivity | lia]. Qed.

(** C5. The element of a type declaration that opens a brace takes its
    parent from the stack as it is before the line, and the type is on top
    of the stack only after the line, whenever the line returns. So for a type declaration opening a
    brace, a member declaration, a line closing the brace and a second
    declaration, each declaration after availability lines that make it
    eligible: the type has no parent, the member has the type as parent,
    and the declaration after the closing line has none. *)
Theorem nesting_attribution (swift_file : string)
  (a0 a1 a2 : list string) (t f1 c f2 : string)
  (kw T k1 F1 k2 F2 : string) (v0 v1 v2 : availability)
  (Ha0 : Forall is_avail a0) (Ha1 : Forall is_avail a1)
  (Ha2 : Forall is_avail a2)
  (Hv0 : parse_ios_availability (map Py.strip a0) = Ok v0)
  (Hv1 : parse_ios_availability (map Py.strip a1) = Ok v1)
  (Hv2 : parse_ios_availability (map Py.strip a2) = Ok v2)
  (He0 : eligible v0 = true) (He1 : eligible v1 = true)
  (He2 : eligible v2 = true)
  (Ht : candidate t)
  (Ht_type : classify (normalize_line (Py.strip t))
             = (Some (kw, T), Some kw, Some T))
  (Ht_open : 0 < Py.count "{" t)
  (Hf1 : candidate f1)
  (Hf1_member : classify (normalize_line (Py.strip f1))
                = (None, Some k1, Some F1))
  (Hf1_braces : Py.count "{" f1 = Py.count "}" f1)
  (Hc : candidate c)
  (Hc_none : classify (normalize_line (Py.strip c)) = (None, None, None))
  (Hc_close : Py.count "{" c < Py.count "}" c)
  (Hf2 : candidate f2)
  (Hf2_decl : classify (normalize_line (Py.strip f2))
              = (None, Some k2, Some F2)) :
  (forall st st',
     scan_line swift_file st t = Ok st' ->
     top_name (type_stack st') = Some T
     /\ (elements st' = elements st
         \/ exists e, elements st' = elements st ++ [e]
                      /\ name e = T
                      /\ parent_type e = top_name (type_stack st)))
  /\ (exists e0 e1 e2,
        extract_lines swift_file
          (a0 ++ [t] ++ a1 ++ [f1] ++ [c] ++ a2 ++ [f2])
        = Ok [e0; e1; e2]
        /\ name e0 = T /\ kind e0 = kw /\ parent_type e0 = None
        /\ name e1 = F1 /\ kind e1 = k1 /\ parent_type e1 = Some T
        /\ name e2 = F2 /\ kind e2 = k2 /\ parent_type e2 = None).
Proof.
  split.
  { intros st st' Hs.
    apply (scan_line_matched_inv swift_file st t _ kw T st' Ht Ht_type) in Hs
      as ([[i d] u] & _ & ->).
    unfold track_braces.
    cbn [elements doc_lines avail_lines type_stack brace_depth].
    apply Z.ltb_lt in Ht_open. rewrite Ht_open.
    rewrite pop_exited_keep by lia. split; [reflexivity|].
    destruct (eligible (i, d, u)); [right | now left].
    eexists. split; [reflexivity|]. split; reflexivity. }
  unfold extract_lines.
  replace (a0 ++ [t] ++ a1 ++ [f1] ++ [c] ++ a2 ++ [f2])
    with ((a0 ++ [t]) ++ (a1 ++ [f1]) ++ [c] ++ (a2 ++ [f2]))
    by (now rewrite <- !app_assoc).
  rewrite scan_lines_app.
  unfold scan_init.
  rewrite (scan_lines_declaration swift_file a0 t _ kw T v0 [] [] 0
             Ha0 Ht Ht_type Hv0 He0).
  unfold track_braces at 1. cbn [bind elements doc_lines avail_lines
                                  type_stack brace_depth].
  apply Z.ltb_lt in Ht_open. rewrite Ht_open.
  rewrite pop_exited_keep by lia.
  rewrite scan_lines_app.
  rewrite (scan_lines_declaration swift_file a1 f1 _ k1 F1 v1 _ _ _
             Ha1 Hf1 Hf1_member Hv1 He1).
  unfold track_braces at 1. cbn [bind elements doc_lines avail_lines
                                  type_stack brace_depth].
  rewrite pop_exited_keep by lia.
  rewrite scan_lines_app, scan_lines_cons.
  rewrite (scan_line_unmatched swift_file _ c None Hc Hc_none).
  cbv zeta.
  set (st_c := track_braces _ c None).
  assert (type_stack st_c = [] /\ elements st_c = elements st_c
          /\ doc_lines st_c = [] /\ avail_lines st_c = []) as (Hs & _ & Hd & Hav).
  { subst st_c. unfold track_braces.
    cbn [elements doc_lines avail_lines type_stack brace_depth].
    rewrite pop_exited_drop by lia. auto. }
  assert (forall st' : scan,
            (st' = st_c
             \/ st' = mkScan (elements st_c) [] [] (type_stack st_c)
                        (brace_depth st_c)) ->
            st' = mkScan (elements st_c) [] [] [] (brace_depth st_c)) as Hnorm.
  { intros st' [-> | ->]; [|now rewrite Hs].
    destruct st_c as [es dl al ts bd]. simpl in *. now subst. }
  match goal with
  | |- context [bind (bind (Ok ?x) _)] =>
      assert (x = mkScan (elements st_c) [] [] [] (brace_depth st_c)) as ->
  end.
  { apply Hnorm.
    destruct (Py.startswith "@" (Py.strip c)); [now left|].
    destruct (Py.truthy (Py.strip c)
              && negb (Py.startswith "//" (Py.strip c)));
      [now right | now left]. }
  cbn [bind]. rewrite scan_lines_nil. cbn [bind].
  rewrite (scan_lines_declaration swift_file a2 f2 _ k2 F2 v2 _ _ _
             Ha2 Hf2 Hf2_decl Hv2 He2).
  cbn [bind]. unfold track_braces at 1.
  cbn [elements doc_lines avail_lines type_stack brace_depth].
  subst st_c. unfold track_braces.
  cbn [elements doc_lines avail_lines type_stack brace_depth].
  destruct v0 as [[i0 d0] u0], v1 as [[i1 d1] u1], v2 as [[i2 d2] u2].
  do 3 eexists. split; [reflexivity|].
  cbn. repeat split; reflexivity.
Qed.

Lemma nesting_attribution_witness :
  exists e0 e1 e2,
    extract_lines "Foo.swift"
      ([AT17] ++ ["public struct Foo {"] ++ [AT17] ++ ["    func bar()"]
       ++ ["}"] ++ [AT17] ++ ["public func baz()"])
    = Ok [e0; e1; e2]
    /\ name e0 = "Foo" /\ kind e0 = "struct" /\ parent_type e0 = None
    /\ name e1 = "bar" /\ kind e1 = "func" /\ parent_type e1 = Some "Foo"
    /\ name e2 = "baz" /\ kind e2 = "func" /\ parent_type e2 = None.
Proof.
  eapply proj2.
  apply (nesting_attribution "Foo.swift" [AT17] [AT17] [AT17]
           "public struct Foo {" "    func bar()" "}" "public func baz()"
           "struct" "Foo" "func" "bar" "func" "baz"
           (Some (17, 0), false, false) (Some (17, 0), false, false)
           (Some (17, 0), false, false));
    try (repeat constructor; fail);
    try reflexivity; try (split; reflexivity).
Defined.

(** ** The pending buffers *)

Lemma candidate_context (line : string) :
  candidate line <-> is_context line = false.
Proof. unfold candidate, is_context. rewrite orb_false_iff. tauto. Qed.

(** The effect of a line on a state, uniformly in the elements so far:
    whether it raises, the new elements and the buffers depend on the
    buffers and on the nesting state only. *)
Lemma scan_line_frame (swift_file : string) (dl al : list string)
  (ts : list (string * Z)) (bd : Z) (line : string) :
  (exists new dl' al',
     forall es,
       scan_line swift_file (mkScan es dl al ts bd) line
       = Ok (mkScan (es ++ new) dl' al'
               (fst (nest_line (ts, bd) line))
               (snd (nest_line (ts, bd) line))))
  \/ (exists e,
        forall es,
          scan_line swift_file (mkScan es dl al ts bd) line = Raise e).
Proof.
  unfold nest_line, is_context, type_match_of.
  destruct (Py.startswith "///" (Py.strip line)) eqn:Hdoc.
  { left. exists [], (dl ++ [Py.strip line]), al. intros es.
    unfold scan_line. rewrite Hdoc, app_nil_r. reflexivity. }
  destruct (Py.startswith "@available" (Py.strip line)) eqn:Hav.
  { left. exists [], dl, (al ++ [Py.strip line]). intros es.
    unfold scan_line. rewrite Hdoc, Hav, app_nil_r. reflexivity. }
  assert (candidate line) as Hcand by (split; assumption).
  cbn [orb].
  assert (forall tm k n,
            classify (normalize_line (Py.strip line)) = (tm, Some k, Some n) ->
            (exists new dl' al',
               forall es,
                 scan_line swift_file (mkScan es dl al ts bd) line
                 = Ok (mkScan (es ++ new) dl' al'
                         (type_stack (track_braces (mkScan [] [] [] ts bd)
                                        line tm))
                         (brace_depth (track_braces (mkScan [] [] [] ts bd)
                                         line tm))))
            \/ (exists e,
                  forall es,
                    scan_line swift_file (mkScan es dl al ts bd) line
                    = Raise e)) as Hmatched.
  { intros tm k n Hc.
    destruct (parse_ios_availability al) as [v|e] eqn:Hv.
    - left.
      exists (if eligible v
              then [element_of swift_file (mkScan [] dl al ts bd)
                      (Py.strip line) k n v]
              else []), [], [].
      intros es.
      rewrite (scan_line_matched_ok swift_file (mkScan es dl al ts bd) line
                 _ _ _ v Hcand Hc Hv).
      unfold track_braces. cbn [elements doc_lines avail_lines type_stack
                                 brace_depth].
      destruct v as [[i d] u].
      destruct (eligible (i, d, u)); [reflexivity | now rewrite app_nil_r].
    - right. exists e. intros es.
      rewrite (scan_line_matched swift_file (mkScan es dl al ts bd) line
                 _ _ _ Hcand Hc).
      cbn [avail_lines]. now rewrite Hv. }
  destruct (classify_cases (normalize_line (Py.strip line)))
    as [(kw & nm & Hc & _)|[(k & nm & Hc & _) | Hc]].
  - rewrite Hc. eapply Hmatched, Hc.
  - rewrite Hc. eapply Hmatched, Hc.
  - rewrite Hc. cbn [fst]. left.
    destruct (Py.startswith "@" (Py.strip line)) eqn:Hat.
    + exists [], dl, al. intros es.
      rewrite (scan_line_unmatched swift_file _ line _ Hcand Hc).
      cbv zeta. rewrite Hat, app_nil_r. reflexivity.
    + destruct (Py.truthy (Py.strip line)
                && negb (Py.startswith "//" (Py.strip line))) eqn:Hclear.
      * exists [], [], []. intros es.
        rewrite (scan_line_unmatched swift_file _ line _ Hcand Hc).
        cbv zeta. rewrite Hat, Hclear, app_nil_r. reflexivity.
      * exists [], dl, al. intros es.
        rewrite (scan_line_unmatched swift_file _ line _ Hcand Hc).
        cbv zeta. rewrite Hat, Hclear, app_nil_r. reflexivity.
Qed.

Lemma scan_lines_frame (swift_file : string) (lines : list string) :
  forall (dl al : list string) (ts : list (string * Z)) (bd : Z),
    (exists new dl' al',
       forall es,
         scan_lines swift_file lines (mkScan es dl al ts bd)
         = Ok (mkScan (es ++ new) dl' al'
                 (fst (fold_left nest_line lines (ts, bd)))
                 (snd (fold_left nest_line lines (ts, bd)))))
    \/ (exists e,
          forall es,
            scan_lines swift_file lines (mkScan es dl al ts bd) = Raise e).
Proof.
  induction lines as [|l lines IH]; intros dl al ts bd.
  - left. exists [], dl, al. intros es. now rewrite app_nil_r.
  - destruct (scan_line_frame swift_file dl al ts bd l)
      as [(new1 & dl1 & al1 & H1) | (e & H1)].
    + destruct (IH dl1 al1 (fst (nest_line (ts, bd) l))
                  (snd (nest_line (ts, bd) l)))
        as [(new2 & dl2 & al2 & H2) | (e & H2)].
      * left. exists (new1 ++ new2), dl2, al2. intros es.
        rewrite scan_lines_cons, H1. cbn [bind]. rewrite H2.
        cbn [fold_left]. rewrite <- surjective_pairing.
        now rewrite app_assoc.
      * right. exists e. intros es.
        rewrite scan_lines_cons, H1. cbn [bind]. apply H2.
    + right. exists e. intros es. now rewrite scan_lines_cons, H1.
Qed.

(** The state that a scan returns, from the state without elements. *)
Lemma scan_lines_frame_ok (swift_file : string) (lines : list string)
  (dl al : list string) (ts : list (string * Z)) (bd : Z) (st : scan) :
  scan_lines swift_file lines (mkScan [] dl al ts bd) = Ok st ->
  exists new dl' al',
    forall es,
      scan_lines swift_file lines (mkScan es dl al ts bd)
      = Ok (mkScan (es ++ new) dl' al'
              (fst (fold_left nest_line lines (ts, bd)))
              (snd (fold_left nest_line lines (ts, bd)))).
Proof.
  intros Hs.
  destruct (scan_lines_frame swift_file lines dl al ts bd)
    as [H | (e & H)]; [exact H|].
  rewrite H in Hs. discriminate.
Qed.

(** Documentation and availability lines do not move the nesting state. *)
Lemma nest_filter_context (lines : list string) :
  forall n,
    fold_left nest_line (List.filter (fun l => negb (is_context l)) lines) n
    = fold_left nest_line lines n.
Proof.
  induction lines as [|l lines IH]; intros n; [reflexivity|].
  cbn [List.filter fold_left].
  destruct (is_context l) eqn:Hl; cbn [negb fold_left].
  - rewrite IH. f_equal. unfold nest_line. now rewrite Hl.
  - apply IH.
Qed.

Lemma at_not_doc (s : string) :
  Py.startswith "@" s = true -> Py.startswith "///" s = false.
Proof.
  destruct s as [|c s]; [discriminate|].
  rewrite !startswith_cons. intros [Hc _]%andb_prop.
  apply Ascii.eqb_eq in Hc as <-. reflexivity.
Qed.

(** A matched declaration line that returns leaves both buffers empty. *)
Lemma scan_line_matched_clears (swift_file : string) (st : scan)
  (line : string) (tm : option (string * string)) (k n : string)
  (st' : scan) :
  candidate line ->
  classify (normalize_line (Py.strip line)) = (tm, Some k, Some n) ->
  scan_line swift_file st line = Ok st' ->
  doc_lines st' = [] /\ avail_lines st' = [].
Proof.
  intros Hcand Hc Hs.
  apply (scan_line_matched_inv swift_file st line tm k n st' Hcand Hc) in Hs
    as (a & _ & ->).
  split; reflexivity.
Qed.

(** C6. A line matched as a declaration that returns empties both buffers,
    eligible or not, and it returns when no buffered availability line is
    longer than the limit of [int]. A line that starts with [@] and matches
    no declaration clears neither buffer: both are kept, and an
    [@available] line is added to the availability buffer. And the elements
    emitted after a matched declaration [m] do not depend on the
    documentation and availability lines before it: two inputs that differ
    only by such lines before [m], both scanned up to [m], emit the same
    elements from the lines after [m], or raise the same there; they emit
    when no line is longer than the limit. *)
Theorem buffers_reset_on_match (swift_file : string) (st : scan)
  (line attr m : string) (pre1 pre2 post : list string)
  (tm tm_a tm_m : option (string * string)) (k n k_m n_m : string)
  (Hcand : candidate line)
  (Hmatch : classify (normalize_line (Py.strip line)) = (tm, Some k, Some n))
  (Hattr : Py.startswith "@" (Py.strip attr) = true)
  (Hattr_none : classify (normalize_line (Py.strip attr)) = (tm_a, None, None))
  (Hpre : List.filter (fun l => negb (is_context l)) pre1
          = List.filter (fun l => negb (is_context l)) pre2)
  (Hm : candidate m)
  (Hm_match : classify (normalize_line (Py.strip m))
              = (tm_m, Some k_m, Some n_m)) :
  (forall st',
     scan_line swift_file st line = Ok st' ->
     doc_lines st' = [] /\ avail_lines st' = [])
  /\ (Forall (fun l => short l = true) (avail_lines st) ->
      exists st',
        scan_line swift_file st line = Ok st'
        /\ doc_lines st' = [] /\ avail_lines st' = [])
  /\ (exists st',
        scan_line swift_file st attr = Ok st'
        /\ doc_lines st' = doc_lines st
        /\ (avail_lines st' = avail_lines st
            \/ avail_lines st' = avail_lines st ++ [Py.strip attr]))
  /\ (forall es1 es2,
        extract_lines swift_file (pre1 ++ [m]) = Ok es1 ->
        extract_lines swift_file (pre2 ++ [m]) = Ok es2 ->
        (exists new,
           extract_lines swift_file (pre1 ++ [m] ++ post) = Ok (es1 ++ new)
           /\ extract_lines swift_file (pre2 ++ [m] ++ post)
              = Ok (es2 ++ new))
        \/ (exists e,
              extract_lines swift_file (pre1 ++ [m] ++ post) = Raise e
              /\ extract_lines swift_file (pre2 ++ [m] ++ post) = Raise e))
  /\ (Forall (fun l => short l = true) (pre1 ++ pre2 ++ [m] ++ post) ->
      exists es1 es2 new,
        extract_lines swift_file (pre1 ++ [m]) = Ok es1
        /\ extract_lines swift_file (pre2 ++ [m]) = Ok es2
        /\ extract_lines swift_file (pre1 ++ [m] ++ post) = Ok (es1 ++ new)
        /\ extract_lines swift_file (pre2 ++ [m] ++ post) = Ok (es2 ++ new)).
Proof.
  assert (forall es1 es2,
            extract_lines swift_file (pre1 ++ [m]) = Ok es1 ->
            extract_lines swift_file (pre2 ++ [m]) = Ok es2 ->
            (exists new,
               extract_lines swift_file (pre1 ++ [m] ++ post)
               = Ok (es1 ++ new)
               /\ extract_lines swift_file (pre2 ++ [m] ++ post)
                  = Ok (es2 ++ new))
            \/ (exists e,
                  extract_lines swift_file (pre1 ++ [m] ++ post) = Raise e
                  /\ extract_lines swift_file (pre2 ++ [m] ++ post)
                     = Raise e)) as Hafter.
  { assert (forall pre st0,
              scan_lines swift_file pre scan_init = Ok st0 ->
              exists es dl al,
                st0 = mkScan es dl al
                        (fst (fold_left nest_line pre ([], 0)))
                        (snd (fold_left nest_line pre ([], 0)))) as Hrun.
    { intros pre st0 H0.
      destruct (scan_lines_frame_ok swift_file pre [] [] [] 0 st0 H0)
        as (new & dl & al & H).
      unfold scan_init in H0. rewrite (H []) in H0. injection H0 as <-.
      eauto. }
    assert (forall es dl al ts bd st',
              scan_lines swift_file [m] (mkScan es dl al ts bd) = Ok st' ->
              exists es',
                st' = mkScan es' [] []
                        (fst (nest_line (ts, bd) m))
                        (snd (nest_line (ts, bd) m))) as Hstep.
    { intros es dl al ts bd st'. rewrite scan_lines_cons.
      intros (st1 & H1 & H2)%bind_ok.
      rewrite scan_lines_nil in H2. injection H2 as <-.
      apply (scan_line_matched_inv swift_file _ m tm_m k_m n_m st1 Hm
               Hm_match) in H1 as (a & _ & ->).
      eexists. unfold nest_line, type_match_of.
      rewrite (proj1 (candidate_context m) Hm), Hm_match.
      unfold track_braces. cbn. reflexivity. }
    intros es1 es2. unfold extract_lines.
    rewrite !app_assoc, !scan_lines_app.
    intros (st1 & H1 & [= <-])%bind_ok (st2 & H2 & [= <-])%bind_ok.
    apply bind_ok in H1 as (p1 & Hp1 & Hm1).
    apply bind_ok in H2 as (p2 & Hp2 & Hm2).
    rewrite Hp1, Hp2. cbn [bind]. rewrite Hm1, Hm2. cbn [bind].
    destruct (Hrun pre1 p1 Hp1) as (e1 & dl1 & al1 & ->).
    destruct (Hrun pre2 p2 Hp2) as (e2 & dl2 & al2 & ->).
    rewrite <- (nest_filter_context pre2) in Hm2.
    rewrite <- Hpre, nest_filter_context in Hm2.
    set (n0 := fold_left nest_line pre1 ([], 0)) in *.
    destruct (Hstep _ _ _ _ _ _ Hm1) as (es1 & ->).
    destruct (Hstep _ _ _ _ _ _ Hm2) as (es2 & ->).
    set (n1 := nest_line (fst n0, snd n0) m) in *.
    destruct (scan_lines_frame swift_file post [] [] (fst n1) (snd n1))
      as [(new & dl' & al' & Hpost) | (e & Hpost)].
    - left. exists new. rewrite !Hpost. cbn [bind elements]. auto.
    - right. exists e. rewrite !Hpost. cbn [bind]. auto. }
  split; [intros st'; now apply scan_line_matched_clears with (2 := Hmatch)|].
  split; [|split; [|split; [exact Hafter|]]].
  - intros Hs. destruct (scan_line_total swift_file st line Hs) as [st' H].
    exists st'. split; [exact H|].
    now apply (scan_line_matched_clears swift_file st line tm k n st').
  - destruct (Py.startswith "@available" (Py.strip attr)) eqn:Hav.
    { rewrite (scan_line_avail swift_file st attr Hav).
      eexists. split; [reflexivity|]. split; [reflexivity | now right]. }
    assert (candidate attr) as Ha by (split; [now apply at_not_doc | exact Hav]).
    rewrite (scan_line_unmatched swift_file st attr tm_a Ha Hattr_none).
    cbv zeta. rewrite Hattr. eexists. split; [reflexivity|].
    split; [reflexivity | now left].
  - intros Hshort.
    apply Forall_app in Hshort as [Hs1 Hshort].
    apply Forall_app in Hshort as [Hs2 Hshort].
    apply Forall_app in Hshort as [Hsm Hspost].
    destruct (extract_lines_total swift_file (pre1 ++ [m])) as [es1 He1];
      [apply Forall_app; auto|].
    destruct (extract_lines_total swift_file (pre2 ++ [m])) as [es2 He2];
      [apply Forall_app; auto|].
    exists es1, es2.
    destruct (Hafter es1 es2 He1 He2) as [(new & Hn1 & Hn2) | (e & Hr & _)];
      [eauto|].
    destruct (extract_lines_total swift_file (pre1 ++ [m] ++ post))
      as [es Hes]; [|congruence].
    apply Forall_app. split; [exact Hs1|]. apply Forall_app. auto.
Qed.

Lemma buffers_reset_on_match_witness :
  (exists st',
     scan_line "F.swift" (mkScan [] ["/// Old."] ["@available(iOS 16.0, *)"] [] 0)
       "func f()" = Ok st'
     /\ doc_lines st' = [] /\ avail_lines st' = [])
  /\ (exists st',
        scan_line "F.swift"
          (mkScan [] ["/// Old."] ["@available(iOS 16.0, *)"] [] 0)
          "@MainActor" = Ok st'
        /\ doc_lines st' = ["/// Old."]
        /\ (avail_lines st' = ["@available(iOS 16.0, *)"]
            \/ avail_lines st'
               = ["@available(iOS 16.0, *)"] ++ [Py.strip "@MainActor"]))
  /\ (exists es1 es2 new,
        extract_lines "F.swift" (["/// Stale."; AT17] ++ ["func first()"])
        = Ok es1
        /\ extract_lines "F.swift" ([] ++ ["func first()"]) = Ok es2
        /\ extract_lines "F.swift"
             (["/// Stale."; AT17] ++ ["func first()"]
              ++ [AT17; "func second()"]) = Ok (es1 ++ new)
        /\ extract_lines "F.swift"
             ([] ++ ["func first()"] ++ [AT17; "func second()"])
           = Ok (es2 ++ new)).
Proof.
  destruct (buffers_reset_on_match "F.swift"
              (mkScan [] ["/// Old."] ["@available(iOS 16.0, *)"] [] 0)
              "func f()" "@MainActor" "func first()"
              ["/// Stale."; AT17] [] [AT17; "func second()"]
              None None None "func" "f" "func" "first")
    as (_ & Hline & Hattr & _ & Hafter);
    try reflexivity; try (split; reflexivity).
  split; [apply Hline; repeat constructor|].
  split; [exact Hattr|].
  apply Hafter. repeat constructor.
Defined.

(** ** The availability interpreter *)

Lemma availability_step_skip (acc : availability) (l : string) :
  mentions_ios l = false -> availability_step acc l = Ok acc.
Proof.
  intros H. destruct acc as [[i d] u]. unfold availability_step.
  unfold mentions_ios in H. now rewrite H.
Qed.

Lemma if_true_orb (b c : bool) : (if b then true else c) = b || c.
Proof. now destruct b. Qed.

(** A line that names the platform: the flags accumulate, and [introduced]
    is set by the direct pattern, else by the keyed pattern, else kept. *)
Lemma availability_step_direct (i : option version) (d u : bool)
  (l g : string) :
  mentions_ios l = true ->
  Re.search direct_re (Py.strip l) = Some g ->
  availability_step (i, d, u) l
  = bind (version_to_tuple g)
      (fun v => Ok (Some v, marks_deprecated l || d, marks_unavailable l || u)).
Proof.
  intros Hm Hg.
  unfold availability_step, marks_deprecated, marks_unavailable.
  rewrite Hm. unfold mentions_ios in Hm. rewrite Hm, Hg.
  destruct (version_to_tuple g); cbn [negb bind andb]; [|reflexivity].
  now rewrite !if_true_orb.
Qed.

Lemma availability_step_keyed (i : option version) (d u : bool)
  (l g : string) :
  mentions_ios l = true ->
  Re.search direct_re (Py.strip l) = None ->
  Re.search introduced_re (Py.strip l) = Some g ->
  availability_step (i, d, u) l
  = bind (version_to_tuple g)
      (fun v => Ok (Some v, marks_deprecated l || d, marks_unavailable l || u)).
Proof.
  intros Hm Hd Hg.
  unfold availability_step, marks_deprecated, marks_unavailable.
  rewrite Hm. unfold mentions_ios in Hm. rewrite Hm, Hd, Hg.
  destruct (version_to_tuple g); cbn [negb bind andb]; [|reflexivity].
  now rewrite !if_true_orb.
Qed.

Lemma availability_step_silent (i : option version) (d u : bool)
  (l : string) :
  silent l ->
  availability_step (i, d, u) l
  = Ok (i, marks_deprecated l || d, marks_unavailable l || u).
Proof.
  unfold marks_deprecated, marks_unavailable.
  intros [Hm | [Hd Hk]].
  - rewrite (availability_step_skip _ l Hm), Hm. reflexivity.
  - unfold availability_step, mentions_ios.
    destruct (Py.contains "iOS" (Py.strip l)); [|reflexivity].
    rewrite Hd, Hk. cbn [negb andb]. now rewrite !if_true_orb.
Qed.

(** The flags of every line accumulate, whatever sets the version. *)
Lemma availability_step_flags (i : option version) (d u : bool)
  (l : string) (acc' : availability) :
  availability_step (i, d, u) l = Ok acc' ->
  exists i',
    acc' = (i', marks_deprecated l || d, marks_unavailable l || u).
Proof.
  destruct (mentions_ios l) eqn:Hm.
  - destruct (Re.search direct_re (Py.strip l)) as [g|] eqn:Hd.
    { rewrite (availability_step_direct i d u l g Hm Hd).
      intros (v & _ & [= <-])%bind_ok. eauto. }
    destruct (Re.search introduced_re (Py.strip l)) as [g|] eqn:Hk.
    { rewrite (availability_step_keyed i d u l g Hm Hd Hk).
      intros (v & _ & [= <-])%bind_ok. eauto. }
    rewrite availability_step_silent by (right; auto).
    intros [= <-]. eauto.
  - rewrite availability_step_silent by (now left). intros [= <-]. eauto.
Qed.

Lemma parse_flags (ls : list string) :
  forall i d u r,
    for_each availability_step ls (i, d, u) = Ok r ->
    exists i',
      r = (i', existsb marks_deprecated ls || d,
           existsb marks_unavailable ls || u).
Proof.
  induction ls as [|l ls IH]; intros i d u r; cbn [for_each existsb orb].
  - intros [= <-]. eauto.
  - intros (acc1 & H1 & H2)%bind_ok.
    apply availability_step_flags in H1 as [i1 ->].
    apply IH in H2 as [i2 ->].
    exists i2. f_equal; [f_equal|].
    + now rewrite orb_assoc, (orb_comm (existsb _ _)).
    + now rewrite orb_assoc, (orb_comm (existsb _ _)).
Qed.

Lemma parse_silent (ls : list string) :
  Forall silent ls ->
  forall i d u,
  exists d' u', for_each availability_step ls (i, d, u) = Ok (i, d', u').
Proof.
  induction 1 as [|l ls Hl Hls IH]; intros i d u; cbn [for_each].
  - eauto.
  - rewrite (availability_step_silent i d u l Hl). cbn [bind]. apply IH.
Qed.

Lemma parse_filter_mentions (ls : list string) :
  forall acc,
    for_each availability_step (List.filter mentions_ios ls) acc
    = for_each availability_step ls acc.
Proof.
  induction ls as [|l ls IH]; intros acc; [reflexivity|].
  cbn [List.filter for_each].
  destruct (mentions_ios l) eqn:Hm.
  - cbn [for_each]. destruct (availability_step acc l); cbn [bind];
      [apply IH | reflexivity].
  - rewrite (availability_step_skip acc l Hm). cbn [bind]. apply IH.
Qed.

(** The line that sets the version last decides it. *)
Lemma parse_last_setter (pre post : list string) (l : string)
  (v : version) (r0 : availability) :
  parse_ios_availability pre = Ok r0 ->
  (forall i d u, exists d' u',
      availability_step (i, d, u) l = Ok (Some v, d', u')) ->
  Forall silent post ->
  exists d u, parse_ios_availability (pre ++ l :: post) = Ok (Some v, d, u).
Proof.
  intros H0 Hl Hpost. unfold parse_ios_availability in *.
  rewrite for_each_app, H0. cbn [bind for_each].
  destruct r0 as [[i0 d0] u0].
  destruct (Hl i0 d0 u0) as (d1 & u1 & ->). cbn [bind].
  apply (parse_silent post Hpost).
Qed.

(** A line on which a version is found but not read makes the parse
    raise. *)
Lemma parse_setter_raises (pre post : list string) (l : string)
  (e : exn) (r0 : availability) :
  parse_ios_availability pre = Ok r0 ->
  (forall i d u, availability_step (i, d, u) l = Raise e) ->
  parse_ios_availability (pre ++ l :: post) = Raise e.
Proof.
  intros H0 Hl. unfold parse_ios_availability in *.
  rewrite for_each_app, H0. cbn [bind for_each].
  destruct r0 as [[i0 d0] u0]. now rewrite Hl.
Qed.

(** C2. [parse_ios_availability] ignores the lines that do not name iOS.
    It raises nothing but [ValueError], and only on a line longer than the
    limit of [int]; on shorter lines it returns. On the lines that name
    iOS, "unavailable" sets the unavailable flag and "deprecated" or
    "obsoleted" the deprecated flag. The version is that of the last line
    on which a pattern is found (every line is read, none stops the loop):
    the direct pattern [iOS <version>] when it is found on that line,
    whatever the keyed pattern would give, and the keyed pattern
    [introduced: <version>] only when the direct one is not; it is absent
    when no line sets it, and the parse raises when a version that is found
    cannot be read. A version is [<major>] or [<major>.<minor>], read as
    (major, 0) and (major, minor) when each number is within the limit. *)
Theorem availability_lines_interpreted :
  (forall ls,
     parse_ios_availability (List.filter mentions_ios ls)
     = parse_ios_availability ls)
  /\ (forall ls,
        Forall (fun l => short l = true) ls ->
        exists r, parse_ios_availability ls = Ok r)
  /\ (forall ls e,
        parse_ios_availability ls = Raise e ->
        e = ValueError /\ exists l, In l ls /\ short l = false)
  /\ (forall ls i d u,
        parse_ios_availability ls = Ok (i, d, u) ->
        u = existsb marks_unavailable ls /\ d = existsb marks_deprecated ls)
  /\ (forall pre l post g v r0,
        mentions_ios l = true ->
        Re.search direct_re (Py.strip l) = Some g ->
        Forall silent post ->
        parse_ios_availability pre = Ok r0 ->
        version_to_tuple g = Ok v ->
        exists d u,
          parse_ios_availability (pre ++ l :: post) = Ok (Some v, d, u))
  /\ (forall pre l post g v r0,
        mentions_ios l = true ->
        Re.search direct_re (Py.strip l) = None ->
        Re.search introduced_re (Py.strip l) = Some g ->
        Forall silent post ->
        parse_ios_availability pre = Ok r0 ->
        version_to_tuple g = Ok v ->
        exists d u,
          parse_ios_availability (pre ++ l :: post) = Ok (Some v, d, u))
  /\ (forall pre l post g e r0,
        mentions_ios l = true ->
        Re.search direct_re (Py.strip l) = Some g
        \/ (Re.search direct_re (Py.strip l) = None
            /\ Re.search introduced_re (Py.strip l) = Some g) ->
        parse_ios_availability pre = Ok r0 ->
        version_to_tuple g = Raise e ->
        parse_ios_availability (pre ++ l :: post) = Raise e)
  /\ (forall ls,
        Forall silent ls ->
        exists d u, parse_ios_availability ls = Ok (None, d, u))
  /\ (forall s g,
        Re.search direct_re s = Some g ->
        exists before ws rest,
          s = before +:+ "iOS" +:+ ws +:+ g +:+ rest
          /\ Py.truthy ws = true /\ all_chars Py.isspace ws = true
          /\ version_text g)
  /\ (forall s g,
        Re.search introduced_re s = Some g ->
        exists before ws rest,
          s = before +:+ "introduced:" +:+ ws +:+ g +:+ rest
          /\ all_chars Py.isspace ws = true
          /\ version_text g)
  /\ (forall a,
        is_number a = true ->
        version_to_tuple a
        = if short a then Ok (Py.digits_value 0 a, 0) else Raise ValueError)
  /\ (forall a b,
        is_number a = true -> is_number b = true ->
        version_to_tuple (a +:+ "." +:+ b)
        = if short a && short b
          then Ok (Py.digits_value 0 a, Py.digits_value 0 b)
          else Raise ValueError).
Proof.
  repeat apply conj.
  - intros ls. unfold parse_ios_availability. apply parse_filter_mentions.
  - apply parse_ios_availability_total.
  - apply parse_ios_availability_raises.
  - intros ls i d u H. unfold parse_ios_availability in H.
    apply parse_flags in H as [i' [= _ -> ->]].
    now rewrite !orb_false_r.
  - intros pre l post g v r0 Hm Hg Hpost Hpre Hv.
    apply (parse_last_setter pre post l v r0 Hpre); [|exact Hpost].
    intros i d u.
    rewrite (availability_step_direct i d u l g Hm Hg), Hv. cbn [bind]. eauto.
  - intros pre l post g v r0 Hm Hd Hg Hpost Hpre Hv.
    apply (parse_last_setter pre post l v r0 Hpre); [|exact Hpost].
    intros i d u.
    rewrite (availability_step_keyed i d u l g Hm Hd Hg), Hv. cbn [bind].
    eauto.
  - intros pre l post g e r0 Hm Hfound Hpre Hv.
    apply (parse_setter_raises pre post l e r0 Hpre).
    intros i d u. destruct Hfound as [Hg | [Hd Hg]].
    + now rewrite (availability_step_direct i d u l g Hm Hg), Hv.
    + now rewrite (availability_step_keyed i d u l g Hm Hd Hg), Hv.
  - intros ls Hls. apply (parse_silent ls Hls).
  - intros s g (before & at_ & -> & H)%search_suffix.
    apply direct_re_shape in H as (ws & rest & -> & H).
    exists before, ws, rest. split; [reflexivity | exact H].
  - intros s g (before & at_ & -> & H)%search_suffix.
    apply introduced_re_shape in H as (ws & rest & -> & H).
    exists before, ws, rest. split; [reflexivity | exact H].
  - apply version_to_tuple_major.
  - apply version_to_tuple_major_minor.
Qed.

Lemma availability_lines_interpreted_witness :
  (exists d u,
     parse_ios_availability
       (["@available(iOS 16.0, *)"]
        ++ "@available(iOS 17.2, introduced: 15.0, *)"
           :: ["@available(macOS 12.0, *)"])
     = Ok (Some (17, 2), d, u))
  /\ (exists d u,
        parse_ios_availability
          (["@available(iOS 17.0, *)"]
           ++ "@available(iOS, introduced: 18, deprecated: 19.0)"
              :: ["@available(iOS, unavailable)"])
        = Ok (Some (18, 0), d, u))
  /\ (exists r,
        parse_ios_availability
          ["@available(iOS 17.0, *)"; "@available(macOS 14.0, *)"] = Ok r)
  /\ version_to_tuple ("17" +:+ "." +:+ "2") = Ok (17, 2).
Proof.
  destruct availability_lines_interpreted
    as (_ & Htotal & _ & _ & Hdirect & Hkeyed & _ & _ & _ & _ & _ & Hpair).
  split; [|split; [|split]].
  - apply (Hdirect _ _ _ "17.2" (17, 2) (Some (16, 0), false, false));
      try reflexivity.
    constructor; [left; reflexivity | constructor].
  - apply (Hkeyed _ _ _ "18" (18, 0) (Some (17, 0), false, false));
      try reflexivity.
    constructor; [right; split; reflexivity | constructor].
  - apply Htotal. repeat constructor.
  - exact (Hpair "17" "2" eq_refl eq_refl).
Defined.

(** ** Line normalisation *)

Lemma lstrip_fixed (s : string) :
  String.length (Py.lstrip s) = String.length s -> Py.lstrip s = s.
Proof.
  destruct s as [|c s]; simpl; [reflexivity|].
  destruct (Py.isspace c); [|reflexivity].
  pose proof (lstrip_length s). lia.
Qed.

(** A string that [strip] leaves alone has no white space at either end. *)
Lemma strip_fixed (s : string) :
  Py.strip s = s -> Py.lstrip s = s /\ Py.rstrip s = s.
Proof.
  intros H. unfold Py.strip in H.
  assert (Py.lstrip s = s) as Hl.
  { apply lstrip_fixed. pose proof (rstrip_length (Py.lstrip s)).
    pose proof (lstrip_length s). rewrite H in *. lia. }
  split; [exact Hl|]. now rewrite Hl in H.
Qed.

Lemma rstrip_app (a b : string) :
  Py.truthy (Py.rstrip b) = true ->
  Py.rstrip (a +:+ b) = a +:+ Py.rstrip b.
Proof.
  intros Hb. induction a as [|c a IH]; unfold_app; [reflexivity|].
  simpl. rewrite IH.
  destruct (a +:+ Py.rstrip b) as [|d r] eqn:E; [|reflexivity].
  destruct a; unfold_app; [|discriminate].
  rewrite string_app_nil_l in E. now rewrite E in Hb.
Qed.

Lemma strip_token_app (c : ascii) (tok r : string) :
  Py.isspace c = false -> Py.strip r = r -> Py.truthy r = true ->
  Py.strip (String c tok +:+ " " +:+ r) = String c tok +:+ " " +:+ r.
Proof.
  intros Hc Hr Hne. apply strip_fixed in Hr as [_ Hr].
  assert (Py.rstrip (" " +:+ r) = " " +:+ r) as Hsp.
  { rewrite rstrip_app; rewrite Hr; auto. }
  unfold Py.strip.
  assert (Py.lstrip (String c tok +:+ " " +:+ r)
          = String c tok +:+ " " +:+ r) as ->.
  { rewrite string_app_cons. simpl. now rewrite Hc. }
  rewrite rstrip_app; rewrite Hsp; auto.
Qed.

Lemma split_once_token (tok r : string) :
  all_chars (fun d => negb (Ascii.eqb d " ")) tok = true ->
  Py.split_once " " (tok +:+ " " +:+ r) = [tok; r].
Proof.
  induction tok as [|d tok IH]; [reflexivity|].
  rewrite string_app_cons.
  simpl. intros [Hd Htok]%andb_prop. apply negb_true_iff in Hd.
  rewrite Hd. now rewrite (IH Htok).
Qed.

Lemma contains_cons (sub : string) (c : ascii) (s : string) :
  Py.contains sub (String c s)
  = Py.startswith sub (String c s) || Py.contains sub s.
Proof. reflexivity. Qed.

Lemma contains_space_app (a r : string) :
  Py.contains " " (a +:+ " " +:+ r) = true.
Proof.
  induction a as [|d a IH].
  - reflexivity.
  - rewrite string_app_cons, contains_cons, IH. apply orb_true_r.
Qed.

(** [split(" ", 1)] gives the text itself, or the text around its first
    space. *)
Lemma split_once_cases (c : ascii) (s : string) :
  Py.split_once c s = [s]
  \/ exists a b, Py.split_once c s = [a; b] /\ s = a +:+ String c b.
Proof.
  induction s as [|d s IH]; simpl; [now left|].
  destruct (Ascii.eqb d c) eqn:E.
  - apply Ascii.eqb_eq in E as ->. right. exists "", s. auto.
  - destruct IH as [-> | (a & b & -> & Hs)]; [now left|].
    right. exists (String d a), b. split; [reflexivity|].
    unfold_app. now rewrite <- Hs.
Qed.

(** The text after the first space is shorter than the text. *)
Lemma split_once_rest_shorter (s : string) :
  Py.truthy s = true ->
  (String.length (nth 1 (Py.split_once " " s) "") < String.length s)%nat.
Proof.
  intros Hs. destruct (split_once_cases " " s) as [-> | (a & b & -> & E)].
  - destruct s; [discriminate | simpl; lia].
  - rewrite E, string_length_app. simpl. lia.
Qed.

(** Fuel beyond the length of the string changes nothing. *)
Lemma drop_attributes_fuel (n : nat) :
  forall (m : nat) (s : string),
    (String.length s <= n)%nat -> (String.length s <= m)%nat ->
    drop_attributes n s = drop_attributes m s.
Proof.
  induction n as [|n IH]; intros m s Hn Hm.
  - destruct s; [|simpl in Hn; lia]. destruct m; reflexivity.
  - destruct m as [|m].
    { destruct s; [reflexivity | simpl in Hm; lia]. }
    simpl.
    destruct (Py.startswith "@" s && Py.contains " " s) eqn:Hc;
      [|reflexivity].
    assert (Py.truthy s = true) as Hs by (destruct s; [discriminate | reflexivity]).
    pose proof (split_once_rest_shorter s Hs).
    pose proof (strip_length (nth 1 (Py.split_once " " s) "")).
    apply IH; lia.
Qed.

Lemma drop_modifiers_fuel (n : nat) :
  forall (m : nat) (s : string),
    (String.length s <= n)%nat -> (String.length s <= m)%nat ->
    drop_modifiers n s = drop_modifiers m s.
Proof.
  induction n as [|n IH]; intros m s Hn Hm.
  - destruct s; [|simpl in Hn; lia]. destruct m; reflexivity.
  - destruct m as [|m].
    { destruct s; [reflexivity | simpl in Hm; lia]. }
    simpl.
    destruct (split_once_cases " " s) as [-> | (a & b & -> & E)].
    + destruct (in_set s leading_modifiers); [|reflexivity].
      apply IH; simpl; lia.
    + destruct (in_set a leading_modifiers); [|reflexivity].
      assert (String.length b < String.length s)%nat.
      { rewrite E, string_length_app. simpl. lia. }
      apply IH; lia.
Qed.

(** Both loops of [normalize_line] end on their own condition, not on the
    fuel. *)
Lemma drop_attributes_stops (n : nat) :
  forall s,
    (String.length s <= n)%nat ->
    Py.startswith "@" (drop_attributes n s)
    && Py.contains " " (drop_attributes n s) = false.
Proof.
  induction n as [|n IH]; intros s Hn.
  - destruct s; [reflexivity | simpl in Hn; lia].
  - simpl.
    destruct (Py.startswith "@" s && Py.contains " " s) eqn:Hc;
      [|exact Hc].
    assert (Py.truthy s = true) as Hs by (destruct s; [discriminate | reflexivity]).
    pose proof (split_once_rest_shorter s Hs).
    pose proof (strip_length (nth 1 (Py.split_once " " s) "")).
    apply IH; lia.
Qed.

Lemma drop_modifiers_stops (n : nat) :
  forall s,
    (String.length s <= n)%nat ->
    in_set (first_word (drop_modifiers n s)) leading_modifiers = false.
Proof.
  induction n as [|n IH]; intros s Hn.
  - destruct s; [reflexivity | simpl in Hn; lia].
  - simpl. unfold first_word.
    destruct (split_once_cases " " s) as [E | (a & b & E & Es)]; rewrite E.
    + destruct (in_set s leading_modifiers) eqn:Hin.
      * apply IH. simpl. lia.
      * now rewrite E.
    + destruct (in_set a leading_modifiers) eqn:Hin.
      * apply IH.
        assert (String.length b < String.length s)%nat; [|lia].
        rewrite Es, string_length_app. simpl. lia.
      * now rewrite E.
Qed.

Lemma drop_attributes_id (n : nat) (s : string) :
  Py.startswith "@" s = false -> drop_attributes n s = s.
Proof. intros H. destruct n; simpl; [reflexivity | now rewrite H]. Qed.

Lemma drop_modifiers_id (n : nat) (s : string) :
  in_set (first_word s) leading_modifiers = false ->
  drop_modifiers n s = s.
Proof.
  intros H. destruct n; simpl; [reflexivity|]. unfold first_word in H.
  destruct (Py.split_once " " s) as [|p0 rest]; [reflexivity|].
  simpl in H. now rewrite H.
Qed.

Lemma leading_modifiers_plain (m : string) :
  In m leading_modifiers -> is_plain_word m = true.
Proof.
  assert (forallb is_plain_word leading_modifiers = true) as H
      by reflexivity.
  rewrite forallb_forall in H. apply H.
Qed.

Lemma no_space_no_blank (s : string) :
  all_chars (fun c => negb (Py.isspace c)) s = true ->
  all_chars (fun d => negb (Ascii.eqb d " ")) s = true.
Proof.
  apply all_chars_impl. intros c Hc.
  destruct (Ascii.eqb c " ") eqn:E; [|reflexivity].
  apply Ascii.eqb_eq in E as ->. discriminate.
Qed.

Lemma normalize_line_trimmed (r : string) :
  Py.strip r = r ->
  normalize_line r
  = drop_modifiers (String.length (drop_attributes (String.length r) r))
      (drop_attributes (String.length r) r).
Proof. intros H. unfold normalize_line. now rewrite H. Qed.

(** One attribute token in front of a text is dropped. *)
Lemma normalize_attribute (a r : string) :
  is_attribute a = true -> trimmed r ->
  trimmed (a +:+ " " +:+ r)
  /\ normalize_line (a +:+ " " +:+ r) = normalize_line r.
Proof.
  intros [Hat Hns]%andb_prop [Hr Hne].
  destruct a as [|c a]; [discriminate|].
  rewrite startswith_cons in Hat. apply andb_prop in Hat as [Hc _].
  apply Ascii.eqb_eq in Hc as <-.
  assert (Py.strip (String "@" a +:+ " " +:+ r) = String "@" a +:+ " " +:+ r)
    as Hs by (apply strip_token_app; auto).
  split; [split; [exact Hs | reflexivity]|].
  rewrite (normalize_line_trimmed _ Hs), (normalize_line_trimmed _ Hr).
  assert (drop_attributes (String.length (String "@" a +:+ " " +:+ r))
            (String "@" a +:+ " " +:+ r)
          = drop_attributes (String.length r) r) as ->; [|reflexivity].
  rewrite string_length_app. cbn [String.length Nat.add].
  cbn [drop_attributes].
  rewrite (contains_space_app (String "@" a) r).
  rewrite (split_once_token (String "@" a) r (no_space_no_blank _ Hns)).
  cbn [nth]. rewrite Hr.
  assert (Py.startswith "@" (String "@" a +:+ " " +:+ r) = true) as ->
      by reflexivity.
  cbn [andb].
  apply drop_attributes_fuel; [|lia].
  rewrite string_length_app. simpl. lia.
Qed.

(** One leading modifier in front of a text that starts no attribute is
    dropped. *)
Lemma normalize_modifier (m r : string) :
  In m leading_modifiers -> trimmed r -> Py.startswith "@" r = false ->
  (trimmed (m +:+ " " +:+ r)
   /\ Py.startswith "@" (m +:+ " " +:+ r) = false)
  /\ normalize_line (m +:+ " " +:+ r) = normalize_line r.
Proof.
  intros Hin [Hr Hne] Hnat.
  pose proof (leading_modifiers_plain m Hin) as Hm.
  unfold is_plain_word in Hm.
  apply andb_prop in Hm as [[Hmne Hmat]%andb_prop Hns].
  destruct m as [|c m]; [discriminate|].
  assert (Py.isspace c = false) as Hc.
  { simpl in Hns. apply andb_prop in Hns as [Hc _].
    now apply negb_true_iff in Hc. }
  assert (Py.strip (String c m +:+ " " +:+ r) = String c m +:+ " " +:+ r)
    as Hs by (apply strip_token_app; auto).
  assert (Py.startswith "@" (String c m +:+ " " +:+ r) = false) as Hat.
  { apply negb_true_iff in Hmat. rewrite startswith_cons in Hmat.
    unfold_app. rewrite startswith_cons.
    apply andb_false_iff in Hmat as [-> | H]; [reflexivity | discriminate]. }
  split; [split; [split; [exact Hs | reflexivity] | exact Hat]|].
  rewrite (normalize_line_trimmed _ Hs), (normalize_line_trimmed _ Hr).
  rewrite !drop_attributes_id by assumption.
  rewrite string_length_app. cbn [String.length Nat.add].
  cbn [drop_modifiers].
  rewrite (split_once_token (String c m) r (no_space_no_blank _ Hns)).
  apply in_set_In in Hin. rewrite Hin.
  apply drop_modifiers_fuel; [|lia].
  rewrite string_length_app. lia.
Qed.

Lemma join_cons (sep x : string) (l : list string) :
  l <> [] -> Py.join sep (x :: l) = x +:+ sep +:+ Py.join sep l.
Proof. destruct l; [congruence | reflexivity]. Qed.

Lemma normalize_modifiers (ms : list string) (decl : string) :
  Forall (fun m => In m leading_modifiers) ms ->
  trimmed decl -> Py.startswith "@" decl = false ->
  (trimmed (Py.join " " (ms ++ [decl]))
   /\ Py.startswith "@" (Py.join " " (ms ++ [decl])) = false)
  /\ normalize_line (Py.join " " (ms ++ [decl])) = normalize_line decl.
Proof.
  intros Hms Hd Hat. induction Hms as [|m ms Hm Hms IH].
  - simpl. auto.
  - destruct IH as [[IHt IHa] IHn].
    rewrite <- app_comm_cons, join_cons by (now destruct ms).
    destruct (normalize_modifier m _ Hm IHt IHa) as [H1 H2].
    split; [exact H1 | now rewrite H2].
Qed.

Lemma normalize_attributes (ats l : list string) :
  Forall (fun a => is_attribute a = true) ats ->
  l <> [] -> trimmed (Py.join " " l) ->
  trimmed (Py.join " " (ats ++ l))
  /\ normalize_line (Py.join " " (ats ++ l)) = normalize_line (Py.join " " l).
Proof.
  intros Hats Hl Ht. induction Hats as [|a ats Ha Hats IH].
  - simpl. auto.
  - destruct IH as [IHt IHn].
    rewrite <- app_comm_cons, join_cons
      by (intros E; apply app_eq_nil in E as [_ E]; contradiction).
    destruct (normalize_attribute a _ Ha IHt) as [H1 H2].
    split; [exact H1 | now rewrite H2].
Qed.

(** C7. The code does not do what the claim says, nor what the docstring
    of [normalize_line] gives as its purpose ("so regexes can match
    declarations"): [normalize_line] removes no visibility modifier, so a
    modifier of its list that comes after one is not removed and the line
    matches no pattern, although the declaration without the two modifiers
    does. The declaration [public mutating func scale(by k: Int)] is
    dropped by the scan, while the same declaration with the two modifiers
    in the other order is emitted. *)
Theorem visibility_before_modifier_unmatched :
  In "public" visibility /\ In "mutating" leading_modifiers
  /\ classify (normalize_line "func scale(by k: Int)")
     = (None, Some "func", Some "scale")
  /\ normalize_line "public mutating func scale(by k: Int)"
     = "public mutating func scale(by k: Int)"
  /\ classify (normalize_line "public mutating func scale(by k: Int)")
     = (None, None, None)
  /\ extract_lines "Shape.swift"
       [AT17; "public mutating func scale(by k: Int)"] = Ok []
  /\ (exists e,
        extract_lines "Shape.swift"
          [AT17; "mutating public func scale(by k: Int)"] = Ok [e]
        /\ name e = "scale" /\ kind e = "func").
Proof.
  repeat split; simpl; auto.
  eexists. split; [vm_compute; reflexivity|]. split; reflexivity.
Qed.

(** X18. [normalize_line] removes, from the front of the trimmed line,
    first the attribute tokens and then the words of [leading_modifiers]
    (nonisolated, inlinable, convenience, mutating, consuming, borrowing,
    isolated, rethrows), until the first word is none of them. A
    declaration behind any sequence of attribute tokens followed by any
    sequence of these modifiers is normalised, and classified, as the
    declaration alone; a text that starts with none of them is returned as
    it is. *)
Theorem leading_modifiers_stripped (ats ms : list string) (decl : string)
  (Hats : Forall (fun a => is_attribute a = true) ats)
  (Hms : Forall (fun m => In m leading_modifiers) ms)
  (Hdecl : Py.strip decl = decl)
  (Hne : Py.truthy decl = true)
  (Hat : Py.startswith "@" decl = false) :
  normalize_line (Py.join " " (ats ++ ms ++ [decl])) = normalize_line decl
  /\ classify (normalize_line (Py.join " " (ats ++ ms ++ [decl])))
     = classify (normalize_line decl)
  /\ in_set (first_word (normalize_line decl)) leading_modifiers = false
  /\ (in_set (first_word decl) leading_modifiers = false ->
      normalize_line decl = decl).
Proof.
  assert (trimmed decl) as Ht by (split; assumption).
  destruct (normalize_modifiers ms decl Hms Ht Hat) as [[Hm _] Hn].
  destruct (normalize_attributes ats (ms ++ [decl]) Hats) as [_ Ha];
    [now destruct ms | exact Hm |].
  assert (normalize_line (Py.join " " (ats ++ ms ++ [decl]))
          = normalize_line decl) as E by (now rewrite Ha).
  split; [exact E|]. split; [now rewrite E|].
  rewrite (normalize_line_trimmed _ Hdecl). split.
  - apply drop_modifiers_stops. lia.
  - intros Hfirst. rewrite !drop_attributes_id by assumption.
    now apply drop_modifiers_id.
Qed.

Lemma leading_modifiers_stripped_witness :
  classify
    (normalize_line
       (Py.join " "
          (["@discardableResult"; "@inlinable"]
           ++ ["nonisolated"; "mutating"]
           ++ ["public static func scale(by k: Int) -> Self"])))
  = (None, Some "func", Some "scale").
Proof.
  assert (Forall (fun a => is_attribute a = true)
            ["@discardableResult"; "@inlinable"]) as Hats
      by (repeat constructor).
  assert (Forall (fun m => In m leading_modifiers)
            ["nonisolated"; "mutating"]) as Hms
      by (repeat constructor; simpl; auto 10).
  destruct (leading_modifiers_stripped
              ["@discardableResult"; "@inlinable"]
              ["nonisolated"; "mutating"]
              "public static func scale(by k: Int) -> Self"
              Hats Hms eq_refl eq_refl eq_refl)
    as (_ & H & _).
  rewrite H. reflexivity.
Defined.

(** * Further properties of the extractor *)

(** ** Elements of a scan *)

Lemma digit_value_nonneg (c : ascii) :
  Py.isdigit c = true -> 0 <= Py.digit_value c <= 9.
Proof.
  destruct c as [[] [] [] [] [] [] [] []]; simpl; try discriminate;
    intros _; unfold Py.digit_value; simpl; lia.
Qed.

Lemma digits_value_nonneg (s : string) :
  forall acc,
    0 <= acc -> all_chars Py.isdigit s = true ->
    0 <= Py.digits_value acc s.
Proof.
  induction s as [|c s IH]; intros acc Hacc; simpl; [auto|].
  intros [Hc Hs]%andb_prop. apply IH; [|exact Hs].
  pose proof (digit_value_nonneg c Hc). lia.
Qed.

(** The value of a string of digits is below the power of ten of its
    length. *)
Lemma digits_value_bound (s : string) :
  forall acc,
    0 <= acc -> all_chars Py.isdigit s = true ->
    Py.digits_value acc s < (acc + 1) * 10 ^ Z.of_nat (String.length s).
Proof.
  induction s as [|c s IH]; intros acc Hacc; simpl String.length;
    cbn [Py.digits_value all_chars].
  - intros _. simpl. lia.
  - intros [Hc Hs]%andb_prop.
    pose proof (digit_value_nonneg c Hc) as Hd.
    assert (0 <= 10 * acc + Py.digit_value c) as Hacc' by lia.
    pose proof (IH _ Hacc' Hs) as H.
    rewrite Nat2Z.inj_succ, Z.pow_succ_r by lia.
    assert (0 < 10 ^ Z.of_nat (String.length s)) by (apply Z.pow_pos_nonneg; lia).
    nia.
Qed.

Lemma bounded_zero : bounded 0.
Proof. split; [lia | now apply Z.pow_pos_nonneg]. Qed.

(** What [int] reads within its limit, [str] can write. *)
Lemma is_number_bounded (s : string) :
  is_number s = true -> short s = true -> bounded (Py.digits_value 0 s).
Proof.
  intros [_ Hd]%andb_prop Hs. unfold short in Hs. apply Z.leb_le in Hs.
  split; [apply digits_value_nonneg; [lia | exact Hd]|].
  pose proof (digits_value_bound s 0 (Z.le_refl 0) Hd) as H.
  eapply Z.lt_le_trans; [exact H|].
  rewrite Z.mul_1_l. apply Z.pow_le_mono_r; lia.
Qed.

Lemma version_text_bounded (g : string) (v : version) :
  version_text g -> version_to_tuple g = Ok v ->
  bounded (fst v) /\ bounded (snd v).
Proof.
  intros [H | (a & b & Ha & Hb & ->)].
  - rewrite (version_to_tuple_major g H).
    destruct (short g) eqn:Hs; [|discriminate]. intros [= <-]. simpl.
    split; [now apply is_number_bounded | apply bounded_zero].
  - rewrite (version_to_tuple_major_minor a b Ha Hb).
    destruct (short a) eqn:Hsa; [|discriminate].
    destruct (short b) eqn:Hsb; [|discriminate].
    intros [= <-]. simpl. split; now apply is_number_bounded.
Qed.

Lemma lstrip_idem (s : string) : Py.lstrip (Py.lstrip s) = Py.lstrip s.
Proof.
  induction s as [|c s IH]; simpl; [reflexivity|].
  destruct (Py.isspace c) eqn:Hc; [exact IH|]. simpl. now rewrite Hc.
Qed.

Lemma rstrip_idem (s : string) : Py.rstrip (Py.rstrip s) = Py.rstrip s.
Proof.
  induction s as [|c s IH]; simpl; [reflexivity|].
  destruct (Py.rstrip s) as [|d r] eqn:E.
  - destruct (Py.isspace c) eqn:Hc; simpl; [reflexivity | now rewrite Hc].
  - change (Py.rstrip (String c (String d r)))
      with (match Py.rstrip (String d r) with
            | "" => if Py.isspace c then "" else String c ""
            | r' => String c r'
            end).
    now rewrite IH.
Qed.

Lemma lstrip_first (c : ascii) (s : string) :
  Py.lstrip (String c s) = String c s -> Py.isspace c = false.
Proof.
  simpl. destruct (Py.isspace c); [|reflexivity].
  intros H. pose proof (lstrip_length s) as L. rewrite H in L.
  simpl in L. lia.
Qed.

Lemma lstrip_rstrip (s : string) :
  Py.lstrip s = s -> Py.lstrip (Py.rstrip s) = Py.rstrip s.
Proof.
  destruct s as [|c s]; [reflexivity|].
  intros Hc%lstrip_first. simpl.
  destruct (Py.rstrip s); rewrite ?Hc; simpl; now rewrite Hc.
Qed.

(** [strip] is idempotent. *)
Lemma strip_idem (s : string) : Py.strip (Py.strip s) = Py.strip s.
Proof.
  unfold Py.strip.
  rewrite (lstrip_rstrip (Py.lstrip s) (lstrip_idem s)).
  apply rstrip_idem.
Qed.

Lemma availability_step_natural (acc : availability) (l : string)
  (acc' : availability) :
  natural_version (fst (fst acc)) ->
  availability_step acc l = Ok acc' ->
  natural_version (fst (fst acc')).
Proof.
  destruct acc as [[i d] u]. intros Hi. unfold availability_step.
  destruct (negb (Py.contains "iOS" (Py.strip l))); [now intros [= <-]|].
  destruct (Re.search direct_re (Py.strip l)) as [g|] eqn:Hd.
  { destruct (version_to_tuple g) as [[a b]|] eqn:Hv; [|discriminate].
    intros [= <-].
    apply (version_text_bounded g (a, b) (direct_re_text _ _ Hd) Hv). }
  destruct (Re.search introduced_re (Py.strip l)) as [g|] eqn:Hk.
  { destruct (version_to_tuple g) as [[a b]|] eqn:Hv; [|discriminate].
    intros [= <-].
    apply (version_text_bounded g (a, b) (introduced_re_text _ _ Hk) Hv). }
  now intros [= <-].
Qed.

Lemma parse_natural (ls : list string) (i : option version) (d u : bool) :
  parse_ios_availability ls = Ok (i, d, u) -> natural_version i.
Proof.
  intros H.
  apply (for_each_invariant availability_step
           (fun acc => natural_version (fst (fst acc)))
           availability_step_natural ls (None, false, false) (i, d, u));
    [exact I | exact H].
Qed.

Lemma for_each_invariant_In {S X : Type} (body : S -> X -> result S)
  (P : S -> Prop) (xs : list X) :
  (forall st x st', In x xs -> P st -> body st x = Ok st' -> P st') ->
  forall st st', P st -> for_each body xs st = Ok st' -> P st'.
Proof.
  induction xs as [|x xs IH]; intros Hbody st st' HP; simpl.
  - intros [= <-]. exact HP.
  - intros (st1 & H1 & H2)%bind_ok.
    apply (IH (fun s y s' Hy => Hbody s y s' (or_intror Hy)) st1 st');
      [|exact H2].
    apply (Hbody st x st1); [now left | exact HP | exact H1].
Qed.

Lemma from_input_strip (lines avail : list string) :
  Forall (from_input lines) avail ->
  Forall (from_input lines) (map Py.strip avail).
Proof.
  induction 1 as [|a avail (l & Hin & Hav & ->) _ IH]; simpl;
    constructor; [|exact IH].
  exists l. now rewrite strip_idem.
Qed.

Lemma classify_kind (normalized : string) (tm : option (string * string))
  (k n : string) :
  classify normalized = (tm, Some k, Some n) -> In k element_kinds.
Proof.
  destruct (classify_cases normalized)
    as [(kw & nm & -> & Hk & _)
       |[(k' & nm & -> & Hin & _) | ->]]; intros [= <- <- <-].
  - apply in_set_In in Hk. unfold type_keywords in Hk.
    unfold element_kinds. simpl in *. tauto.
  - unfold element_kinds. simpl in *. tauto.
Qed.

Lemma scan_line_invariant (swift_file : string) (lines : list string)
  (st : scan) (line : string) (st' : scan) :
  In line lines ->
  scan_invariant swift_file lines st ->
  scan_line swift_file st line = Ok st' ->
  scan_invariant swift_file lines st'.
Proof.
  intros Hin [Hel Hav].
  destruct (Py.startswith "///" (Py.strip line)) eqn:Hdoc.
  { unfold scan_line. rewrite Hdoc. intros [= <-]. now split. }
  destruct (Py.startswith "@available" (Py.strip line)) eqn:Ha.
  { rewrite (scan_line_avail swift_file st line Ha). intros [= <-].
    split; [exact Hel|]. cbn [avail_lines].
    apply Forall_app. split; [exact Hav|].
    constructor; [|constructor]. now exists line. }
  assert (candidate line) as Hcand by (split; assumption).
  assert (forall tm k n,
            classify (normalize_line (Py.strip line)) = (tm, Some k, Some n) ->
            scan_line swift_file st line = Ok st' ->
            scan_invariant swift_file lines st') as Hmatched.
  { intros tm k n Hc Hs.
    apply (scan_line_matched_inv swift_file st line _ _ _ st' Hcand Hc) in Hs
      as ([[i d] u] & Hp & ->).
    destruct (eligible (i, d, u)) eqn:He;
      unfold track_braces, scan_invariant; cbn [elements avail_lines];
      (split; [|constructor]); [|exact Hel].
    apply Forall_app. split; [exact Hel|]. constructor; [|constructor].
    apply eligible_iff in He as ((v & -> & Hv) & -> & ->).
    destruct v as [a b]. pose proof (parse_natural _ _ _ _ Hp) as [Hn1 Hn2].
    destruct (classify_truthy _ _ _ _ Hc) as [_ Hname].
    unfold emitted_from, element_of. cbn.
    repeat split; auto.
    - exists a, b. auto.
    - eapply classify_kind, Hc.
    - exists line, tm, (map Py.strip (avail_lines st)).
      repeat split; auto. now apply from_input_strip. }
  destruct (classify_cases (normalize_line (Py.strip line)))
    as [(kw & nm & Hc & _)|[(k & nm & Hc & _) | Hc]]; eauto.
  rewrite (scan_line_unmatched swift_file st line _ Hcand Hc).
  cbv zeta. intros [= <-].
  destruct (Py.startswith "@" (Py.strip line)); [now split|].
  destruct (Py.truthy (Py.strip line)
            && negb (Py.startswith "//" (Py.strip line)));
    split; cbn; auto.
Qed.

(** The elements of a scan that returns satisfy the invariant. *)
Lemma extract_lines_emitted (swift_file : string) (lines : list string)
  (es : list ApiElement) :
  extract_lines swift_file lines = Ok es ->
  Forall (emitted_from swift_file lines) es.
Proof.
  unfold extract_lines. intros (st & Hs & [= <-])%bind_ok.
  apply (for_each_invariant_In (scan_line swift_file)
           (scan_invariant swift_file lines) lines
           (fun s x s' Hx => scan_line_invariant swift_file lines s x s' Hx)
           scan_init st); [|exact Hs].
  split; constructor.
Qed.

(** X1. Every element that a scan returns passed the eligibility test:
    it carries a version of natural numbers, each within what [str] can
    write, at or above (17, 0) and no flag; its name is not empty, its kind
    is one of the seven, its source file is the file scanned, and its name,
    kind and signature come from one declaration line of the input, the
    signature after availability lines of the input. The scan returns when
    no line is longer than the limit of [int]. *)
Theorem emitted_elements_well_formed (swift_file : string)
  (lines : list string) :
  (forall es,
     extract_lines swift_file lines = Ok es ->
     Forall (emitted_from swift_file lines) es)
  /\ (Forall (fun l => short l = true) lines ->
      exists es,
        extract_lines swift_file lines = Ok es
        /\ Forall (emitted_from swift_file lines) es).
Proof.
  split; [apply extract_lines_emitted|].
  intros Hl. destruct (extract_lines_total swift_file lines Hl) as [es Hes].
  exists es. split; [exact Hes | now apply extract_lines_emitted].
Qed.

Lemma emitted_elements_well_formed_witness :
  exists es,
    extract_lines "Foo.swift" [AT17; "public struct Foo {"; "}"] = Ok es
    /\ Forall (emitted_from "Foo.swift" [AT17; "public struct Foo {"; "}"]) es.
Proof.
  apply (proj2 (emitted_elements_well_formed "Foo.swift"
                  [AT17; "public struct Foo {"; "}"])).
  repeat constructor.
Defined.

Lemma scan_line_count (swift_file : string) (st : scan) (line : string)
  (st' : scan) :
  scan_line swift_file st line = Ok st' ->
  (length (elements st')
   <= length (elements st) + (if is_context line then 0 else 1))%nat.
Proof.
  unfold is_context.
  destruct (Py.startswith "///" (Py.strip line)) eqn:Hdoc.
  { unfold scan_line. rewrite Hdoc. intros [= <-]. simpl. lia. }
  destruct (Py.startswith "@available" (Py.strip line)) eqn:Ha.
  { rewrite (scan_line_avail swift_file st line Ha). intros [= <-].
    simpl. lia. }
  intros Hs. simpl.
  destruct (scan_line_appends swift_file st line st' Hs)
    as [-> | (e & -> & _)]; [lia|].
  rewrite length_app. simpl. lia.
Qed.

Lemma scan_lines_count (swift_file : string) (lines : list string) :
  forall st st',
    scan_lines swift_file lines st = Ok st' ->
    (length (elements st')
     <= length (elements st)
        + length (List.filter (fun l => negb (is_context l)) lines))%nat.
Proof.
  induction lines as [|l lines IH]; intros st st'.
  - intros [= <-]. simpl. lia.
  - rewrite scan_lines_cons. intros (st1 & H1 & H2)%bind_ok.
    apply scan_line_count in H1. apply IH in H2.
    cbn [List.filter]. destruct (is_context l); simpl in *; lia.
Qed.

(** X2. A scan returns at most one element for each line that is neither
    a documentation line nor an availability line. *)
Theorem at_most_one_element_per_line (swift_file : string)
  (lines : list string) (es : list ApiElement)
  (Hscan : extract_lines swift_file lines = Ok es) :
  (length es
   <= length (List.filter (fun l => negb (is_context l)) lines))%nat.
Proof.
  unfold extract_lines in Hscan.
  apply bind_ok in Hscan as (st & Hs & [= <-]).
  apply scan_lines_count in Hs. simpl in Hs. exact Hs.
Qed.

Lemma at_most_one_element_per_line_witness :
  (length [mkApiElement "Foo" "struct"
             ("@available(iOS 17.0, *)" +:+ NL +:+ "public struct Foo {")
             "" (Some (17%Z, 0%Z)) false false "Foo.swift" None]
   <= length (List.filter (fun l => negb (is_context l))
                [AT17; "public struct Foo {"; "}"]))%nat.
Proof.
  apply (at_most_one_element_per_line "Foo.swift"
           [AT17; "public struct Foo {"; "}"]).
  reflexivity.
Defined.

(** ** Missing or excluding availability *)

Lemma silent_strip (l : string) : silent l -> silent (Py.strip l).
Proof. unfold silent, mentions_ios. now rewrite !strip_idem. Qed.

Lemma eligible_none (d u : bool) : eligible (None, d, u) = false.
Proof. reflexivity. Qed.

(** X3. When no availability line of the input sets a version for iOS
    (none names iOS, or none carries a version pattern; in particular when
    there is no availability line at all), the scan returns no element. *)
Theorem no_ios_version_no_elements (swift_file : string)
  (lines : list string)
  (Hsilent : forall l, In l lines -> is_avail l -> silent l) :
  extract_lines swift_file lines = Ok [].
Proof.
  unfold extract_lines.
  destruct (for_each_progress (scan_line swift_file)
              (fun s => elements s = [] /\ Forall silent (avail_lines s))
              lines) with (st := scan_init) as (st & Hs & Hel & _);
    [|split; constructor|].
  2: { unfold scan_lines. rewrite Hs. cbn [bind]. now rewrite Hel. }
  intros st line Hin [Hel Hav].
  destruct (Py.startswith "///" (Py.strip line)) eqn:Hdoc.
  { unfold scan_line. rewrite Hdoc. eexists. split; [reflexivity|].
    now split. }
  destruct (Py.startswith "@available" (Py.strip line)) eqn:Ha.
  { rewrite (scan_line_avail swift_file st line Ha).
    eexists. split; [reflexivity|].
    split; [exact Hel|]. cbn [avail_lines].
    apply Forall_app. split; [exact Hav|].
    constructor; [|constructor]. apply silent_strip, Hsilent; assumption. }
  assert (candidate line) as Hcand by (split; assumption).
  assert (forall tm k n,
            classify (normalize_line (Py.strip line)) = (tm, Some k, Some n) ->
            exists st',
              scan_line swift_file st line = Ok st'
              /\ elements st' = [] /\ Forall silent (avail_lines st'))
    as Hmatched.
  { intros tm k n Hc.
    destruct (parse_silent (avail_lines st) Hav None false false)
      as (d & u & Hp).
    rewrite (scan_line_matched_ok swift_file st line _ _ _ (None, d, u)
               Hcand Hc Hp).
    eexists. split; [reflexivity|].
    rewrite eligible_none. unfold track_braces. cbn [elements avail_lines].
    split; [exact Hel | constructor]. }
  destruct (classify_cases (normalize_line (Py.strip line)))
    as [(kw & nm & Hc & _)|[(k & nm & Hc & _) | Hc]]; eauto.
  rewrite (scan_line_unmatched swift_file st line _ Hcand Hc).
  eexists. split; [reflexivity|]. cbv zeta.
  destruct (Py.startswith "@" (Py.strip line)); [now split|].
  destruct (Py.truthy (Py.strip line)
            && negb (Py.startswith "//" (Py.strip line)));
    split; cbn; auto.
Qed.

Lemma no_ios_version_no_elements_witness :
  extract_lines "Mac.swift"
    ["/// Only on the desktop."; "@available(macOS 14.0, *)";
     "public struct Panel {"; "}"; "public func open()"] = Ok [].
Proof.
  apply no_ios_version_no_elements.
  intros l [<-|[<-|[<-|[<-|[<-|[]]]]]] Hav; try discriminate Hav.
  left. reflexivity.
Defined.

(** X4. A declaration whose availability buffer has a line that names iOS
    together with "deprecated", "obsoleted" or "unavailable" is not
    emitted, whatever version the buffer gives; the buffers are emptied
    all the same. The line returns when no buffered line is longer than the
    limit of [int]. *)
Theorem flagged_declaration_dropped (swift_file : string) (st : scan)
  (line : string) (tm : option (string * string)) (k n : string)
  (Hcand : candidate line)
  (Hmatch : classify (normalize_line (Py.strip line)) = (tm, Some k, Some n))
  (Hflag : existsb marks_deprecated (avail_lines st)
           || existsb marks_unavailable (avail_lines st) = true) :
  (forall st',
     scan_line swift_file st line = Ok st' ->
     elements st' = elements st
     /\ doc_lines st' = [] /\ avail_lines st' = [])
  /\ (Forall (fun l => short l = true) (avail_lines st) ->
      exists st',
        scan_line swift_file st line = Ok st'
        /\ elements st' = elements st
        /\ doc_lines st' = [] /\ avail_lines st' = []).
Proof.
  assert (forall st',
            scan_line swift_file st line = Ok st' ->
            elements st' = elements st
            /\ doc_lines st' = [] /\ avail_lines st' = []) as H.
  { intros st' Hs.
    apply (scan_line_matched_inv swift_file st line tm k n st' Hcand Hmatch)
      in Hs as (a & Hp & ->).
    unfold parse_ios_availability in Hp.
    apply parse_flags in Hp as [i ->].
    assert (eligible
              (i, existsb marks_deprecated (avail_lines st) || false,
               existsb marks_unavailable (avail_lines st) || false) = false)
      as ->.
    { unfold eligible. rewrite !orb_false_r.
      destruct (existsb marks_deprecated (avail_lines st)),
        (existsb marks_unavailable (avail_lines st));
        try discriminate Hflag; cbn; now rewrite ?andb_false_r. }
    repeat split. }
  split; [exact H|].
  intros Hs. destruct (scan_line_total swift_file st line Hs) as [st' Hst].
  exists st'. split; [exact Hst | now apply H].
Qed.

Lemma flagged_declaration_dropped_witness :
  exists st',
    scan_line "Old.swift"
      (mkScan [] ["/// Old."]
         ["@available(iOS, introduced: 17.0, deprecated: 18.0)"] [] 0)
      "public func legacy()" = Ok st'
    /\ elements st' = []
    /\ doc_lines st' = [] /\ avail_lines st' = [].
Proof.
  apply (proj2 (flagged_declaration_dropped "Old.swift"
                  (mkScan [] ["/// Old."]
                     ["@available(iOS, introduced: 17.0, deprecated: 18.0)"]
                     [] 0)
                  "public func legacy()" None "func" "legacy"
                  (conj eq_refl eq_refl) eq_refl eq_refl)).
  repeat constructor.
Defined.

(** ** Failures of the batch *)







(** ** Context of a declaration *)

Lemma map_strip_idem (l : list string) :
  map Py.strip (map Py.strip l) = map Py.strip l.
Proof.
  induction l as [|x l IH]; simpl; [reflexivity|].
  now rewrite strip_idem, IH.
Qed.

(** Documentation and availability lines, in any order, fill the two
    buffers in their order of appearance. *)
Lemma scan_lines_context (swift_file : string) (ctx : list string) :
  Forall (fun l => is_context l = true) ctx ->
  forall st,
    scan_lines swift_file ctx st
    = Ok (mkScan (elements st)
            (doc_lines st ++ map Py.strip (List.filter is_doc ctx))
            (avail_lines st ++ map Py.strip (List.filter is_avail_line ctx))
            (type_stack st) (brace_depth st)).
Proof.
  induction 1 as [|l ctx Hl Hctx IH]; intros st.
  - simpl. rewrite !app_nil_r. now destruct st.
  - rewrite scan_lines_cons. cbn [List.filter].
    destruct (is_doc l) eqn:Hdoc.
    + assert (is_avail_line l = false) as ->
          by (unfold is_avail_line; now rewrite Hdoc).
      unfold is_doc in Hdoc. unfold scan_line. rewrite Hdoc. cbn [bind].
      rewrite IH.
      cbn [elements doc_lines avail_lines type_stack brace_depth map].
      now rewrite <- app_assoc.
    + assert (Py.startswith "@available" (Py.strip l) = true) as Hav.
      { unfold is_context in Hl. unfold is_doc in Hdoc.
        now rewrite Hdoc in Hl. }
      assert (is_avail_line l = true) as ->
          by (unfold is_avail_line; now rewrite Hdoc, Hav).
      rewrite (scan_line_avail swift_file st l Hav). cbn [bind].
      rewrite IH.
      cbn [elements doc_lines avail_lines type_stack brace_depth map].
      now rewrite <- app_assoc.
Qed.

(** X6. The documentation and the availability lines that precede a
    declaration may come in any order: the element's documentation is made
    of the documentation lines and its signature of the availability lines
    followed by the declaration line, each in their order of appearance,
    and the availability lines alone decide whether it is emitted. *)
Theorem context_lines_interleave (swift_file : string) (ctx : list string)
  (decl : string) (tm : option (string * string)) (k n : string)
  (v : availability)
  (Hctx : Forall (fun l => is_context l = true) ctx)
  (Hcand : candidate decl)
  (Hmatch : classify (normalize_line (Py.strip decl)) = (tm, Some k, Some n))
  (Hv : parse_ios_availability
          (map Py.strip (List.filter is_avail_line ctx)) = Ok v)
  (He : eligible v = true) :
  exists e,
    extract_lines swift_file (ctx ++ [decl]) = Ok [e]
    /\ name e = n /\ kind e = k /\ parent_type e = None
    /\ ios_introduced e = fst (fst v)
    /\ doc e = clean_doc_lines (map Py.strip (List.filter is_doc ctx))
    /\ signature e
       = Py.join NL (map Py.strip (List.filter is_avail_line ctx)
                     ++ [Py.strip decl]).
Proof.
  unfold extract_lines. rewrite scan_lines_app.
  rewrite (scan_lines_context swift_file ctx Hctx). unfold scan_init.
  cbn [bind elements doc_lines avail_lines type_stack brace_depth app].
  rewrite scan_lines_cons.
  rewrite (scan_line_matched_ok swift_file
             (mkScan [] (map Py.strip (List.filter is_doc ctx))
                (map Py.strip (List.filter is_avail_line ctx)) [] 0)
             decl tm k n v Hcand Hmatch Hv).
  rewrite He. cbn [bind]. rewrite scan_lines_nil. cbn [bind].
  unfold track_braces. cbn [elements app].
  eexists. split; [reflexivity|].
  destruct v as [[i d] u]. cbn. rewrite map_strip_idem. repeat split.
Qed.

Lemma context_lines_interleave_witness :
  exists e,
    extract_lines "Foo.swift"
      (["@available(iOS 17.0, *)"; "/// First."; "@available(macOS 14.0, *)";
        "/// Second."] ++ ["public func run()"]) = Ok [e]
    /\ name e = "run" /\ kind e = "func" /\ parent_type e = None
    /\ ios_introduced e = Some (17, 0)
    /\ doc e = clean_doc_lines ["/// First."; "/// Second."]
    /\ signature e
       = Py.join NL (["@available(iOS 17.0, *)"; "@available(macOS 14.0, *)"]
                     ++ ["public func run()"]).
Proof.
  apply (context_lines_interleave "Foo.swift"
           ["@available(iOS 17.0, *)"; "/// First.";
            "@available(macOS 14.0, *)"; "/// Second."]
           "public func run()" None "func" "run"
           (Some (17, 0), false, false)).
  - repeat constructor.
  - split; reflexivity.
  - reflexivity.
  - reflexivity.
  - reflexivity.
Defined.

Lemma first_word_cons (c : ascii) (s : string) :
  Ascii.eqb c " " = false -> exists w, first_word (String c s) = String c w.
Proof.
  intros Hc. unfold first_word. simpl. rewrite Hc.
  destruct (Py.split_once " " s) as [|h [|h' t]]; simpl; eauto.
Qed.

(** A plain comment is left alone by [normalize_line] and matches no
    declaration pattern. *)
Lemma comment_unmatched (r : string) :
  Py.strip (String "/" r) = String "/" r ->
  classify (normalize_line (String "/" r)) = (None, None, None).
Proof.
  intros Hs. rewrite (normalize_line_trimmed _ Hs).
  rewrite !drop_attributes_id by reflexivity.
  rewrite drop_modifiers_id; [reflexivity|].
  destruct (first_word_cons "/" r eq_refl) as [w ->]. reflexivity.
Qed.

(** X7. A blank line and a plain comment line (starting with two slashes,
    not three) change neither the elements nor the two buffers: what was
    gathered for the next declaration stays attached across them. *)
Theorem blank_and_comment_lines_keep_context (swift_file : string)
  (st : scan) (line : string)
  (Hline : Py.strip line = ""
           \/ (Py.startswith "//" (Py.strip line) = true
               /\ Py.startswith "///" (Py.strip line) = false)) :
  exists st',
    scan_line swift_file st line = Ok st'
    /\ elements st' = elements st
    /\ doc_lines st' = doc_lines st
    /\ avail_lines st' = avail_lines st.
Proof.
  assert (candidate line
          /\ classify (normalize_line (Py.strip line)) = (None, None, None)
          /\ (Py.startswith "@" (Py.strip line) = true
              \/ Py.truthy (Py.strip line)
                 && negb (Py.startswith "//" (Py.strip line)) = false))
    as (Hcand & Hc & Hkeep).
  { unfold candidate. destruct Hline as [E | [Hc Hd]].
    - rewrite !E.
      split; [split; reflexivity|]. split; [reflexivity | now right].
    - pose proof (strip_idem line) as Hs.
      destruct (Py.strip line) as [|a s1]; [discriminate Hc|].
      rewrite startswith_cons in Hc. apply andb_prop in Hc as [Ha Hc].
      destruct s1 as [|b r]; [discriminate Hc|].
      rewrite startswith_cons in Hc. apply andb_prop in Hc as [Hb _].
      apply Ascii.eqb_eq in Ha as <-. apply Ascii.eqb_eq in Hb as <-.
      split; [split; [exact Hd | reflexivity]|].
      split; [now apply comment_unmatched | right; reflexivity]. }
  rewrite (scan_line_unmatched swift_file st line None Hcand Hc).
  cbv zeta. unfold track_braces.
  destruct Hkeep as [-> | Hk].
  - eexists. split; [reflexivity|]. repeat split.
  - rewrite Hk.
    destruct (Py.startswith "@" (Py.strip line));
      (eexists; split; [reflexivity|]; repeat split).
Qed.

Lemma blank_and_comment_lines_keep_context_witness :
  exists st',
    scan_line "Foo.swift" (mkScan [] ["/// Doc."] [AT17] [] 0)
      "    // MARK: - Actions" = Ok st'
    /\ elements st' = []
    /\ doc_lines st' = ["/// Doc."]
    /\ avail_lines st' = [AT17].
Proof.
  apply (blank_and_comment_lines_keep_context "Foo.swift"
           (mkScan [] ["/// Doc."] [AT17] [] 0) "    // MARK: - Actions").
  right. split; reflexivity.
Defined.

(** X8. A type declaration with an opening brace on its line is the
    parent of the declaration that follows it, also when the same line
    closes the brace again: the type is pushed at the depth reached at the
    end of its line and is only popped below that depth. *)
Theorem one_line_type_stays_parent (swift_file : string)
  (a0 a1 : list string) (t f1 : string) (kw T k1 F1 : string)
  (tm1 : option (string * string)) (v0 v1 : availability)
  (Ha0 : Forall is_avail a0) (Ha1 : Forall is_avail a1)
  (Hv0 : parse_ios_availability (map Py.strip a0) = Ok v0)
  (Hv1 : parse_ios_availability (map Py.strip a1) = Ok v1)
  (He0 : eligible v0 = true) (He1 : eligible v1 = true)
  (Ht : candidate t)
  (Ht_type : classify (normalize_line (Py.strip t))
             = (Some (kw, T), Some kw, Some T))
  (Ht_open : 0 < Py.count "{" t)
  (Hf1 : candidate f1)
  (Hf1_decl : classify (normalize_line (Py.strip f1))
              = (tm1, Some k1, Some F1)) :
  exists e0 e1,
    extract_lines swift_file (a0 ++ [t] ++ a1 ++ [f1]) = Ok [e0; e1]
    /\ name e0 = T /\ parent_type e0 = None
    /\ name e1 = F1 /\ kind e1 = k1 /\ parent_type e1 = Some T.
Proof.
  unfold extract_lines.
  replace (a0 ++ [t] ++ a1 ++ [f1]) with ((a0 ++ [t]) ++ (a1 ++ [f1]))
    by (now rewrite <- !app_assoc).
  rewrite scan_lines_app. unfold scan_init.
  rewrite (scan_lines_declaration swift_file a0 t _ kw T v0 [] [] 0
             Ha0 Ht Ht_type Hv0 He0).
  unfold track_braces at 1. cbn [bind elements doc_lines avail_lines
                                  type_stack brace_depth].
  apply Z.ltb_lt in Ht_open. rewrite Ht_open.
  rewrite pop_exited_keep by lia.
  rewrite (scan_lines_declaration swift_file a1 f1 _ k1 F1 v1 _ _ _
             Ha1 Hf1 Hf1_decl Hv1 He1).
  cbn [bind]. unfold track_braces. cbn [elements].
  destruct v0 as [[i0 d0] u0], v1 as [[i1 d1] u1].
  do 2 eexists. split; [reflexivity|]. cbn. repeat split.
Qed.

Lemma one_line_type_stays_parent_witness :
  exists e0 e1,
    extract_lines "Empty.swift"
      ([AT17] ++ ["public struct Empty {}"] ++ [AT17]
       ++ ["public func topLevel()"]) = Ok [e0; e1]
    /\ name e0 = "Empty" /\ parent_type e0 = None
    /\ name e1 = "topLevel" /\ kind e1 = "func"
    /\ parent_type e1 = Some "Empty".
Proof.
  apply (one_line_type_stays_parent "Empty.swift" [AT17] [AT17]
           "public struct Empty {}" "public func topLevel()"
           "struct" "Empty" "func" "topLevel" None
           (Some (17, 0), false, false) (Some (17, 0), false, false));
    try (repeat constructor; fail);
    try reflexivity; try (split; reflexivity).
Defined.

(** ** What normalisation keeps *)

Lemma rstrip_suffix (a b : string) :
  Py.rstrip (a +:+ b) = a +:+ b -> Py.rstrip b = b.
Proof.
  induction a as [|c a IH]; [auto|].
  rewrite string_app_cons. simpl.
  destruct (Py.rstrip (a +:+ b)) as [|d r] eqn:E.
  - destruct (Py.isspace c); [discriminate|].
    intros [= H]. apply IH. now rewrite <- H.
  - intros [= H]. apply IH. now rewrite <- H.
Qed.

(** The [strip] of the end of a text that has no white space at its end
    is again an end of that text. *)
Lemma strip_of_suffix (s a t : string) :
  Py.rstrip s = s -> s = a +:+ t ->
  exists pre, s = pre +:+ Py.strip t /\ Py.rstrip (Py.strip t) = Py.strip t.
Proof.
  intros Hs ->. destruct (lstrip_app t) as (ws & _ & Ht).
  assert (Py.rstrip (Py.lstrip t) = Py.lstrip t) as Hr.
  { apply (rstrip_suffix (a +:+ ws)).
    rewrite string_app_assoc, <- Ht. exact Hs. }
  exists (a +:+ ws). unfold Py.strip. rewrite Hr.
  split; [|now rewrite Hr]. now rewrite string_app_assoc, <- Ht.
Qed.

Lemma drop_attributes_suffix (n : nat) :
  forall s,
    Py.rstrip s = s ->
    exists pre, s = pre +:+ drop_attributes n s.
Proof.
  induction n as [|n IH]; intros s Hs; [now exists ""|].
  cbn [drop_attributes].
  destruct (Py.startswith "@" s && Py.contains " " s); [|now exists ""].
  assert (exists a, s = a +:+ nth 1 (Py.split_once " " s) "") as [a Ha].
  { destruct (split_once_cases " " s) as [-> | (a & b & -> & E)].
    - exists s. simpl. now rewrite string_app_nil_r.
    - exists (a +:+ " "). simpl. now rewrite string_app_assoc. }
  destruct (strip_of_suffix s a _ Hs Ha) as (pre & Hpre & Hr).
  destruct (IH _ Hr) as [pre' Hpre'].
  exists (pre +:+ pre'). now rewrite string_app_assoc, <- Hpre', <- Hpre.
Qed.

Lemma drop_modifiers_suffix (n : nat) :
  forall s, exists pre, s = pre +:+ drop_modifiers n s.
Proof.
  induction n as [|n IH]; intros s; [now exists ""|].
  cbn [drop_modifiers].
  destruct (split_once_cases " " s) as [-> | (a & b & -> & E)].
  - destruct (in_set s leading_modifiers); [|now exists ""].
    destruct (IH "") as [pre Hpre]. exists s.
    destruct n; simpl; now rewrite string_app_nil_r.
  - destruct (in_set a leading_modifiers); [|now exists ""].
    destruct (IH b) as [pre Hpre]. exists (a +:+ " " +:+ pre).
    rewrite !string_app_assoc, <- Hpre. exact E.
Qed.

(** X9. [normalize_line] only removes a leading part of the trimmed
    line: what it returns is the end of the trimmed line, character for
    character. *)
Theorem normalize_line_is_suffix (line : string) :
  exists dropped, Py.strip line = dropped +:+ normalize_line line.
Proof.
  unfold normalize_line.
  destruct (strip_fixed _ (strip_idem line)) as [_ Hr].
  destruct (drop_attributes_suffix (String.length (Py.strip line)) _ Hr)
    as [pre1 H1].
  destruct (drop_modifiers_suffix
              (String.length
                 (drop_attributes (String.length (Py.strip line))
                    (Py.strip line)))
              (drop_attributes (String.length (Py.strip line))
                 (Py.strip line))) as [pre2 H2].
  exists (pre1 +:+ pre2). now rewrite string_app_assoc, <- H2, <- H1.
Qed.

(** ** Documentation *)

Lemma contains_nl3_other (c : ascii) (t : string) :
  Ascii.eqb c "010" = false ->
  Py.contains NL3 (String c t) = Py.contains NL3 t.
Proof.
  intros Hc. rewrite contains_cons. unfold NL3, NL.
  rewrite !string_app_cons, string_app_nil_l, startswith_cons.
  rewrite Ascii.eqb_sym, Hc. reflexivity.
Qed.

Lemma contains_nl3_run (n : nat) (c : ascii) (t : string) :
  Ascii.eqb c "010" = false ->
  Py.contains NL3 (newline_run n +:+ String c t) = Py.contains NL3 t.
Proof.
  intros Hc. pose proof (contains_nl3_other c t Hc) as H.
  assert (Ascii.eqb "010" c = false) as Hc' by (now rewrite Ascii.eqb_sym).
  destruct n as [|[|n]]; unfold newline_run, NL; unfold_app.
  - exact H.
  - rewrite contains_cons, H. unfold NL3, NL. unfold_app.
    rewrite !startswith_cons, Hc'. now rewrite andb_false_r.
  - change (Py.contains NL3 (String "010" (String "010" (String c t)))
            = Py.contains NL3 t).
    rewrite contains_cons, contains_cons, H. unfold NL3, NL. unfold_app.
    rewrite !startswith_cons, Hc'. now rewrite !andb_false_r.
Qed.

Lemma collapse_newlines_no_triple (s : string) :
  forall n, Py.contains NL3 (collapse_newlines n s) = false.
Proof.
  induction s as [|c s IH]; intros n; simpl.
  - destruct n as [|[|n]]; reflexivity.
  - destruct (Ascii.eqb c "010") eqn:Hc; [apply IH|].
    rewrite (contains_nl3_run n c _ Hc). apply IH.
Qed.

(** X10. The documentation text that [clean_doc_lines] returns never has
    three newlines in a row. *)
Theorem clean_doc_lines_no_triple_newline (doc_lines : list string) :
  Py.contains NL3 (clean_doc_lines doc_lines) = false.
Proof. unfold clean_doc_lines. apply collapse_newlines_no_triple. Qed.

(** ** Presentation *)

Lemma digit_char_spec (d : Z) :
  0 <= d < 10 ->
  Py.isdigit (Py.digit_char d) = true
  /\ Py.digit_value (Py.digit_char d) = d.
Proof.
  intros H.
  assert (d = 0 \/ d = 1 \/ d = 2 \/ d = 3 \/ d = 4 \/ d = 5 \/ d = 6
          \/ d = 7 \/ d = 8 \/ d = 9) as Hd by lia.
  repeat (destruct Hd as [-> | Hd]; [split; reflexivity|]).
  subst d. split; reflexivity.
Qed.

Lemma nat_digits_app (fuel : nat) :
  forall n acc,
    Py.nat_digits fuel n acc = Py.nat_digits fuel n "" +:+ acc.
Proof.
  induction fuel as [|fuel IH]; intros n acc; cbn [Py.nat_digits].
  - reflexivity.
  - destruct (n <? 10); [reflexivity|].
    rewrite (IH (n / 10) (String _ acc)), (IH (n / 10) (String _ "")).
    now rewrite string_app_assoc.
Qed.

Lemma digits_value_app (x y : string) :
  forall acc,
    Py.digits_value acc (x +:+ y)
    = Py.digits_value (Py.digits_value acc x) y.
Proof.
  induction x as [|c x IH]; intros acc; [reflexivity|].
  rewrite string_app_cons. simpl. apply IH.
Qed.

Lemma is_number_app (x y : string) :
  is_number x = true -> is_number y = true -> is_number (x +:+ y) = true.
Proof.
  unfold is_number. intros [Hx Hdx]%andb_prop [Hy Hdy]%andb_prop.
  rewrite all_chars_app, Hdx, Hdy.
  destruct x; [discriminate | reflexivity].
Qed.

(** With enough fuel [nat_digits] writes the decimal digits of [n]. *)
Lemma nat_digits_spec (fuel : nat) :
  forall n,
    0 <= n < 10 ^ (Z.of_nat fuel + 1) ->
    is_number (Py.nat_digits fuel n "") = true
    /\ Py.digits_value 0 (Py.nat_digits fuel n "") = n.
Proof.
  assert (forall n, 0 <= n < 10 ->
            is_number (String (Py.digit_char (n mod 10)) "") = true
            /\ Py.digits_value 0 (String (Py.digit_char (n mod 10)) "") = n)
    as Hone.
  { intros n Hn. rewrite Z.mod_small by lia.
    destruct (digit_char_spec n Hn) as [H1 H2].
    unfold is_number. simpl. rewrite H1, H2. split; [reflexivity | lia]. }
  induction fuel as [|fuel IH]; intros n Hn; cbn [Py.nat_digits].
  - apply Hone. simpl in Hn. lia.
  - destruct (n <? 10) eqn:Hlt; [apply Hone; lia|].
    apply Z.ltb_ge in Hlt.
    rewrite nat_digits_app.
    assert (0 <= n / 10 < 10 ^ (Z.of_nat fuel + 1)) as Hdiv.
    { split; [apply Z.div_pos; lia|].
      apply Z.div_lt_upper_bound; [lia|].
      replace (Z.of_nat (S fuel) + 1) with (Z.succ (Z.of_nat fuel + 1))
        in Hn by lia.
      rewrite Z.pow_succ_r in Hn by lia. lia. }
    destruct (IH _ Hdiv) as [Hnum Hval].
    assert (0 <= n mod 10 < 10) as Hmod by (apply Z.mod_pos_bound; lia).
    destruct (digit_char_spec _ Hmod) as [H1 H2].
    split.
    + apply is_number_app; [exact Hnum|].
      unfold is_number. simpl. now rewrite H1.
    + rewrite digits_value_app, Hval. simpl. rewrite H2.
      pose proof (Z.div_mod n 10). lia.
Qed.

(** The digits that [nat_digits] writes for a number below a power of ten
    are at most the exponent. *)
Lemma nat_digits_length (fuel : nat) :
  forall n k,
    0 <= n < 10 ^ k -> 1 <= k ->
    Z.of_nat (String.length (Py.nat_digits fuel n "")) <= k.
Proof.
  induction fuel as [|fuel IH]; intros n k Hn Hk; cbn [Py.nat_digits].
  - simpl. lia.
  - destruct (n <? 10) eqn:Hlt; [simpl; lia|].
    apply Z.ltb_ge in Hlt.
    rewrite nat_digits_app, string_length_app. cbn [String.length].
    assert (2 <= k) as Hk2.
    { destruct (Z.eq_dec k 1) as [-> | Hne]; [|lia].
      rewrite Z.pow_1_r in Hn. lia. }
    assert (0 <= n / 10 < 10 ^ (k - 1)) as Hdiv.
    { split; [apply Z.div_pos; lia|].
      apply Z.div_lt_upper_bound; [lia|].
      rewrite <- Z.pow_succ_r by lia.
      replace (Z.succ (k - 1)) with k by lia. lia. }
    pose proof (IH (n / 10) (k - 1) Hdiv ltac:(lia)). lia.
Qed.

(** The binary logarithm is fuel enough for [nat_digits]. *)
Lemma nat_digits_log2 (n : Z) :
  0 <= n ->
  is_number (Py.nat_digits (Z.to_nat (Z.log2 n)) n "") = true
  /\ Py.digits_value 0 (Py.nat_digits (Z.to_nat (Z.log2 n)) n "") = n.
Proof.
  intros Hn. apply nat_digits_spec. split; [lia|].
  rewrite Z2Nat.id by apply Z.log2_nonneg.
  destruct (Z.eq_dec n 0) as [-> | Hne]; [reflexivity|].
  destruct (Z.log2_spec n) as [_ Hlt]; [lia|].
  eapply Z.lt_le_trans; [exact Hlt|].
  replace (Z.log2 n + 1) with (Z.succ (Z.log2 n)) by lia.
  apply Z.pow_le_mono_l. lia.
Qed.

(** What [str] writes for a natural number is its digits, within the
    limit, and [int] reads them back. *)
Lemma str_int_ok (n : Z) (ds : string) :
  0 <= n -> Py.str_int n = Ok ds ->
  is_number ds = true /\ Py.digits_value 0 ds = n /\ short ds = true.
Proof.
  intros Hn. unfold Py.str_int.
  assert ((n <? 0) = false) as -> by (apply Z.ltb_ge; lia).
  rewrite Z.abs_eq by lia.
  destruct (Z.of_nat (String.length (Py.nat_digits (Z.to_nat (Z.log2 n)) n ""))
            <=? Py.int_max_str_digits) eqn:Hs; [|discriminate].
  intros [= <-].
  destruct (nat_digits_log2 n Hn) as [H1 H2].
  split; [exact H1|]. split; [exact H2 | exact Hs].
Qed.


(** [str] returns on the natural numbers below the limit. *)
Lemma str_int_bounded (n : Z) :
  bounded n -> exists ds, Py.str_int n = Ok ds.
Proof.
  intros [Hn Hlt]. unfold Py.str_int.
  assert ((n <? 0) = false) as -> by (apply Z.ltb_ge; lia).
  rewrite Z.abs_eq by lia.
  assert (1 <= Py.int_max_str_digits) as Hk by (now compute).
  pose proof (nat_digits_length (Z.to_nat (Z.log2 n)) n
                Py.int_max_str_digits (conj Hn Hlt) Hk) as H.
  apply Z.leb_le in H. rewrite H. eauto.
Qed.

Lemma span_app_stop (p : ascii -> bool) (a b : string) :
  all_chars p a = true ->
  match b with
  | "" => True
  | String c _ => p c = false
  end ->
  Py.span p (a +:+ b) = (a, b).
Proof.
  intros Ha Hb. induction a as [|c a IH].
  - rewrite string_app_nil_l.
    destruct b as [|c b]; [reflexivity|]. simpl. now rewrite Hb.
  - simpl in Ha. apply andb_prop in Ha as [Hc Ha].
    rewrite string_app_cons. simpl. now rewrite Hc, (IH Ha).
Qed.

Lemma version_group_major_minor (a b : string) :
  is_number a = true -> is_number b = true ->
  Re.version_group (a +:+ "." +:+ b +:+ "+") = Some (a +:+ "." +:+ b).
Proof.
  intros [Hta Hda]%andb_prop [Htb Hdb]%andb_prop.
  unfold Re.version_group.
  rewrite (span_app_stop Py.isdigit a _ Hda) by reflexivity.
  rewrite Hta.
  change ("." +:+ b +:+ "+") with (String "." (b +:+ "+")).
  cbv beta iota.
  rewrite (span_app_stop Py.isdigit b _ Hdb) by reflexivity.
  now rewrite Htb.
Qed.

Lemma contains_absent_char (h : ascii) (t s : string) :
  all_chars (fun c => negb (Ascii.eqb c h)) s = true ->
  Py.contains (String h t) s = false.
Proof.
  induction s as [|c s IH]; [reflexivity|].
  simpl. intros [Hc Hs]%andb_prop. apply negb_true_iff in Hc.
  rewrite contains_cons, startswith_cons, Ascii.eqb_sym, Hc.
  now apply IH.
Qed.

Lemma digits_other_char (h : ascii) (s : string) :
  Py.isdigit h = false ->
  all_chars Py.isdigit s = true ->
  all_chars (fun c => negb (Ascii.eqb c h)) s = true.
Proof.
  intros Hh. apply all_chars_impl. intros c Hc.
  destruct (Ascii.eqb c h) eqn:E; [|reflexivity].
  apply Ascii.eqb_eq in E as ->. congruence.
Qed.

(** The text that [format_availability] writes for a version. *)
Lemma formatted_version_lacks (h : ascii) (a b : string) :
  Py.isdigit h = false ->
  all_chars (fun c => negb (Ascii.eqb c h)) "iOS .+" = true ->
  is_number a = true -> is_number b = true ->
  all_chars (fun c => negb (Ascii.eqb c h))
    ("iOS " +:+ a +:+ "." +:+ b +:+ "+") = true.
Proof.
  intros Hh Hlit [_ Ha]%andb_prop [_ Hb]%andb_prop.
  rewrite !all_chars_app.
  rewrite (digits_other_char h a Hh Ha), (digits_other_char h b Hh Hb).
  simpl in Hlit |- *.
  repeat (apply andb_prop in Hlit as [? Hlit]).
  repeat (apply andb_true_intro; split); auto.
Qed.

(** X11. The availability text of an element reads back as its version:
    for a version of natural numbers that [str] can write (below ten to the
    power of the limit), [format_availability] returns a text on which
    [parse_ios_availability] gives that version and no flag. *)
Theorem format_availability_round_trip (element : ApiElement)
  (major minor : Z)
  (Hversion : ios_introduced element = Some (major, minor))
  (Hmajor : bounded major) (Hminor : bounded minor) :
  exists text,
    format_availability element = Ok text
    /\ parse_ios_availability [text]
       = Ok (Some (major, minor), false, false).
Proof.
  unfold format_availability. rewrite Hversion.
  destruct (str_int_bounded major Hmajor) as [a Hsa].
  destruct (str_int_bounded minor Hminor) as [b Hsb].
  rewrite Hsa, Hsb. cbn [bind]. eexists. split; [reflexivity|].
  destruct (str_int_ok major a (proj1 Hmajor) Hsa) as (Ha & Hva & Hla).
  destruct (str_int_ok minor b (proj1 Hminor) Hsb) as (Hb & Hvb & Hlb).
  set (text := "iOS " +:+ a +:+ "." +:+ b +:+ "+").
  assert (Py.strip text = text) as Hs.
  { subst text.
    change ("iOS " +:+ a +:+ "." +:+ b +:+ "+")
      with (String "i" "OS" +:+ " " +:+ (a +:+ "." +:+ b +:+ "+")).
    apply strip_token_app; [reflexivity | |].
    - apply strip_no_space. pose proof Ha as [_ Hda]%andb_prop.
      pose proof Hb as [_ Hdb]%andb_prop.
      rewrite !all_chars_app, (digits_no_space a Hda),
        (digits_no_space b Hdb). reflexivity.
    - destruct a; [discriminate Ha | reflexivity]. }
  assert (Re.search direct_re text = Some (a +:+ "." +:+ b)) as Hd.
  { subst text.
    assert (direct_re ("iOS " +:+ a +:+ "." +:+ b +:+ "+")
            = Some (a +:+ "." +:+ b)) as Hm.
    { change (direct_re ("iOS " +:+ a +:+ "." +:+ b +:+ "+"))
        with (Re.version_group (Py.lstrip (a +:+ "." +:+ b +:+ "+"))).
      assert (Py.lstrip (a +:+ "." +:+ b +:+ "+")
              = a +:+ "." +:+ b +:+ "+") as ->.
      { destruct a as [|c a']; [discriminate Ha|].
        rewrite string_app_cons. simpl.
        apply andb_prop in Ha as [_ Hda]. simpl in Hda.
        apply andb_prop in Hda as [Hc _].
        now rewrite (isdigit_not_space c Hc). }
      now apply version_group_major_minor. }
    change ("iOS " +:+ a +:+ "." +:+ b +:+ "+")
      with (String "i" ("OS " +:+ a +:+ "." +:+ b +:+ "+")) in *.
    cbn [Re.search]. now rewrite Hm. }
  unfold parse_ios_availability. cbn [for_each].
  unfold availability_step. rewrite Hs.
  assert (Py.contains "iOS" text = true) as -> by reflexivity.
  assert (Py.contains "unavailable" text = false) as ->
      by (apply contains_absent_char, formatted_version_lacks;
          auto; reflexivity).
  assert (Py.contains "deprecated" text = false) as ->
      by (apply contains_absent_char, formatted_version_lacks;
          auto; reflexivity).
  assert (Py.contains "obsoleted" text = false) as ->
      by (apply contains_absent_char, formatted_version_lacks;
          auto; reflexivity).
  rewrite Hd, (version_to_tuple_major_minor a b Ha Hb), Hla, Hlb, Hva, Hvb.
  reflexivity.
Qed.

Lemma format_availability_round_trip_witness :
  exists text,
    format_availability
      (mkApiElement "Foo" "struct" "struct Foo {" "" (Some (17, 4))
         false false "Foo.swift" None) = Ok text
    /\ parse_ios_availability [text] = Ok (Some (17, 4), false, false).
Proof.
  apply format_availability_round_trip;
    [reflexivity | split; [lia | vm_compute; reflexivity]
     | split; [lia | vm_compute; reflexivity]].
Defined.

(** The presentation of an element whose version can be written
    returns. *)
Lemma format_availability_printable (element : ApiElement) :
  printable element -> exists text, format_availability element = Ok text.
Proof.
  unfold printable, format_availability.
  destruct (ios_introduced element) as [[major minor]|]; [|eauto].
  intros [Hmajor Hminor].
  destruct (str_int_bounded major Hmajor) as [a ->].
  destruct (str_int_bounded minor Hminor) as [b ->].
  cbn [bind]. eauto.
Qed.

Lemma build_instruction_examples_printable (element : ApiElement) :
  printable element ->
  exists rows, build_instruction_examples element = Ok rows.
Proof.
  intros [text Ht]%format_availability_printable.
  unfold build_instruction_examples, build_output_text.
  rewrite Ht. cbn [bind]. eauto.
Qed.

Lemma build_instruction_examples_two (element : ApiElement)
  (rows : list row) :
  build_instruction_examples element = Ok rows ->
  exists out t1 t2,
    build_output_text element = Ok out
    /\ rows = [mkRow t1 "" out; mkRow t2 "" out].
Proof.
  unfold build_instruction_examples.
  destruct (build_output_text element) as [out|e]; [|discriminate].
  cbn [bind].
  destruct (format_availability element) as [avail|e]; [|discriminate].
  cbn [bind]. intros [= <-]. exists out.
  destruct (in_set (kind element) _);
    [do 2 eexists; split; reflexivity|].
  destruct (String.eqb (kind element) "func");
    do 2 eexists; split; reflexivity.
Qed.

Lemma build_dataset_length (elements : list ApiElement) :
  forall acc rows,
    for_each
      (fun dataset element =>
         let* rows := build_instruction_examples element in
         Ok (dataset ++ rows))
      elements acc = Ok rows ->
    length rows = (length acc + 2 * length elements)%nat.
Proof.
  induction elements as [|e es IH]; intros acc rows; cbn [for_each].
  - intros [= <-]. simpl. lia.
  - intros (acc1 & H1 & H2)%bind_ok.
    apply bind_ok in H1 as (rs & Hrs & [= <-]).
    apply build_instruction_examples_two in Hrs as (out & t1 & t2 & _ & ->).
    apply IH in H2. rewrite H2, length_app. simpl. lia.
Qed.

Lemma emitted_from_printable (swift_file : string) (lines : list string)
  (e : ApiElement) :
  emitted_from swift_file lines e -> printable e.
Proof.
  intros (_ & (major & minor & Hv & _ & Hmajor & Hminor) & _).
  unfold printable. rewrite Hv. now split.
Qed.

(** X12. Every element gives exactly two rows, whatever its kind, each
    with an empty input and the same output, the text of
    [build_output_text]; the dataset has twice as many rows as there are
    elements. The rows are built for every element whose version [str] can
    write, as the version of every element of a scan is. *)
Theorem two_rows_per_element (elements : list ApiElement) :
  (forall rows,
     build_dataset elements = Ok rows ->
     length rows = (2 * length elements)%nat)
  /\ (Forall printable elements ->
      exists rows,
        build_dataset elements = Ok rows
        /\ length rows = (2 * length elements)%nat)
  /\ (forall swift_file lines,
        extract_lines swift_file lines = Ok elements ->
        Forall printable elements)
  /\ (forall e rows,
        build_instruction_examples e = Ok rows ->
        exists out,
          build_output_text e = Ok out
          /\ length rows = 2%nat
          /\ forall r, In r rows -> input r = "" /\ output r = out).
Proof.
  assert (forall rows,
            build_dataset elements = Ok rows ->
            length rows = (2 * length elements)%nat) as Hlen.
  { intros rows H. unfold build_dataset in H.
    apply build_dataset_length in H. simpl in H. lia. }
  split; [exact Hlen|]. split; [|split].
  - intros Hp. unfold build_dataset.
    destruct (for_each_total
                (fun dataset element =>
                   let* rows := build_instruction_examples element in
                   Ok (dataset ++ rows)) elements) with (st := @nil row)
      as [rows Hrows].
    + intros acc e He.
      destruct (build_instruction_examples_printable e) as [rs ->].
      * now apply (proj1 (List.Forall_forall _ _) Hp).
      * cbn [bind]. eauto.
    + exists rows. split; [exact Hrows | now apply Hlen].
  - intros swift_file lines Hs.
    apply extract_lines_emitted in Hs.
    eapply Forall_impl; [exact Hs|].
    intros e. apply emitted_from_printable.
  - intros e rows (out & t1 & t2 & Ho & ->)%build_instruction_examples_two.
    exists out. split; [exact Ho|]. split; [reflexivity|].
    intros r [<-|[<-|[]]]; split; reflexivity.
Qed.

Lemma two_rows_per_element_witness :
  exists rows,
    build_dataset
      [mkApiElement "bar" "func" "func bar()" "" (Some (17, 0))
         false false "Foo.swift" (Some "Foo")] = Ok rows
    /\ length rows = (2 * 1)%nat.
Proof.
  apply (proj1 (proj2 (two_rows_per_element
                         [mkApiElement "bar" "func" "func bar()" ""
                            (Some (17%Z, 0%Z)) false false "Foo.swift"
                            (Some "Foo")]))).
  constructor; [|constructor].
  split; (split; [lia | vm_compute; reflexivity]).
Defined.

(** ** Names of the code examples *)

Lemma unspace_app (a b : string) :
  unspace (a +:+ b) = unspace a +:+ unspace b.
Proof.
  induction a as [|c a IH]; [reflexivity|].
  rewrite string_app_cons. simpl.
  destruct (Ascii.eqb c " "); [exact IH|].
  now rewrite string_app_cons, IH.
Qed.

(** A substitution whose replacements only add spaces to what they
    replace only adds spaces to the text. *)
Lemma sub_unspace (m : string -> option (string * string)) :
  (forall s repl rest,
     m s = Some (repl, rest) ->
     exists consumed,
       s = consumed +:+ rest /\ Py.truthy consumed = true
       /\ unspace repl = unspace consumed) ->
  forall fuel s,
    (String.length s <= fuel)%nat ->
    unspace (Re.sub m fuel s) = unspace s.
Proof.
  intros Hm. induction fuel as [|fuel IH]; intros s Hs; [reflexivity|].
  cbn [Re.sub]. destruct s as [|c s']; [reflexivity|].
  destruct (m (String c s')) as [[repl rest]|] eqn:E.
  - destruct (Hm _ _ _ E) as (consumed & Hc & Hne & Hu).
    rewrite unspace_app, Hu, IH, Hc, unspace_app; [reflexivity|].
    apply (f_equal String.length) in Hc.
    rewrite string_length_app in Hc.
    destruct consumed; [discriminate|]. simpl in *. lia.
  - simpl. rewrite IH by (simpl in Hs; lia). reflexivity.
Qed.

Lemma lower_upper_adds_space (s repl rest : string) :
  lower_upper s = Some (repl, rest) ->
  exists consumed,
    s = consumed +:+ rest /\ Py.truthy consumed = true
    /\ unspace repl = unspace consumed.
Proof.
  unfold lower_upper. destruct s as [|a [|b r]]; try discriminate.
  destruct (Py.islower a && Py.isupper b); [|discriminate].
  intros [= <- <-]. exists (String a (String b "")).
  split; [reflexivity|]. split; [reflexivity|].
  simpl. destruct (Ascii.eqb a " "), (Ascii.eqb b " "); reflexivity.
Qed.

Lemma uppers_then_word_split (s : string) :
  forall g1 g2 rest,
    uppers_then_word s = Some (g1, g2, rest) ->
    s = g1 +:+ g2 +:+ rest /\ Py.truthy g1 = true.
Proof.
  induction s as [|a s IH]; intros g1 g2 rest; [discriminate|].
  cbn [uppers_then_word]. destruct (Py.isupper a); [|discriminate].
  destruct (uppers_then_word s) as [[[h1 h2] r]|].
  - intros [= <- <- <-]. destruct (IH h1 h2 r eq_refl) as [-> _].
    split; reflexivity.
  - destruct s as [|b [|c r]]; try discriminate.
    destruct (Py.isupper b && Py.islower c); [|discriminate].
    intros [= <- <- <-]. split; reflexivity.
Qed.

Lemma acronym_word_adds_space (s repl rest : string) :
  acronym_word s = Some (repl, rest) ->
  exists consumed,
    s = consumed +:+ rest /\ Py.truthy consumed = true
    /\ unspace repl = unspace consumed.
Proof.
  unfold acronym_word.
  destruct (uppers_then_word s) as [[[g1 g2] r]|] eqn:E; [|discriminate].
  intros [= <- <-]. apply uppers_then_word_split in E as [-> Hne].
  exists (g1 +:+ g2). split; [now rewrite string_app_assoc|]. split.
  - destruct g1; [discriminate | reflexivity].
  - now rewrite !unspace_app.
Qed.

(** A substitution that matches nowhere returns the text. *)
Lemma sub_no_match (m : string -> option (string * string))
  (p : ascii -> bool) :
  (forall c s, p c = true -> all_chars p s = true -> m (String c s) = None) ->
  forall fuel s, all_chars p s = true -> Re.sub m fuel s = s.
Proof.
  intros Hm. induction fuel as [|fuel IH]; intros s Hs; [reflexivity|].
  cbn [Re.sub]. destruct s as [|c s']; [reflexivity|].
  simpl in Hs. apply andb_prop in Hs as [Hc Hs].
  now rewrite (Hm c s' Hc Hs), (IH s' Hs).
Qed.

Lemma to_readable_unspace (text : string) :
  unspace (to_readable text) = unspace text.
Proof.
  unfold to_readable.
  rewrite (sub_unspace acronym_word acronym_word_adds_space) by lia.
  now rewrite (sub_unspace lower_upper lower_upper_adds_space) by lia.
Qed.

(** X13. [_to_readable] only adds spaces: without its spaces the result
    is the text without its spaces. A text without capital letters is
    returned as it is. *)
Theorem to_readable_only_adds_spaces (text : string) :
  unspace (to_readable text) = unspace text
  /\ (all_chars (fun c => negb (Py.isupper c)) text = true ->
      to_readable text = text).
Proof.
  split; [apply to_readable_unspace|].
  intros H. unfold to_readable.
  assert (Re.sub lower_upper (String.length text) text = text) as ->.
  { apply (sub_no_match lower_upper (fun c => negb (Py.isupper c)));
      [|exact H].
    intros c s _ Hs. unfold lower_upper.
    destruct s as [|b r]; [reflexivity|].
    simpl in Hs. apply andb_prop in Hs as [Hb _].
    apply negb_true_iff in Hb. now rewrite Hb, andb_false_r. }
  apply (sub_no_match acronym_word (fun c => negb (Py.isupper c)));
    [|exact H].
  intros c s Hc _. unfold acronym_word. cbn [uppers_then_word].
  apply negb_true_iff in Hc. now rewrite Hc.
Qed.

Lemma to_readable_only_adds_spaces_witness :
  to_readable "swift_data-2" = "swift_data-2".
Proof.
  apply (proj2 (to_readable_only_adds_spaces "swift_data-2")). reflexivity.
Defined.

(** [split(c, 1)] cuts at the first [c]. *)
Lemma split_once_first (c : ascii) (s : string) :
  (Py.split_once c s = [s]
   /\ all_chars (fun d => negb (Ascii.eqb d c)) s = true)
  \/ exists a b,
       Py.split_once c s = [a; b] /\ s = a +:+ String c b
       /\ all_chars (fun d => negb (Ascii.eqb d c)) a = true.
Proof.
  induction s as [|d s IH]; simpl; [now left|].
  destruct (Ascii.eqb d c) eqn:E.
  - apply Ascii.eqb_eq in E as ->. right. exists "", s. auto.
  - destruct IH as [[-> Hs] | (a & b & -> & Hs & Ha)].
    + left. now rewrite Hs.
    + right. exists (String d a), b. split; [reflexivity|].
      rewrite string_app_cons, <- Hs. simpl. now rewrite E, Ha.
Qed.

(** X14. [_parse_file_name] cuts the name at its first underscore and
    makes both parts readable; a name without underscore is the topic, with
    the subtopic "Introduction". In both cases the name can be read back
    from the topic (and subtopic) by removing the spaces. *)
Theorem parse_file_name_cases (file_name : string) :
  (all_chars (fun d => negb (Ascii.eqb d "_")) file_name = true
   /\ parse_file_name file_name = (to_readable file_name, "Introduction")
   /\ unspace (fst (parse_file_name file_name)) = unspace file_name)
  \/ (exists topic subtopic,
        file_name = topic +:+ "_" +:+ subtopic
        /\ all_chars (fun d => negb (Ascii.eqb d "_")) topic = true
        /\ parse_file_name file_name
           = (to_readable topic, to_readable subtopic)
        /\ unspace (fst (parse_file_name file_name)) +:+ "_"
             +:+ unspace (snd (parse_file_name file_name))
           = unspace file_name).
Proof.
  unfold parse_file_name.
  destruct (split_once_first "_" file_name)
    as [[-> H] | (a & b & -> & Hs & Ha)].
  - left. cbn [nth fst]. split; [exact H|]. split; [reflexivity|].
    apply to_readable_unspace.
  - right. exists a, b. cbn [nth fst snd].
    split; [exact Hs|]. split; [exact Ha|]. split; [reflexivity|].
    rewrite !to_readable_unspace, Hs.
    change (a +:+ String "_" b) with (a +:+ "_" +:+ b).
    now rewrite !unspace_app.
Qed.

(** ** Version texts *)

(** X15. [version_to_tuple] reads the first two components of a dotted
    version, each a number within the limit of [int], and ignores the
    others. *)
Theorem version_to_tuple_ignores_patch (a b rest : string)
  (Ha : is_number a = true) (Hb : is_number b = true)
  (Hsa : short a = true) (Hsb : short b = true)
  (Hrest : all_chars (fun c => negb (Py.isspace c)) rest = true) :
  version_to_tuple (a +:+ "." +:+ b +:+ "." +:+ rest)
  = Ok (Py.digits_value 0 a, Py.digits_value 0 b).
Proof.
  pose proof Ha as [_ Hda]%andb_prop. pose proof Hb as [_ Hdb]%andb_prop.
  unfold version_to_tuple. rewrite strip_no_space.
  - change (a +:+ "." +:+ b +:+ "." +:+ rest)
      with (a +:+ String "." (b +:+ String "." rest)).
    rewrite (split_app_sep "." a _ (digits_no_dot a Hda)).
    rewrite (split_app_sep "." b _ (digits_no_dot b Hdb)).
    now rewrite (int_number a Ha), (int_number b Hb), Hsa, Hsb.
  - rewrite !all_chars_app, (digits_no_space a Hda),
      (digits_no_space b Hdb), Hrest. reflexivity.
Qed.

Lemma version_to_tuple_ignores_patch_witness :
  version_to_tuple ("17" +:+ "." +:+ "0" +:+ "." +:+ "1-beta") = Ok (17, 0).
Proof.
  apply (version_to_tuple_ignores_patch "17" "0" "1-beta"); reflexivity.
Defined.

(** ** Lines of a file *)

Lemma rev_app_rev_app (a : string) :
  forall b c, String.rev_app (String.rev_app a b) c = String.rev_app b (a +:+ c).
Proof.
  induction a as [|x a IH]; intros b c; [reflexivity|].
  simpl. rewrite IH. reflexivity.
Qed.

Lemma string_rev_involutive (s : string) : String.rev (String.rev s) = s.
Proof.
  unfold String.rev. rewrite rev_app_rev_app. simpl.
  apply string_app_nil_r.
Qed.

Lemma splitlines_go_line (l rest : string) :
  all_chars (fun c => negb (Py.islinebreak c)) l = true ->
  forall cur,
    Py.splitlines_go false cur (l +:+ NL +:+ rest)
    = String.rev (String.rev_app l cur) :: Py.splitlines_go false "" rest.
Proof.
  induction l as [|c l IH]; intros Hl cur.
  - reflexivity.
  - simpl in Hl. apply andb_prop in Hl as [Hc Hl].
    apply negb_true_iff in Hc.
    rewrite string_app_cons. cbn [Py.splitlines_go andb].
    rewrite Hc. apply (IH Hl).
Qed.

Lemma splitlines_terminated (lines : list string) :
  Forall (fun l => all_chars (fun c => negb (Py.islinebreak c)) l = true)
    lines ->
  Py.splitlines (terminated lines) = lines.
Proof.
  unfold Py.splitlines.
  induction 1 as [|l lines Hl Hlines IH]; [reflexivity|].
  cbn [terminated]. rewrite (splitlines_go_line l _ Hl), IH.
  f_equal. apply string_rev_involutive.
Qed.

(** X16. A file whose text is a sequence of lines, each without a line
    boundary inside and each ended by a newline, is scanned as that
    sequence of lines. *)
Theorem extract_api_elements_by_lines (dir : directory)
  (swift_file : string) (lines : list string)
  (Hlines : Forall (fun l => all_chars (fun c => negb (Py.islinebreak c)) l
                             = true) lines)
  (Hread : read_text dir swift_file = Ok (terminated lines)) :
  extract_api_elements dir swift_file = extract_lines swift_file lines.
Proof.
  unfold extract_api_elements. rewrite Hread. cbn [bind].
  now rewrite (splitlines_terminated lines Hlines).
Qed.

Lemma extract_api_elements_by_lines_witness :
  extract_api_elements
    (mkDirectory ["Foo.swift"]
       (fun _ => Ok (terminated ["/// Does X."; AT17; "public struct Foo {";
                                 ""; "}"])))
    "Foo.swift"
  = extract_lines "Foo.swift"
      ["/// Does X."; AT17; "public struct Foo {"; ""; "}"].
Proof.
  apply extract_api_elements_by_lines; [|reflexivity].
  repeat constructor.
Defined.

(** ** The brace counter *)

Lemma nest_line_depth (ts : list (string * Z)) (bd : Z) (l : string) :
  snd (nest_line (ts, bd) l)
  = bd + (if is_context l then 0 else Py.count "{" l - Py.count "}" l).
Proof.
  unfold nest_line. destruct (is_context l); cbn; [lia | reflexivity].
Qed.

Lemma fold_nest_line_depth (lines : list string) :
  forall ts bd,
    snd (fold_left nest_line lines (ts, bd)) = bd + net_braces lines.
Proof.
  induction lines as [|l lines IH]; intros ts bd; cbn [fold_left net_braces].
  - simpl. lia.
  - destruct (nest_line (ts, bd) l) as [ts' bd'] eqn:E.
    rewrite IH. pose proof (nest_line_depth ts bd l) as H.
    rewrite E in H. simpl in H. lia.
Qed.

(** X17. At the end of a scan that returns, as the scan of lines within
    the limit of [int] does, the brace counter is the number of opening
    braces less the number of closing braces on the lines that are neither
    documentation nor availability lines; braces on those two kinds of
    lines are not counted. *)
Theorem brace_depth_is_net_count (swift_file : string)
  (lines : list string) :
  (forall st,
     scan_lines swift_file lines scan_init = Ok st ->
     brace_depth st = net_braces lines)
  /\ (Forall (fun l => short l = true) lines ->
      exists st,
        scan_lines swift_file lines scan_init = Ok st
        /\ brace_depth st = net_braces lines).
Proof.
  assert (forall st,
            scan_lines swift_file lines scan_init = Ok st ->
            brace_depth st = net_braces lines) as H.
  { intros st Hs.
    destruct (scan_lines_frame_ok swift_file lines [] [] [] 0 st Hs)
      as (new & dl & al & Hf).
    unfold scan_init in Hs. rewrite (Hf []) in Hs. injection Hs as <-.
    cbn [brace_depth]. rewrite fold_nest_line_depth. lia. }
  split; [exact H|].
  intros Hl.
  destruct (scan_lines_total swift_file lines scan_init Hl) as [st Hs];
    [constructor|].
  exists st. split; [exact Hs | now apply H].
Qed.

Lemma brace_depth_is_net_count_witness :
  exists st,
    scan_lines "S.swift" ["struct S {"; "/// {"; "  var x: Int"; "}"]
      scan_init = Ok st
    /\ brace_depth st
       = net_braces ["struct S {"; "/// {"; "  var x: Int"; "}"].
Proof.
  apply (proj2 (brace_depth_is_net_count "S.swift"
                  ["struct S {"; "/// {"; "  var x: Int"; "}"])).
  repeat constructor.
Defined.

(** ** Versions beyond the limit *)

